(** * VPN service core: peer manager, server manager and connection orchestrator

    A shallow embedding of the Go sources
      - [vpn/wireguard] peer manager   (PeerManager, PeerConfig, GenerateConfig),
      - [src/core/server_manager.go]   (Server, ServerManager, GetOptimalServer),
      - [src/core] VPN manager         (VPNManager.Connect / Disconnect / ...),
      - [src/utils/uuid.go]            (GenerateUUID),
      - the [vpn] connect handler and the [admin] handler of a user's peers,
        with the records they send back,
    followed by the properties of the natural-language specification that
    can be stated over it.

    Conventions.
      - Go [string] is [string]; Go [int] is a 64-bit two's-complement integer,
        modelled as [Z] with the wrap-around written out ([wrap64]).
      - Go [error] values are the message strings built by [fmt.Errorf]; a
        fallible function returns [result A].
      - Go [map[string]T] is a [gmap string T]; a [range] loop over a map
        visits the entries in an order the language leaves unspecified, so
        every function that ranges over a map takes the visiting order as an
        argument.
      - The file system below [ConfigDir] and [DynamicPeerDir], the template
        directory, the clock and the random UUID source are explicit.
      - What the sources take from the Go library without the repository
        holding it, the case tables behind [strings.ToLower], is a
        parameter of the definitions that depend on it. *)

From Stdlib Require Import ZArith String Ascii List Lia Permutation DecimalString.
From stdpp Require Import base option list gmap strings sorting.

Local Open Scope string_scope.
Local Open Scope Z_scope.

(* ===================================================================== *)
(** ** Results and errors *)
(* ===================================================================== *)

(** [(T, error)] of Go: either a value or the text of the error. *)
Inductive result (A : Type) : Type :=
| Ok (a : A)
| Err (msg : string).
Arguments Ok {A} a.
Arguments Err {A} msg.

Definition is_ok {A} (r : result A) : bool :=
  match r with Ok _ => true | Err _ => false end.

(** Go [error] as returned by functions with a single result: [None] is
    [nil]. *)
Abbreviation error := (option string).

(* ===================================================================== *)
(** ** The parts of package [strings] and [fmt] the sources use *)
(* ===================================================================== *)

Module GoStrings.

(** [strings.HasPrefix(s, prefix)]. *)
Fixpoint HasPrefix (s prefix : string) {struct prefix} : bool :=
  match prefix with
  | EmptyString => true
  | String a prefix' =>
      match s with
      | EmptyString => false
      | String b s' => if Ascii.eqb a b then HasPrefix s' prefix' else false
      end
  end.

(** The scanning loop of [strings.ReplaceAll] for a non-empty [old]:
    occurrences are found left to right and do not overlap.  [skip] counts
    the bytes of the occurrence being replaced that are still to be passed
    over. *)
Fixpoint replace_from (old new : string) (skip : nat) (s : string) : string :=
  match s with
  | EmptyString => EmptyString
  | String c s' =>
      match skip with
      | S k => replace_from old new k s'
      | O =>
          if HasPrefix s old
          then new +:+ replace_from old new (Nat.pred (String.length old)) s'
          else String c (replace_from old new 0 s')
      end
  end.

(** With an empty [old], [strings.ReplaceAll] inserts [new] at the start
    and after every character (byte granularity here; Go does it per
    UTF-8 sequence). *)
Fixpoint insert_after_each (new s : string) : string :=
  match s with
  | EmptyString => EmptyString
  | String c s' => String c (new +:+ insert_after_each new s')
  end.

(** [strings.ReplaceAll(s, old, new)]. *)
Definition ReplaceAll (s old new : string) : string :=
  match old with
  | EmptyString => new +:+ insert_after_each new s
  | String _ _ => replace_from old new 0 s
  end.

(** ASCII case folding of one byte: ['A'..'Z'] to ['a'..'z']. *)
Definition lower_ascii (c : ascii) : ascii :=
  let n := nat_of_ascii c in
  if (Nat.leb 65 n && Nat.leb n 90)%bool then ascii_of_nat (n + 32) else c.

Fixpoint lower_bytes (s : string) : string :=
  match s with
  | EmptyString => EmptyString
  | String c s' => String (lower_ascii c) (lower_bytes s')
  end.

(** No byte of [s] is [utf8.RuneSelf] (0x80) or above. *)
Fixpoint isASCII (s : string) : bool :=
  match s with
  | EmptyString => true
  | String c s' => (Nat.ltb (nat_of_ascii c) 128 && isASCII s')%bool
  end.

Section WithUnicode.

(** [strings.Map(unicode.ToLower, s)]: every rune of [s] mapped through the
    case tables of package [unicode].  The tables belong to the Go
    library, not to the repository, and are not reproduced: the mapping is
    a parameter of whatever depends on it. *)
Variable unicodeLower : string -> string.

(** [strings.ToLower(s)]: a string of ASCII bytes is folded byte by byte;
    any other string goes through the case tables. *)
Definition ToLower (s : string) : string :=
  if isASCII s then lower_bytes s else unicodeLower s.

End WithUnicode.

(** [fmt.Sprintf("%d", n)]: decimal rendering of an [int]. *)
Definition itoa (n : Z) : string := NilZero.string_of_int (Z.to_int n).

End GoStrings.

(** Go [int] on the 64-bit targets the service is built for: the value of
    an arithmetic expression is reduced to the signed 64-bit range. *)
Definition wrap64 (z : Z) : Z := (z + 2 ^ 63) mod 2 ^ 64 - 2 ^ 63.

Definition MaxInt : Z := 2 ^ 63 - 1.

(** What the environment hands to one operation: the identifier drawn by
    [utils.GenerateUUID()] and the successive readings of [time.Now()]
    ([now 0] is the first reading taken during the operation). *)
Record Env : Type := {
  uuid : string;
  now  : nat -> Z
}.

(* ===================================================================== *)
(** ** JSON values, as far as [encoding/json] output is inspected *)
(* ===================================================================== *)

Module Json.

(** The member values the inspected records have.  [JTime t] stands for
    the RFC 3339 text [encoding/json] writes for a [time.Time]. *)
Inductive value : Type :=
| JString (s : string)
| JNumber (n : Z)
| JBool (b : bool)
| JTime (t : Z).

(** A JSON object: its members in the order they are written. *)
Definition object : Type := list (string * value).

Definition keys (o : object) : list string := map fst o.

Fixpoint member (k : string) (o : object) : option value :=
  match o with
  | [] => None
  | (k', v) :: o' => if String.eqb k k' then Some v else member k o'
  end.

End Json.

(* ===================================================================== *)
(** ** Package [config] *)
(* ===================================================================== *)

Module Config.

(** [WireGuardConfig], restricted to the fields the peer manager reads.
    [ConfigDir] and [DynamicPeerDir] name the roots of the two peer
    namespaces of [Wireguard.FS]. *)
Record WireGuardConfig : Type := {
  ConfigDir      : string;
  DynamicPeerDir : string;
  ListenPort     : Z;
  PublicKey      : string;
  DNS            : string;
  ServerIP       : string;
  ServerEndpoint : string;
  AllowedIPs     : string
}.

Record Config : Type := { WireGuard : WireGuardConfig }.

End Config.

(* ===================================================================== *)
(** ** Package [wireguard]: the peer manager *)
(* ===================================================================== *)

Module Wireguard.

Record PeerConfig : Type := {
  ID         : string;
  UserID     : string;
  ServerID   : string;
  DeviceType : string;
  DeviceName : string;
  PublicKey  : string;
  PrivateKey : string;
  IP         : string;
  ServerIP   : string;
  CreatedAt  : Z;
  UpdatedAt  : Z;
  Dynamic    : bool
}.

(** [json.Marshal] of a [PeerConfig]: one member per exported field, named
    by its [json:"..."] tag, in declaration order. *)
Definition MarshalPeerConfig (p : PeerConfig) : Json.object :=
    [ ("id",         Json.JString (ID p));
      ("userId",     Json.JString (UserID p));
      ("serverId",   Json.JString (ServerID p));
      ("deviceType", Json.JString (DeviceType p));
      ("deviceName", Json.JString (DeviceName p));
      ("publicKey",  Json.JString (PublicKey p));
      ("privateKey", Json.JString (PrivateKey p));
      ("ip",         Json.JString (IP p));
      ("serverIp",   Json.JString (ServerIP p));
      ("createdAt",  Json.JTime (CreatedAt p));
      ("updatedAt",  Json.JTime (UpdatedAt p));
      ("dynamic",    Json.JBool (Dynamic p)) ].

(** *** The file system the peer manager works on

    A peer lives in the directory [<root>/<userID>/<peerID>] and its record
    in the file [metadata.json] inside it.  The writing calls have no
    faults: [MkdirAll], [WriteFile] and [RemoveAll] succeed, and reading a
    [metadata.json] written by [utils.WriteJSONToFile] gives back the
    record that was written.  User directories hold peer directories only
    (the managers create nothing else there), the two roots are separate
    trees, and user and peer identifiers are single path elements. *)
Inductive PeerDir : Type :=
| NoMetadata                    (* the directory has no [metadata.json] *)
| BadMetadata (e : string)      (* [utils.ReadJSONFromFile] fails with [e] *)
| Metadata (p : PeerConfig).

(** A user directory [<root>/<userID>].  [listing_error = Some e] is a
    directory that exists but that [os.ReadDir] cannot list, failing with
    the text [e] (a directory without read permission, say); the calls that
    reach a peer directory by its path do not list the user directory and
    are not affected.  A directory made by [os.MkdirAll] can be listed. *)
Record UserDir : Type := {
  listing_error : option string;
  entries       : gmap string PeerDir
}.

Definition set_entries (d : UserDir) (es : gmap string PeerDir) : UserDir :=
  {| listing_error := listing_error d; entries := es |}.

(** The directory [os.MkdirAll] makes when there is none. *)
Definition emptyDir : UserDir := {| listing_error := None; entries := ∅ |}.

Record FS : Type := {
  (* below [cfg.WireGuard.ConfigDir]: user directory -> peer directory *)
  static_root  : gmap string UserDir;
  (* below [cfg.WireGuard.DynamicPeerDir] *)
  dynamic_root : gmap string UserDir;
  (* the files of [vpn/wireguard/config_templates] *)
  templates    : gmap string string
}.

Definition set_static (fs : FS) (r : gmap string UserDir) : FS :=
  {| static_root := r; dynamic_root := dynamic_root fs; templates := templates fs |}.

Definition set_dynamic (fs : FS) (r : gmap string UserDir) : FS :=
  {| static_root := static_root fs; dynamic_root := r; templates := templates fs |}.

(** Directory entries compare by file name. *)
Definition name_le (a b : string * PeerDir) : Prop := String.leb a.1 b.1 = true.

#[global] Instance name_le_dec a b : Decision (name_le a b).
Proof. unfold name_le. apply _. Defined.

(** [os.ReadDir]: the entries of a directory, sorted by file name, or the
    error of a directory that cannot be listed. *)
Definition ReadDir (d : UserDir) : result (list (string * PeerDir)) :=
  match listing_error d with
  | Some e => Err e
  | None => Ok (merge_sort name_le (map_to_list (entries d)))
  end.

(** The error of listing the directory of a user: [None] when there is no
    such directory or when it can be listed. *)
Definition unlistable (root : gmap string UserDir) (userID : string)
    : option string :=
  root !! userID ≫= listing_error.

(** The peer directory at [<root>/<userID>/<peerID>], if it exists. *)
Definition peer_dir (root : gmap string UserDir)
    (userID peerID : string) : option PeerDir :=
  root !! userID ≫= λ d, entries d !! peerID.

(** The read path shared by [getPeerConfig] and [getDynamicPeerConfig]:
    [os.Stat] of [metadata.json], then [utils.ReadJSONFromFile]. *)
Definition read_metadata (root : gmap string UserDir)
    (notFound readFailed : string) (userID peerID : string) : result PeerConfig :=
  match peer_dir root userID peerID with
  | None | Some NoMetadata => Err (notFound +:+ peerID)
  | Some (BadMetadata e) => Err (readFailed +:+ e)
  | Some (Metadata p) => Ok p
  end.

(** The write path shared by [savePeerConfig] and [saveDynamicPeerConfig]:
    two [os.MkdirAll] and [utils.WriteJSONToFile]. *)
Definition write_metadata (root : gmap string UserDir)
    (peer : PeerConfig) : gmap string UserDir :=
  let userDir := default emptyDir (root !! UserID peer) in
  <[UserID peer := set_entries userDir
      (<[ID peer := Metadata peer]> (entries userDir))]>
    root.

(** [os.RemoveAll] of the peer directory. *)
Definition remove_peer_dir (root : gmap string UserDir)
    (userID peerID : string) : gmap string UserDir :=
  match root !! userID with
  | Some d => <[userID := set_entries d (delete peerID (entries d))]> root
  | None => root
  end.

Record PeerManager : Type := { config : Config.Config }.

(** [filepath.Join] of a root and two path elements. *)
Definition Join3 (root a b : string) : string := root +:+ "/" +:+ a +:+ "/" +:+ b.

(** [NewPeerManager]: creates the two root directories when they are
    missing and returns a manager that holds the configuration and
    nothing else.  The roots always exist in [FS], so the file system is
    returned as it was; no stored peer is read. *)
Definition NewPeerManager (cfg : Config.Config) (fs : FS) : PeerManager * FS :=
  ({| config := cfg |}, fs).

Definition savePeerConfig (pm : PeerManager) (peer : PeerConfig) (fs : FS)
    : FS * error :=
  (set_static fs (write_metadata (static_root fs) peer), None).

Definition saveDynamicPeerConfig (pm : PeerManager) (peer : PeerConfig) (fs : FS)
    : FS * error :=
  (set_dynamic fs (write_metadata (dynamic_root fs) peer), None).

Definition getPeerConfig (pm : PeerManager) (userID peerID : string) (fs : FS)
    : result PeerConfig :=
  read_metadata (static_root fs)
    "peer not found: " "failed to read peer metadata: " userID peerID.

Definition getDynamicPeerConfig (pm : PeerManager) (userID peerID : string) (fs : FS)
    : result PeerConfig :=
  read_metadata (dynamic_root fs)
    "dynamic peer not found: " "failed to read dynamic peer metadata: " userID peerID.

Definition deletePeerConfig (pm : PeerManager) (peer : PeerConfig) (fs : FS)
    : FS * error :=
  match peer_dir (static_root fs) (UserID peer) (ID peer) with
  | None =>
      (fs, Some ("peer directory not found: "
                   +:+ Join3 (Config.ConfigDir (Config.WireGuard (config pm)))
                         (UserID peer) (ID peer)))
  | Some _ =>
      (set_static fs (remove_peer_dir (static_root fs) (UserID peer) (ID peer)), None)
  end.

Definition deleteDynamicPeerConfig (pm : PeerManager) (peer : PeerConfig) (fs : FS)
    : FS * error :=
  match peer_dir (dynamic_root fs) (UserID peer) (ID peer) with
  | None =>
      (fs, Some ("dynamic peer directory not found: "
                   +:+ Join3 (Config.DynamicPeerDir (Config.WireGuard (config pm)))
                         (UserID peer) (ID peer)))
  | Some _ =>
      (set_dynamic fs (remove_peer_dir (dynamic_root fs) (UserID peer) (ID peer)), None)
  end.

(** [allocateIP]: the source returns one fixed address. *)
Definition allocateIP (pm : PeerManager) : result string := Ok "10.0.0.2/32".

(** [generateKeyPair]: the source returns one fixed (private, public) pair. *)
Definition generateKeyPair : result (string * string) :=
  Ok ("YAnV4SnPYEA+jS6nQtxF5lS3jj0gqXBVVeP9tz/bP2A=",
      "zzz3UBcqiV9RsYCzJWOU5VVVNk3VtQECQXXPnQiEfQQ=").

(** The result of the scan loop of [getStaticPeers] / [getDynamicPeers]:
    the records of the entries whose metadata can be read; an entry whose
    read fails is logged and passed over.  (Every entry is a directory
    here, so the test [entry.IsDir()] of the loop holds.) *)
Definition scan_peers (get : string -> result PeerConfig)
    (entries : list (string * PeerDir)) : list PeerConfig :=
  omap (λ entry, match get entry.1 with Ok peer => Some peer | Err _ => None end)
       entries.

Definition getStaticPeers (pm : PeerManager) (userID : string) (fs : FS)
    : result (list PeerConfig) :=
  match static_root fs !! userID with
  | None => Ok []
  | Some userDir =>
      match ReadDir userDir with
      | Err e => Err ("failed to read user directory: " +:+ e)
      | Ok entries =>
          Ok (scan_peers (λ peerID, getPeerConfig pm userID peerID fs) entries)
      end
  end.

Definition getDynamicPeers (pm : PeerManager) (userID : string) (fs : FS)
    : result (list PeerConfig) :=
  match dynamic_root fs !! userID with
  | None => Ok []
  | Some userDir =>
      match ReadDir userDir with
      | Err e => Err ("failed to read user directory: " +:+ e)
      | Ok entries =>
          Ok (scan_peers (λ peerID, getDynamicPeerConfig pm userID peerID fs) entries)
      end
  end.

Definition GetPeers (pm : PeerManager) (userID : string) (fs : FS)
    : result (list PeerConfig) :=
  match getStaticPeers pm userID fs with
  | Err e => Err ("failed to get static peers: " +:+ e)
  | Ok staticPeers =>
      match getDynamicPeers pm userID fs with
      | Err e => Err ("failed to get dynamic peers: " +:+ e)
      | Ok dynamicPeers => Ok (staticPeers ++ dynamicPeers)%list
      end
  end.

Definition GetPeer (pm : PeerManager) (userID peerID : string) (fs : FS)
    : result PeerConfig :=
  match getPeerConfig pm userID peerID fs with
  | Ok peer => Ok peer
  | Err _ => getDynamicPeerConfig pm userID peerID fs
  end.

(** *** Configuration rendering *)

Section WithUnicode.

(** The case mapping of the library for strings that are not ASCII, see
    [GoStrings.ToLower]. *)
Variable unicodeLower : string -> string.

(** The [switch] of [getConfigTemplate]. *)
Definition templateFile (deviceType : string) : string :=
  let d := GoStrings.ToLower unicodeLower deviceType in
  if String.eqb d "android" then "android.conf"
  else if (String.eqb d "ios" || String.eqb d "iphone" || String.eqb d "ipad")%bool
       then "ios.conf"
  else if String.eqb d "windows" then "windows.conf"
  else if (String.eqb d "mac" || String.eqb d "macos")%bool then "mac.conf"
  else "generic.conf".

Definition getConfigTemplate (deviceType : string) (fs : FS) : result string :=
  match templates fs !! templateFile deviceType with
  | None =>
      Err ("failed to read template file: open vpn/wireguard/config_templates/"
             +:+ templateFile deviceType +:+ ": no such file or directory")
  | Some content => Ok content
  end.

(** [fmt.Sprintf("{{%s}}", key)]. *)
Definition placeholder (key : string) : string := "{{" +:+ key +:+ "}}".

(** [replaceConfigPlaceholders]: one [strings.ReplaceAll] per entry of the
    map, in the order [order] in which the [range] loop visits its keys. *)
Definition replaceConfigPlaceholders (template : string)
    (replacements : gmap string string) (order : list string) : string :=
  fold_left
    (λ result key,
       match replacements !! key with
       | Some value => GoStrings.ReplaceAll result (placeholder key) value
       | None => result
       end)
    order template.

(** The replacement map [GenerateConfig] builds. *)
Definition replacements (pm : PeerManager) (peer : PeerConfig) : gmap string string :=
  let wg := Config.WireGuard (config pm) in
  list_to_map
    [ ("PRIVATE_KEY",          PrivateKey peer);
      ("CLIENT_IP",            IP peer);
      ("SERVER_PUBLIC_KEY",    Config.PublicKey wg);
      ("SERVER_ENDPOINT",
         Config.ServerEndpoint wg +:+ ":" +:+ GoStrings.itoa (Config.ListenPort wg));
      ("DNS",                  Config.DNS wg);
      ("ALLOWED_IPS",          Config.AllowedIPs wg);
      ("PERSISTENT_KEEPALIVE", "25") ].

(** The keys of that map, as written in the source. *)
Definition placeholderKeys : list string :=
  [ "PRIVATE_KEY"; "CLIENT_IP"; "SERVER_PUBLIC_KEY"; "SERVER_ENDPOINT";
    "DNS"; "ALLOWED_IPS"; "PERSISTENT_KEEPALIVE" ].

(** [order] is a possible visiting order of the replacement map. *)
Definition visits_placeholders (order : list string) : Prop :=
  order ≡ₚ placeholderKeys.

Definition GenerateConfig (pm : PeerManager) (order : list string)
    (peer : PeerConfig) (fs : FS) : result string :=
  match getConfigTemplate (DeviceType peer) fs with
  | Err e => Err ("failed to get config template: " +:+ e)
  | Ok template => Ok (replaceConfigPlaceholders template (replacements pm peer) order)
  end.

End WithUnicode.

(** *** Creating and removing peers

    [applyConfiguration] is the call that pushes the configuration to the
    tunnel interface.  Its callers handle its error; the operations are
    therefore defined over an arbitrary outcome of that call.  The body the
    source gives it, which logs and returns [nil], is [applyConfiguration]
    after the section. *)
Section WithInterface.

Variable applyConfiguration : PeerManager -> FS -> error.

Definition CreatePeer (pm : PeerManager) (env : Env)
    (userID serverID deviceType deviceName : string) (fs : FS)
    : FS * result PeerConfig :=
  let peerID := uuid env in
  match generateKeyPair with
  | Err e => (fs, Err ("failed to generate key pair: " +:+ e))
  | Ok (privateKey, publicKey) =>
      match allocateIP pm with
      | Err e => (fs, Err ("failed to allocate IP address: " +:+ e))
      | Ok ip =>
          let peer :=
            {| ID := peerID; UserID := userID; ServerID := serverID;
               DeviceType := deviceType; DeviceName := deviceName;
               PublicKey := publicKey; PrivateKey := privateKey;
               IP := ip;
               ServerIP := Config.ServerIP (Config.WireGuard (config pm));
               CreatedAt := now env 0; UpdatedAt := now env 1;
               Dynamic := false |} in
          match savePeerConfig pm peer fs with
          | (fs1, Some e) => (fs1, Err ("failed to save peer config: " +:+ e))
          | (fs1, None) =>
              match applyConfiguration pm fs1 with
              | Some e => (fs1, Err ("failed to apply configuration: " +:+ e))
              | None => (fs1, Ok peer)
              end
          end
      end
  end.

Definition CreateDynamicPeer (pm : PeerManager) (env : Env)
    (userID serverID deviceType deviceName : string) (fs : FS)
    : FS * result PeerConfig :=
  let peerID := uuid env in
  match generateKeyPair with
  | Err e => (fs, Err ("failed to generate key pair: " +:+ e))
  | Ok (privateKey, publicKey) =>
      match allocateIP pm with
      | Err e => (fs, Err ("failed to allocate IP address: " +:+ e))
      | Ok ip =>
          let peer :=
            {| ID := peerID; UserID := userID; ServerID := serverID;
               DeviceType := deviceType; DeviceName := deviceName;
               PublicKey := publicKey; PrivateKey := privateKey;
               IP := ip;
               ServerIP := Config.ServerIP (Config.WireGuard (config pm));
               CreatedAt := now env 0; UpdatedAt := now env 1;
               Dynamic := true |} in
          match saveDynamicPeerConfig pm peer fs with
          | (fs1, Some e) => (fs1, Err ("failed to save dynamic peer config: " +:+ e))
          | (fs1, None) =>
              match applyConfiguration pm fs1 with
              | Some e => (fs1, Err ("failed to apply configuration: " +:+ e))
              | None => (fs1, Ok peer)
              end
          end
      end
  end.

Definition RemovePeer (pm : PeerManager) (userID peerID : string) (fs : FS)
    : FS * error :=
  match getPeerConfig pm userID peerID fs with
  | Err e => (fs, Some ("failed to get peer config: " +:+ e))
  | Ok peer =>
      match deletePeerConfig pm peer fs with
      | (fs1, Some e) => (fs1, Some ("failed to delete peer config: " +:+ e))
      | (fs1, None) =>
          match applyConfiguration pm fs1 with
          | Some e => (fs1, Some ("failed to apply configuration: " +:+ e))
          | None => (fs1, None)
          end
      end
  end.

Definition RemoveDynamicPeer (pm : PeerManager) (userID peerID : string) (fs : FS)
    : FS * error :=
  match getDynamicPeerConfig pm userID peerID fs with
  | Err e => (fs, Some ("failed to get dynamic peer config: " +:+ e))
  | Ok peer =>
      match deleteDynamicPeerConfig pm peer fs with
      | (fs1, Some e) => (fs1, Some ("failed to delete dynamic peer config: " +:+ e))
      | (fs1, None) =>
          match applyConfiguration pm fs1 with
          | Some e => (fs1, Some ("failed to apply configuration: " +:+ e))
          | None => (fs1, None)
          end
      end
  end.

End WithInterface.

(** [applyConfiguration] as the source has it: it logs a line and returns
    [nil]. *)
Definition applyConfiguration (pm : PeerManager) (fs : FS) : error := None.

End Wireguard.

(* ===================================================================== *)
(** ** The order of the calls of [RemovePeer] *)
(* ===================================================================== *)

(** [RemovePeer] once more, as the source has it, returning beside the
    files and the error the journal of what it does to the world: the
    directories it removes and the calls of the interface reconciliation,
    in the order in which they are made. *)
Module Journal.

Inductive effect : Type :=
| RemoveAll (path : string)     (* [os.RemoveAll(path)] *)
| ApplyConfiguration.           (* [pm.applyConfiguration()] *)

Definition deletePeerConfig (pm : Wireguard.PeerManager)
    (peer : Wireguard.PeerConfig) (fs : Wireguard.FS)
    : Wireguard.FS * list effect * error :=
  let peerDir :=
    Wireguard.Join3 (Config.ConfigDir (Config.WireGuard (Wireguard.config pm)))
      (Wireguard.UserID peer) (Wireguard.ID peer) in
  match Wireguard.peer_dir (Wireguard.static_root fs)
          (Wireguard.UserID peer) (Wireguard.ID peer) with
  | None => (fs, [], Some ("peer directory not found: " +:+ peerDir))
  | Some _ =>
      (Wireguard.set_static fs
         (Wireguard.remove_peer_dir (Wireguard.static_root fs)
            (Wireguard.UserID peer) (Wireguard.ID peer)),
       [RemoveAll peerDir], None)
  end.

Definition applyConfiguration (pm : Wireguard.PeerManager) (fs : Wireguard.FS)
    : list effect * error :=
  ([ApplyConfiguration], None).

Definition RemovePeer (pm : Wireguard.PeerManager) (userID peerID : string)
    (fs : Wireguard.FS) : Wireguard.FS * list effect * error :=
  match Wireguard.getPeerConfig pm userID peerID fs with
  | Err e => (fs, [], Some ("failed to get peer config: " +:+ e))
  | Ok peer =>
      match deletePeerConfig pm peer fs with
      | (fs1, deleted, Some e) =>
          (fs1, deleted, Some ("failed to delete peer config: " +:+ e))
      | (fs1, deleted, None) =>
          match applyConfiguration pm fs1 with
          | (applied, Some e) =>
              (fs1, (deleted ++ applied)%list,
               Some ("failed to apply configuration: " +:+ e))
          | (applied, None) => (fs1, (deleted ++ applied)%list, None)
          end
      end
  end.

(** What the specification asks of a journal: a directory is removed only
    after the interface reconciliation has been called. *)
Fixpoint removes_after_apply (applied : bool) (journal : list effect) : bool :=
  match journal with
  | [] => true
  | RemoveAll _ :: journal' => (applied && removes_after_apply applied journal')%bool
  | ApplyConfiguration :: journal' => removes_after_apply true journal'
  end.

End Journal.

(* ===================================================================== *)
(** ** Package [core]: the server manager *)
(* ===================================================================== *)

Module Core.

Record Server : Type := {
  ID          : string;
  Name        : string;
  Country     : string;
  City        : string;
  IP          : string;
  Load        : Z;
  Capacity    : Z;
  Status      : string;
  LastUpdated : Z
}.

Definition set_Load (s : Server) (load lastUpdated : Z) : Server :=
  {| ID := ID s; Name := Name s; Country := Country s; City := City s;
     IP := IP s; Load := load; Capacity := Capacity s; Status := Status s;
     LastUpdated := lastUpdated |}.

Definition set_Status (s : Server) (status : string) (lastUpdated : Z) : Server :=
  {| ID := ID s; Name := Name s; Country := Country s; City := City s;
     IP := IP s; Load := Load s; Capacity := Capacity s; Status := status;
     LastUpdated := lastUpdated |}.

(** The registry [servers map[string]*Server]; the map is the only holder
    of the pointers, so the pointed-to records are stored in it. *)
Record ServerManager : Type := { servers : gmap string Server }.

(** The list literal of [initializeServers]. *)
Definition defaultServers (env : Env) : list Server :=
  [ {| ID := "us-east-1"; Name := "US East (N. Virginia)";
       Country := "United States"; City := "Virginia"; IP := "192.168.1.1";
       Load := 0; Capacity := 100; Status := "online"; LastUpdated := now env 0 |};
    {| ID := "us-west-1"; Name := "US West (N. California)";
       Country := "United States"; City := "California"; IP := "192.168.1.2";
       Load := 0; Capacity := 100; Status := "online"; LastUpdated := now env 1 |};
    {| ID := "eu-west-1"; Name := "EU (Ireland)";
       Country := "Ireland"; City := "Dublin"; IP := "192.168.1.3";
       Load := 0; Capacity := 100; Status := "online"; LastUpdated := now env 2 |};
    {| ID := "ap-northeast-1"; Name := "Asia Pacific (Tokyo)";
       Country := "Japan"; City := "Tokyo"; IP := "192.168.1.4";
       Load := 0; Capacity := 100; Status := "maintenance";
       LastUpdated := now env 3 |} ].

(** [initializeServers]: [sm.servers[server.ID] = server] for each. *)
Definition initializeServers (sm : ServerManager) (env : Env) : ServerManager :=
  {| servers := fold_left (λ m server, <[ID server := server]> m)
                          (defaultServers env) (servers sm) |}.

Definition NewServerManager (cfg : Config.Config) (env : Env) : ServerManager :=
  initializeServers {| servers := ∅ |} env.

Definition GetServer (sm : ServerManager) (id : string) : result Server :=
  match servers sm !! id with
  | None => Err ("server not found: " +:+ id)
  | Some server => Ok server
  end.

(** [order] is a possible order in which [range sm.servers] visits the
    keys of the registry. *)
Definition visits (sm : ServerManager) (order : list string) : Prop :=
  order ≡ₚ (map_to_list (servers sm)).*1.

(** The values a [range sm.servers] loop sees when it visits the keys in
    [order]. *)
Definition range_servers (sm : ServerManager) (order : list string) : list Server :=
  omap (λ id, servers sm !! id) order.

Definition GetServersByCountry (sm : ServerManager) (order : list string)
    (country : string) : list Server :=
  filter (λ server, Country server = country) (range_servers sm order).


(** [UpdateServerLoad(id, load)] stores [load] as the server's load;
    [lastUpdated] is the reading of [time.Now()] it takes. *)
Definition UpdateServerLoad (sm : ServerManager) (lastUpdated : Z) (id : string)
    (load : Z) : ServerManager * error :=
  match servers sm !! id with
  | None => (sm, Some ("server not found: " +:+ id))
  | Some server =>
      ({| servers := <[id := set_Load server load lastUpdated]> (servers sm) |}, None)
  end.

Definition online (server : Server) : bool := String.eqb (Status server) "online".

(** The loop of [GetOptimalServer] that keeps the candidate of lowest
    load, with [lowestLoad = -1] as the mark for none chosen yet. *)
Definition lowest_step (acc : option Server * Z) (server : Server)
    : option Server * Z :=
  let '(optimalServer, lowestLoad) := acc in
  if Load server >=? Capacity server then acc
  else if ((lowestLoad =? -1) || (Load server <? lowestLoad))%bool
       then (Some server, Load server)
       else acc.

Definition lowest_load (candidates : list Server) : option Server :=
  fst (fold_left lowest_step candidates (None, -1)).

(** [GetOptimalServer(country)].  [byCountry] is the visiting order of the
    loop inside [GetServersByCountry], [all] the one of the loop over
    [sm.servers] in [GetOptimalServer] itself. *)
Definition GetOptimalServer (sm : ServerManager) (byCountry all : list string)
    (country : string) : result Server :=
  let candidates :=
    if negb (String.eqb country "") then
      let inCountry := GetServersByCountry sm byCountry country in
      match inCountry with
      | [] => filter (λ server, online server = true) (range_servers sm all)
      | _ => inCountry
      end
    else filter (λ server, online server = true) (range_servers sm all)
  in
  match candidates with
  | [] => Err "no available servers"
  | _ =>
      match lowest_load candidates with
      | None => Err "all servers are at capacity"
      | Some optimalServer => Ok optimalServer
      end
  end.

(* =================================================================== *)
(** ** Package [core]: the VPN manager *)
(* =================================================================== *)

Record VPNManager : Type := {
  config        : Config.Config;
  serverManager : ServerManager;
  peerManager   : Wireguard.PeerManager
}.

Definition set_serverManager (vm : VPNManager) (sm : ServerManager) : VPNManager :=
  {| config := config vm; serverManager := sm; peerManager := peerManager vm |}.

Definition NewVPNManager (cfg : Config.Config) (sm : ServerManager)
    (fs : Wireguard.FS) : VPNManager * Wireguard.FS :=
  let '(pm, fs1) := Wireguard.NewPeerManager cfg fs in
  ({| config := cfg; serverManager := sm; peerManager := pm |}, fs1).

Section WithInterface.

(** The case mapping of the library for strings that are not ASCII, see
    [GoStrings.ToLower]. *)
Variable unicodeLower : string -> string.

Variable applyConfiguration : Wireguard.PeerManager -> Wireguard.FS -> error.

(** [Connect]; [order] is the visiting order of the replacement map
    inside [GenerateConfig].  The error of [UpdateServerLoad] is dropped
    by the source. *)
Definition Connect (vm : VPNManager) (env : Env) (order : list string)
    (userID serverID deviceType deviceName : string) (fs : Wireguard.FS)
    : VPNManager * Wireguard.FS * result (Wireguard.PeerConfig * string) :=
  match GetServer (serverManager vm) serverID with
  | Err _ => (vm, fs, Err ("server not found: " +:+ serverID))
  | Ok server =>
      if negb (String.eqb (Status server) "online")
      then (vm, fs, Err ("server is not online: " +:+ serverID))
      else
        match Wireguard.CreatePeer applyConfiguration (peerManager vm) env
                userID serverID deviceType deviceName fs with
        | (fs1, Err e) => (vm, fs1, Err ("failed to create peer: " +:+ e))
        | (fs1, Ok peer) =>
            match Wireguard.GenerateConfig unicodeLower (peerManager vm) order
                    peer fs1 with
            | Err e => (vm, fs1, Err ("failed to generate configuration: " +:+ e))
            | Ok config =>
                let sm1 := fst (UpdateServerLoad (serverManager vm) (now env 2)
                                  serverID (wrap64 (Load server + 1))) in
                (set_serverManager vm sm1, fs1, Ok (peer, config))
            end
        end
  end.

Definition Disconnect (vm : VPNManager) (env : Env) (userID peerID : string)
    (fs : Wireguard.FS) : VPNManager * Wireguard.FS * error :=
  match Wireguard.GetPeer (peerManager vm) userID peerID fs with
  | Err _ => (vm, fs, Some ("peer not found: " +:+ peerID))
  | Ok peer =>
      match Wireguard.RemovePeer applyConfiguration (peerManager vm)
              userID peerID fs with
      | (fs1, Some e) => (vm, fs1, Some ("failed to remove peer: " +:+ e))
      | (fs1, None) =>
          let sm1 := fst (UpdateServerLoad (serverManager vm) (now env 0)
                            (Wireguard.ServerID peer) 0) in
          (set_serverManager vm sm1, fs1, None)
      end
  end.

Definition DynamicConnect (vm : VPNManager) (env : Env) (order : list string)
    (userID serverID deviceType deviceName : string) (fs : Wireguard.FS)
    : VPNManager * Wireguard.FS * result (Wireguard.PeerConfig * string) :=
  match GetServer (serverManager vm) serverID with
  | Err _ => (vm, fs, Err ("server not found: " +:+ serverID))
  | Ok server =>
      if negb (String.eqb (Status server) "online")
      then (vm, fs, Err ("server is not online: " +:+ serverID))
      else
        match Wireguard.CreateDynamicPeer applyConfiguration (peerManager vm) env
                userID serverID deviceType deviceName fs with
        | (fs1, Err e) => (vm, fs1, Err ("failed to create dynamic peer: " +:+ e))
        | (fs1, Ok peer) =>
            match Wireguard.GenerateConfig unicodeLower (peerManager vm) order
                    peer fs1 with
            | Err e => (vm, fs1, Err ("failed to generate configuration: " +:+ e))
            | Ok config =>
                let sm1 := fst (UpdateServerLoad (serverManager vm) (now env 2)
                                  serverID (wrap64 (Load server + 1))) in
                (set_serverManager vm sm1, fs1, Ok (peer, config))
            end
        end
  end.

Definition DynamicDisconnect (vm : VPNManager) (env : Env) (userID peerID : string)
    (fs : Wireguard.FS) : VPNManager * Wireguard.FS * error :=
  match Wireguard.GetPeer (peerManager vm) userID peerID fs with
  | Err _ => (vm, fs, Some ("peer not found: " +:+ peerID))
  | Ok peer =>
      match Wireguard.RemoveDynamicPeer applyConfiguration (peerManager vm)
              userID peerID fs with
      | (fs1, Some e) => (vm, fs1, Some ("failed to remove dynamic peer: " +:+ e))
      | (fs1, None) =>
          let sm1 := fst (UpdateServerLoad (serverManager vm) (now env 0)
                            (Wireguard.ServerID peer) 0) in
          (set_serverManager vm sm1, fs1, None)
      end
  end.

(** A request against the VPN manager, with what the environment hands
    to it. *)
Inductive Op : Type :=
| OpConnect (env : Env) (order : list string)
    (userID serverID deviceType deviceName : string)
| OpDisconnect (env : Env) (userID peerID : string)
| OpDynamicConnect (env : Env) (order : list string)
    (userID serverID deviceType deviceName : string)
| OpDynamicDisconnect (env : Env) (userID peerID : string).

Definition step (st : VPNManager * Wireguard.FS) (op : Op)
    : VPNManager * Wireguard.FS :=
  let '(vm, fs) := st in
  match op with
  | OpConnect env order u s dt dn => fst (Connect vm env order u s dt dn fs)
  | OpDisconnect env u p => fst (Disconnect vm env u p fs)
  | OpDynamicConnect env order u s dt dn =>
      fst (DynamicConnect vm env order u s dt dn fs)
  | OpDynamicDisconnect env u p => fst (DynamicDisconnect vm env u p fs)
  end.

(** The state after a sequence of requests, each run to completion
    before the next (the manager's mutex serialises them). *)
Definition run (st : VPNManager * Wireguard.FS) (ops : list Op)
    : VPNManager * Wireguard.FS :=
  fold_left step ops st.

End WithInterface.

(** The load of server [id], if it is registered. *)
Definition load_of (vm : VPNManager) (id : string) : option Z :=
  Load <$> servers (serverManager vm) !! id.

End Core.

(* ===================================================================== *)
(** ** Package [vpn]: what the HTTP handlers send back for a peer *)
(* ===================================================================== *)

Module Api.

Record ConnectResponse : Type := {
  Config   : string;
  QRCode   : string;
  PeerID   : string;
  ServerIP : string
}.

(** The response [ConnectHandler] and [DynamicConnectHandler] build from
    the result of [Connect] / [DynamicConnect]. *)
Definition connectResponse (peer : Wireguard.PeerConfig) (config qrCode : string)
    : ConnectResponse :=
  {| Config := config; QRCode := qrCode;
     PeerID := Wireguard.ID peer; ServerIP := Wireguard.ServerIP peer |}.

(** [json.Marshal] of a [ConnectResponse]; [qrCode] is [omitempty]. *)
Definition MarshalConnectResponse (r : ConnectResponse) : Json.object :=
  ([ ("config", Json.JString (Config r)) ]
   ++ (if String.eqb (QRCode r) "" then []
       else [ ("qrCode", Json.JString (QRCode r)) ])
   ++ [ ("peerId", Json.JString (PeerID r));
        ("serverIp", Json.JString (ServerIP r)) ])%list.

End Api.


(* ===================================================================== *)
(** ** Templates as sequences of text and placeholders *)
(* ===================================================================== *)

Module Template.

(** The two characters placeholders are delimited with. *)
Definition is_brace (c : ascii) : bool :=
  (Ascii.eqb c "{" || Ascii.eqb c "}")%bool.

(** [s] has no brace in it. *)
Fixpoint brace_free (s : string) : bool :=
  match s with
  | EmptyString => true
  | String c s' => (negb (is_brace c) && brace_free s')%bool
  end.

(** A piece of a template: one character of plain text, or [{{key}}]. *)
Inductive token : Type :=
| Lit (c : ascii)
| Ph (key : string).

Definition token_ok (t : token) : bool :=
  match t with
  | Lit c => negb (is_brace c)
  | Ph key => brace_free key
  end.

(** The text of a sequence of tokens. *)
Fixpoint flatten (toks : list token) : string :=
  match toks with
  | [] => EmptyString
  | Lit c :: toks' => String c (flatten toks')
  | Ph key :: toks' => Wireguard.placeholder key +:+ flatten toks'
  end.

(** Plain text as tokens. *)
Fixpoint lits (s : string) : list token :=
  match s with
  | EmptyString => []
  | String c s' => Lit c :: lits s'
  end.

(** A template is well formed when it is plain text without braces
    interleaved with placeholders whose names have no braces. *)
Definition well_formed (template : string) : Prop :=
  ∃ toks, forallb token_ok toks = true ∧ template = flatten toks.

(** Replacing the placeholder [key] by [value], token by token. *)
Definition subst_token (key value : string) (t : token) : list token :=
  match t with
  | Lit c => [Lit c]
  | Ph key' => if String.eqb key' key then lits value else [Ph key']
  end.

Definition subst (key value : string) (toks : list token) : list token :=
  concat (map (subst_token key value) toks).

(** What a token has become once every key of [order] was replaced by its
    value in [replacements]. *)
Definition subst_all_token (replacements : gmap string string) (order : list string)
    (t : token) : list token :=
  match t with
  | Lit c => [Lit c]
  | Ph key =>
      if bool_decide (key ∈ order) then
        match replacements !! key with
        | Some value => lits value
        | None => [Ph key]
        end
      else [Ph key]
  end.

Definition subst_all (replacements : gmap string string) (order : list string)
    (toks : list token) : list token :=
  concat (map (subst_all_token replacements order) toks).

(** One replacement of [replaceConfigPlaceholders], token by token. *)
Definition subst_step (replacements : gmap string string) (toks : list token)
    (key : string) : list token :=
  match replacements !! key with
  | Some value => subst key value toks
  | None => toks
  end.

(** The values [GenerateConfig] puts into a template for [peer] have no
    brace in them. *)
Definition values_brace_free (pm : Wireguard.PeerManager)
    (peer : Wireguard.PeerConfig) : bool :=
  let wg := Config.WireGuard (Wireguard.config pm) in
  forallb brace_free
    [ Wireguard.PrivateKey peer; Wireguard.IP peer; Config.PublicKey wg;
      Config.ServerEndpoint wg; Config.DNS wg; Config.AllowedIPs wg ].

End Template.

(* ===================================================================== *)
(** ** Values the examples below are run on *)
(* ===================================================================== *)

Module Sample.

(** The device types of the examples are made of ASCII bytes, on which
    [strings.ToLower] does not consult the case tables of package [unicode]:
    their outcome is the same for every mapping put in place of the tables
    ([Connect_ascii] below).  The examples are run with the mapping that
    leaves a string alone. *)
Definition lower (s : string) : string := s.

(** The defaults of [config.Load], with a server public key. *)
Definition cfg : Config.Config :=
  {| Config.WireGuard :=
       {| Config.ConfigDir := "/etc/wireguard";
          Config.DynamicPeerDir := "/etc/wireguard/dynamic-peers";
          Config.ListenPort := 51820;
          Config.PublicKey := "c2VydmVyLXB1YmxpYy1rZXk=";
          Config.DNS := "1.1.1.1,8.8.8.8";
          Config.ServerIP := "10.0.0.1";
          Config.ServerEndpoint := "vpn.example.com";
          Config.AllowedIPs := "0.0.0.0/0, ::/0" |} |}.

Definition genericTemplate : string :=
  "[Interface] PrivateKey = {{PRIVATE_KEY}} Address = {{CLIENT_IP}} DNS = {{DNS}} [Peer] PublicKey = {{SERVER_PUBLIC_KEY}} Endpoint = {{SERVER_ENDPOINT}} AllowedIPs = {{ALLOWED_IPS}} PersistentKeepalive = {{PERSISTENT_KEEPALIVE}}".

(** The tokens of [genericTemplate]. *)
Definition genericTokens : list Template.token :=
  (Template.lits "[Interface] PrivateKey = " ++ [Template.Ph "PRIVATE_KEY"]
   ++ Template.lits " Address = " ++ [Template.Ph "CLIENT_IP"]
   ++ Template.lits " DNS = " ++ [Template.Ph "DNS"]
   ++ Template.lits " [Peer] PublicKey = " ++ [Template.Ph "SERVER_PUBLIC_KEY"]
   ++ Template.lits " Endpoint = " ++ [Template.Ph "SERVER_ENDPOINT"]
   ++ Template.lits " AllowedIPs = " ++ [Template.Ph "ALLOWED_IPS"]
   ++ Template.lits " PersistentKeepalive = "
   ++ [Template.Ph "PERSISTENT_KEEPALIVE"])%list.

(** No peers stored yet; two templates are installed. *)
Definition fs : Wireguard.FS :=
  {| Wireguard.static_root := ∅;
     Wireguard.dynamic_root := ∅;
     Wireguard.templates :=
       {[ "generic.conf" := genericTemplate; "android.conf" := genericTemplate ]} |}.

Definition env (id : string) (t : Z) : Env :=
  {| uuid := id; now := λ k, t + Z.of_nat k |}.

Definition pm : Wireguard.PeerManager := fst (Wireguard.NewPeerManager cfg fs).

Definition sm : Core.ServerManager := Core.NewServerManager cfg (env "" 0).

Definition vm : Core.VPNManager := fst (Core.NewVPNManager cfg sm fs).

(** The peer a first connection of alice creates, and the files after it. *)
Definition alicePeer : Wireguard.PeerConfig :=
  {| Wireguard.ID := "peer-1"; Wireguard.UserID := "alice";
     Wireguard.ServerID := "us-east-1";
     Wireguard.DeviceType := "android"; Wireguard.DeviceName := "phone";
     Wireguard.PublicKey := "zzz3UBcqiV9RsYCzJWOU5VVVNk3VtQECQXXPnQiEfQQ=";
     Wireguard.PrivateKey := "YAnV4SnPYEA+jS6nQtxF5lS3jj0gqXBVVeP9tz/bP2A=";
     Wireguard.IP := "10.0.0.2/32"; Wireguard.ServerIP := "10.0.0.1";
     Wireguard.CreatedAt := 100; Wireguard.UpdatedAt := 101;
     Wireguard.Dynamic := false |}.

Definition fsAlice : Wireguard.FS :=
  fst (Wireguard.CreatePeer Wireguard.applyConfiguration pm (env "peer-1" 100)
         "alice" "us-east-1" "android" "phone" fs).

(** A first connection of alice to the VPN manager, and a second one of
    bob to the same server. *)
Definition afterAlice : Core.VPNManager * Wireguard.FS :=
  fst (Core.Connect lower Wireguard.applyConfiguration vm (env "peer-1" 100)
         Wireguard.placeholderKeys "alice" "us-east-1" "android" "phone" fs).

Definition afterBob : Core.VPNManager * Wireguard.FS :=
  fst (Core.Connect lower Wireguard.applyConfiguration afterAlice.1 (env "peer-2" 200)
         Wireguard.placeholderKeys "bob" "us-east-1" "linux" "desk" afterAlice.2).

(** Three servers of capacity 10. *)
Definition server (id : string) (load : Z) (status : string) : Core.Server :=
  {| Core.ID := id; Core.Name := id; Core.Country := "Iceland";
     Core.City := "Reykjavik"; Core.IP := "192.168.1.9";
     Core.Load := load; Core.Capacity := 10; Core.Status := status;
     Core.LastUpdated := 0 |}.

Definition abc : Core.ServerManager :=
  {| Core.servers :=
       {[ "A" := server "A" 3 "online"; "B" := server "B" 1 "online";
          "C" := server "C" 0 "offline" ]} |}.

(** A registry with one online server of capacity 1. *)
Definition smallServer : Core.Server :=
  {| Core.ID := "edge-1"; Core.Name := "Edge"; Core.Country := "Iceland";
     Core.City := "Reykjavik"; Core.IP := "192.168.1.9";
     Core.Load := 0; Core.Capacity := 1; Core.Status := "online";
     Core.LastUpdated := 0 |}.

Definition smallVm : Core.VPNManager :=
  fst (Core.NewVPNManager cfg {| Core.servers := {[ "edge-1" := smallServer ]} |} fs).

(** A configuration whose DNS entry is itself written as a placeholder,
    and a template that uses the DNS placeholder. *)
Definition cfgNested : Config.Config :=
  {| Config.WireGuard :=
       {| Config.ConfigDir := "/etc/wireguard";
          Config.DynamicPeerDir := "/etc/wireguard/dynamic-peers";
          Config.ListenPort := 51820;
          Config.PublicKey := "c2VydmVyLXB1YmxpYy1rZXk=";
          Config.DNS := "{{ALLOWED_IPS}}";
          Config.ServerIP := "10.0.0.1";
          Config.ServerEndpoint := "vpn.example.com";
          Config.AllowedIPs := "0.0.0.0/0" |} |}.

Definition fsDns : Wireguard.FS :=
  {| Wireguard.static_root := ∅;
     Wireguard.dynamic_root := ∅;
     Wireguard.templates := {[ "android.conf" := "DNS = {{DNS}}" ]} |}.

Definition pmNested : Wireguard.PeerManager :=
  fst (Wireguard.NewPeerManager cfgNested fsDns).

(** Two visiting orders of the replacement map. *)
Definition dnsFirst : list string :=
  [ "DNS"; "ALLOWED_IPS"; "PRIVATE_KEY"; "CLIENT_IP"; "SERVER_PUBLIC_KEY";
    "SERVER_ENDPOINT"; "PERSISTENT_KEEPALIVE" ].

Definition dnsLast : list string :=
  [ "ALLOWED_IPS"; "PRIVATE_KEY"; "CLIENT_IP"; "SERVER_PUBLIC_KEY";
    "SERVER_ENDPOINT"; "PERSISTENT_KEEPALIVE"; "DNS" ].

End Sample.


(* ===================================================================== *)
(** ** Package [utils]: [GenerateUUID] of [src/utils/uuid.go] *)
(* ===================================================================== *)

Module Uuid.

(** One hexadecimal digit, lower case, as [%x] writes it. *)
Definition hexdigit (n : Z) : ascii :=
  match n with
  | 0 => "0" | 1 => "1" | 2 => "2" | 3 => "3" | 4 => "4" | 5 => "5"
  | 6 => "6" | 7 => "7" | 8 => "8" | 9 => "9" | 10 => "a" | 11 => "b"
  | 12 => "c" | 13 => "d" | 14 => "e" | _ => "f"
  end%char.

(** [fmt.Sprintf("%x", bs)] for a byte slice: two digits per byte. *)
Fixpoint hex (bs : list Z) : string :=
  match bs with
  | [] => EmptyString
  | b :: bs' => String (hexdigit (b / 16)) (String (hexdigit (b mod 16)) (hex bs'))
  end.

(** [(uuid[6] & 0x0f) | 0x40] and [(uuid[8] & 0x3f) | 0x80]. *)
Definition set_version (b : Z) : Z := Z.lor (Z.land b 15) 64.
Definition set_variant (b : Z) : Z := Z.lor (Z.land b 63) 128.

(** [GenerateUUID].  [random] is what [rand.Read] has put into the 16-byte
    buffer, [None] when it returns an error; [nanos] is
    [time.Now().UnixNano()]. *)
Definition GenerateUUID (random : option (list Z)) (nanos : Z) : string :=
  match random with
  | None => "fallback-" +:+ GoStrings.itoa nanos
  | Some uuid =>
      let uuid := alter set_version 6%nat uuid in
      let uuid := alter set_variant 8%nat uuid in
      hex (take 4 uuid) +:+ "-" +:+ hex (take 2 (drop 4 uuid)) +:+ "-"
        +:+ hex (take 2 (drop 6 uuid)) +:+ "-" +:+ hex (take 2 (drop 8 uuid))
        +:+ "-" +:+ hex (drop 10 uuid)
  end.

(** A 16-byte buffer. *)
Definition is_buffer (bs : list Z) : Prop :=
  length bs = 16%nat ∧ Forall (λ b, 0 <= b < 256) bs.

Definition is_hex (c : ascii) : bool :=
  existsb (Ascii.eqb c)
    ["0"; "1"; "2"; "3"; "4"; "5"; "6"; "7"; "8"; "9";
     "a"; "b"; "c"; "d"; "e"; "f"]%char.

Fixpoint all_hex (s : string) : bool :=
  match s with
  | EmptyString => true
  | String c s' => (is_hex c && all_hex s')%bool
  end.

End Uuid.

(* ===================================================================== *)
(** ** Package [core]: the rest of the server manager *)
(* ===================================================================== *)

Module Registry.

Definition set_LastUpdated (s : Core.Server) (lastUpdated : Z) : Core.Server :=
  Core.set_Load s (Core.Load s) lastUpdated.

(** [GetServers]: the servers in the order the registry is visited. *)
Definition GetServers (sm : Core.ServerManager) (order : list string)
    : list Core.Server :=
  Core.range_servers sm order.

(** [AddServer]: refuses an identifier that is registered; otherwise stamps
    the server with the reading of the clock and registers it. *)
Definition AddServer (sm : Core.ServerManager) (lastUpdated : Z)
    (server : Core.Server) : Core.ServerManager * error :=
  match Core.servers sm !! Core.ID server with
  | Some _ => (sm, Some ("server already exists: " +:+ Core.ID server))
  | None =>
      ({| Core.servers :=
            <[Core.ID server := set_LastUpdated server lastUpdated]>
              (Core.servers sm) |}, None)
  end.

Definition RemoveServer (sm : Core.ServerManager) (id : string)
    : Core.ServerManager * error :=
  match Core.servers sm !! id with
  | None => (sm, Some ("server not found: " +:+ id))
  | Some _ => ({| Core.servers := delete id (Core.servers sm) |}, None)
  end.

(** The body of the loop of [checkServerStatus] for one server: [up] is the
    outcome of [utils.RandomBool(0.95)] drawn for it, [t] the reading of the
    clock taken when its status changes. *)
Definition check_one (up : bool) (t : Z) (server : Core.Server) : Core.Server :=
  if up then
    if negb (String.eqb (Core.Status server) "online")
    then Core.set_Status server "online" t else server
  else
    if negb (String.eqb (Core.Status server) "offline")
    then Core.set_Status server "offline" t else server.

(** [checkServerStatus]: every server is probed once and updated on its
    own, so the outcome does not depend on the order of the visit; [probe]
    and [clock] give the draw and the clock reading for each identifier. *)
Definition checkServerStatus (sm : Core.ServerManager) (probe : string -> bool)
    (clock : string -> Z) : Core.ServerManager :=
  {| Core.servers :=
       map_imap (λ id server, Some (check_one (probe id) (clock id) server))
                (Core.servers sm) |}.

(** The state of the loop of lowest load of [GetOptimalServer] after the
    servers [seen]: nothing chosen while none had room, otherwise a server
    of least load among those with room. *)
Definition lowest_inv (seen : Core.Server -> Prop) (acc : option Core.Server * Z)
    : Prop :=
  match acc with
  | (None, lowest) =>
      lowest = -1 ∧ ∀ c, seen c -> Core.Capacity c <= Core.Load c
  | (Some s, lowest) =>
      lowest = Core.Load s ∧ 0 <= lowest ∧ seen s ∧
      Core.Load s < Core.Capacity s ∧
      ∀ c, seen c -> Core.Load c < Core.Capacity c -> Core.Load s <= Core.Load c
  end.

End Registry.

(* ===================================================================== *)
(** ** Package [core]: the server manager of the VPN manager's file *)
(* ===================================================================== *)

(** The second server manager of the repository, declared in the file that
    follows the VPN manager: its servers have a location and no capacity. *)
Module CoreAlt.

Record Server : Type := {
  ID       : string;
  Name     : string;
  Location : string;
  IP       : string;
  Status   : string;
  Load     : Z
}.

Record ServerManager : Type := { servers : gmap string Server }.

Definition GetServer (sm : ServerManager) (id : string) : result Server :=
  match servers sm !! id with
  | None => Err ("server not found: " +:+ id)
  | Some server => Ok server
  end.

Definition range_servers (sm : ServerManager) (order : list string) : list Server :=
  omap (λ id, servers sm !! id) order.

Definition visits (sm : ServerManager) (order : list string) : Prop :=
  order ≡ₚ (map_to_list (servers sm)).*1.

(** The loop of [GetBestServer]: servers that are not online are passed
    over; [bestLoad = -1] marks that none was chosen yet. *)
Definition best_step (acc : option Server * Z) (server : Server)
    : option Server * Z :=
  let '(bestServer, bestLoad) := acc in
  if negb (String.eqb (Status server) "online") then acc
  else if ((bestLoad =? -1) || (Load server <? bestLoad))%bool
       then (Some server, Load server)
       else acc.

(** [GetBestServer]; [order] is the visiting order of the registry. *)
Definition GetBestServer (sm : ServerManager) (order : list string) : result Server :=
  if bool_decide (servers sm = ∅) then Err "no servers available"
  else
    match fst (fold_left best_step (range_servers sm order) (None, -1)) with
    | None => Err "no online servers available"
    | Some bestServer => Ok bestServer
    end.

(** The state of the loop of [GetBestServer] after the servers [seen]:
    nothing chosen while none was online, otherwise an online server of
    least load. *)
Definition best_inv (seen : Server -> Prop) (acc : option Server * Z) : Prop :=
  match acc with
  | (None, best) => best = -1 ∧ ∀ c, seen c -> Status c ≠ "online"
  | (Some s, best) =>
      best = Load s ∧ 0 <= best ∧ seen s ∧ Status s = "online" ∧
      ∀ c, seen c -> Status c = "online" -> Load s <= Load c
  end.

(** [AddServer] of this manager stores the server under its identifier
    without looking whether it is taken. *)
Definition AddServer (sm : ServerManager) (server : Server) : ServerManager :=
  {| servers := <[ID server := server]> (servers sm) |}.

Definition UpdateServer (sm : ServerManager) (server : Server)
    : ServerManager * error :=
  match servers sm !! ID server with
  | None => (sm, Some ("server not found: " +:+ ID server))
  | Some _ => ({| servers := <[ID server := server]> (servers sm) |}, None)
  end.

Definition DeleteServer (sm : ServerManager) (id : string) : ServerManager * error :=
  match servers sm !! id with
  | None => (sm, Some ("server not found: " +:+ id))
  | Some _ => ({| servers := delete id (servers sm) |}, None)
  end.

End CoreAlt.

(* ===================================================================== *)
(** ** Package [core]: reading a configuration back *)
(* ===================================================================== *)

Module Vpn.

(** The record [CreatePeer] ([dynamic = false]) and [CreateDynamicPeer]
    ([dynamic = true]) build before they save it. *)
Definition newPeer (pm : Wireguard.PeerManager) (env : Env)
    (userID serverID deviceType deviceName : string) (dynamic : bool)
    : Wireguard.PeerConfig :=
  {| Wireguard.ID := uuid env; Wireguard.UserID := userID;
     Wireguard.ServerID := serverID;
     Wireguard.DeviceType := deviceType; Wireguard.DeviceName := deviceName;
     Wireguard.PublicKey := "zzz3UBcqiV9RsYCzJWOU5VVVNk3VtQECQXXPnQiEfQQ=";
     Wireguard.PrivateKey := "YAnV4SnPYEA+jS6nQtxF5lS3jj0gqXBVVeP9tz/bP2A=";
     Wireguard.IP := "10.0.0.2/32";
     Wireguard.ServerIP := Config.ServerIP (Config.WireGuard (Wireguard.config pm));
     Wireguard.CreatedAt := now env 0; Wireguard.UpdatedAt := now env 1;
     Wireguard.Dynamic := dynamic |}.

(** [VPNManager.GetConfig]; [order] is the visiting order of the
    replacement map inside [GenerateConfig]. *)
Definition GetConfig (unicodeLower : string -> string) (vm : Core.VPNManager)
    (order : list string) (userID peerID : string) (fs : Wireguard.FS)
    : result string :=
  match Wireguard.GetPeer (Core.peerManager vm) userID peerID fs with
  | Err _ => Err ("peer not found: " +:+ peerID)
  | Ok peer =>
      match Wireguard.GenerateConfig unicodeLower (Core.peerManager vm) order
              peer fs with
      | Err e => Err ("failed to generate configuration: " +:+ e)
      | Ok config => Ok config
      end
  end.

(** [wireguard.PeerInfo]. *)
Record PeerInfo : Type := {
  ID         : string;
  ServerID   : string;
  ServerName : string;
  DeviceType : string;
  DeviceName : string;
  IP         : string;
  CreatedAt  : string;
  LastSeen   : string;
  BytesRx    : Z;
  BytesTx    : Z
}.

Section WithTimeFormat.

(** [t.Format(time.RFC3339)] of the standard library. *)
Variable formatRFC3339 : Z -> string.

(** The entry [GetStatus] builds for a peer on a server; [lastSeen] is the
    reading of the clock taken for it.  The traffic counters are the two
    constants of the source. *)
Definition peerInfo (peer : Wireguard.PeerConfig) (server : Core.Server)
    (lastSeen : Z) : PeerInfo :=
  {| ID := Wireguard.ID peer; ServerID := Wireguard.ServerID peer;
     ServerName := Core.Name server;
     DeviceType := Wireguard.DeviceType peer;
     DeviceName := Wireguard.DeviceName peer;
     IP := Wireguard.IP peer;
     CreatedAt := formatRFC3339 (Wireguard.CreatedAt peer);
     LastSeen := formatRFC3339 lastSeen;
     BytesRx := 1024 * 1024 * 10;
     BytesTx := 1024 * 1024 * 5 |}.

(** The loop of [GetStatus] from the [i]-th peer on: it stops at the first
    peer whose server is not registered. *)
Fixpoint status_from (sm : Core.ServerManager) (env : Env) (i : nat)
    (peers : list Wireguard.PeerConfig) : result (list PeerInfo) :=
  match peers with
  | [] => Ok []
  | peer :: peers' =>
      match Core.GetServer sm (Wireguard.ServerID peer) with
      | Err _ => Err ("server not found: " +:+ Wireguard.ServerID peer)
      | Ok server =>
          match status_from sm env (S i) peers' with
          | Err e => Err e
          | Ok infos => Ok (peerInfo peer server (now env i) :: infos)
          end
      end
  end.

(** [VPNManager.GetStatus]. *)
Definition GetStatus (vm : Core.VPNManager) (env : Env) (userID : string)
    (fs : Wireguard.FS) : result (list PeerInfo) :=
  match Wireguard.GetPeers (Core.peerManager vm) userID fs with
  | Err e => Err ("failed to get peers: " +:+ e)
  | Ok peers => status_from (Core.serverManager vm) env 0 peers
  end.

End WithTimeFormat.

(** The text a token of a template stands for once the seven placeholders
    are replaced: a placeholder of another name stays as it is written. *)
Definition render_token (replacements : gmap string string) (t : Template.token)
    : string :=
  match t with
  | Template.Lit c => String c EmptyString
  | Template.Ph key =>
      if bool_decide (key ∈ Wireguard.placeholderKeys)
      then default (Wireguard.placeholder key) (replacements !! key)
      else Wireguard.placeholder key
  end.

Fixpoint render (replacements : gmap string string) (toks : list Template.token)
    : string :=
  match toks with
  | [] => EmptyString
  | t :: toks' => render_token replacements t +:+ render replacements toks'
  end.

End Vpn.

(* ===================================================================== *)
(** ** Package [vpn]: the connect handler *)
(* ===================================================================== *)

Module Handlers.

Record ConnectRequest : Type := {
  ServerID   : string;
  DeviceType : string;
  DeviceName : string
}.

(** What a handler writes: [utils.WriteErrorResponse(w, code, message)] or
    [utils.WriteJSONResponse(w, code, body)]. *)
Inductive Response : Type :=
| ErrorResponse (code : Z) (message : string)
| JSONResponse (code : Z) (body : Api.ConnectResponse).

(** [wireguard.GenerateQRCode]: the source returns one fixed image. *)
Definition GenerateQRCode (config : string) : result string :=
  Ok "data:image/png;base64,iVBORw0KGgoAAAANSUhEUgAAAAEAAAABCAYAAAAfFcSJAAAADUlEQVR42mP8z8BQDwAEhQGAhKmMIQAAAABJRU5ErkJggg==".

Section WithInterface.

(** The case mapping of the library for strings that are not ASCII, see
    [GoStrings.ToLower]. *)
Variable unicodeLower : string -> string.

Variable applyConfiguration : Wireguard.PeerManager -> Wireguard.FS -> error.

(** [ConnectHandler]; [body] is the decoded request, [None] when the
    payload cannot be decoded; [userID] comes from the request context. *)
Definition ConnectHandler (vm : Core.VPNManager) (env : Env) (order : list string)
    (userID : string) (body : option ConnectRequest) (fs : Wireguard.FS)
    : Core.VPNManager * Wireguard.FS * Response :=
  match body with
  | None => (vm, fs, ErrorResponse 400 "Invalid request payload")
  | Some req =>
      if String.eqb (ServerID req) ""
      then (vm, fs, ErrorResponse 400 "Server ID is required")
      else
        let deviceType :=
          if String.eqb (DeviceType req) "" then "generic" else DeviceType req in
        let deviceName :=
          if String.eqb (DeviceName req) "" then deviceType else DeviceName req in
        match Core.Connect unicodeLower applyConfiguration vm env order userID
                (ServerID req)
                deviceType deviceName fs with
        | (vm1, fs1, Err e) =>
            (vm1, fs1, ErrorResponse 500 ("Failed to connect to VPN: " +:+ e))
        | (vm1, fs1, Ok (peer, config)) =>
            let qrCode :=
              if (String.eqb deviceType "android" || String.eqb deviceType "ios")%bool
              then match GenerateQRCode config with
                   | Ok qr => qr
                   | Err _ => ""
                   end
              else "" in
            (vm1, fs1, JSONResponse 200 (Api.connectResponse peer config qrCode))
        end
  end.

End WithInterface.

End Handlers.

(* ===================================================================== *)
(** ** Package [admin]: the peers of a user *)
(* ===================================================================== *)

(** [core.UserManager], as far as the admin handler below calls it.
    Instants are counted in nanoseconds, the unit of [time.Duration]. *)
Module UserManager.

(** [time.Hour]. *)
Definition Hour : Z := 3600 * 10 ^ 9.

(** The zero [time.Time], the first instant of year 1, counted from the
    Unix epoch. *)
Definition zeroTime : Z := - 62135596800 * 10 ^ 9.

(** [GetUserPeers]: the source returns two fixed peers under the
    identifier asked for; the fields it does not set hold the zero value of
    their type. *)
Definition GetUserPeers (env : Env) (id : string)
    : result (list Wireguard.PeerConfig) :=
  Ok [ {| Wireguard.ID := "peer-123"; Wireguard.UserID := id;
          Wireguard.ServerID := "server-1";
          Wireguard.DeviceType := "android"; Wireguard.DeviceName := "";
          Wireguard.PublicKey := "abcdefghijklmnopqrstuvwxyz0123456789ABCDEFG=";
          Wireguard.PrivateKey := "";
          Wireguard.IP := "10.0.0.2/32"; Wireguard.ServerIP := "";
          Wireguard.CreatedAt := now env 0 - 24 * Hour;
          Wireguard.UpdatedAt := zeroTime;
          Wireguard.Dynamic := false |};
       {| Wireguard.ID := "peer-456"; Wireguard.UserID := id;
          Wireguard.ServerID := "server-2";
          Wireguard.DeviceType := "ios"; Wireguard.DeviceName := "";
          Wireguard.PublicKey := "HIJKLMNOPQRSTUVWXYZ0123456789ABCDEFGabcdefg=";
          Wireguard.PrivateKey := "";
          Wireguard.IP := "10.0.0.3/32"; Wireguard.ServerIP := "";
          Wireguard.CreatedAt := now env 1 - 12 * Hour;
          Wireguard.UpdatedAt := zeroTime;
          Wireguard.Dynamic := false |} ].

End UserManager.

Module Admin.

(** What the handler writes: [utils.WriteErrorResponse(w, code, message)],
    or [utils.WriteJSONResponse(w, code, peers)], whose body is the JSON
    array of the JSON forms of the peers. *)
Inductive Response : Type :=
| ErrorResponse (code : Z) (message : string)
| JSONResponse (code : Z) (body : list Json.object).

(** [GetUserPeersHandler], the handler of [GET /users/{id}/peers] of the
    admin router; [userID] is the [id] of the URL. *)
Definition GetUserPeersHandler (env : Env) (userID : string) : Response :=
  match UserManager.GetUserPeers env userID with
  | Err _ => ErrorResponse 500 "Failed to get user peers"
  | Ok peers => JSONResponse 200 (map Wireguard.MarshalPeerConfig peers)
  end.

End Admin.

(* ===================================================================== *)
(** ** More values for the examples *)
(* ===================================================================== *)

Module Fixture.

(** A dynamic connection of carol on the sample manager. *)
Definition afterCarol : Core.VPNManager * Wireguard.FS :=
  fst (Core.DynamicConnect Sample.lower Wireguard.applyConfiguration Sample.vm
         (Sample.env "peer-9" 900) Wireguard.placeholderKeys
         "carol" "us-west-1" "android" "tablet" Sample.fs).

(** The sample files without any template. *)
Definition fsNoTemplates : Wireguard.FS :=
  {| Wireguard.static_root := ∅; Wireguard.dynamic_root := ∅;
     Wireguard.templates := ∅ |}.

(** The sample files with a template for iOS devices. *)
Definition fsIos : Wireguard.FS :=
  {| Wireguard.static_root := ∅; Wireguard.dynamic_root := ∅;
     Wireguard.templates := {[ "ios.conf" := Sample.genericTemplate ]} |}.

(** The manager after alice's connection, with her server removed from
    the registry. *)
Definition aliceOrphaned : Core.VPNManager :=
  Core.set_serverManager Sample.afterAlice.1
    (Registry.RemoveServer (Core.serverManager Sample.afterAlice.1) "us-east-1").1.

(** The files after alice's connection, her directory below the static
    root having lost its read permission. *)
Definition fsAliceUnlistable : Wireguard.FS :=
  Wireguard.set_static Sample.afterAlice.2
    (alter (λ d, {| Wireguard.listing_error :=
                      Some "open /etc/wireguard/alice: permission denied";
                    Wireguard.entries := Wireguard.entries d |})
           "alice" (Wireguard.static_root Sample.afterAlice.2)).

Definition buffer : list Z :=
  [18; 52; 86; 120; 154; 188; 222; 240; 1; 35; 69; 103; 137; 171; 205; 239].

Definition altServers : CoreAlt.ServerManager :=
  {| CoreAlt.servers :=
       {[ "server-1" := {| CoreAlt.ID := "server-1"; CoreAlt.Name := "US East";
                           CoreAlt.Location := "New York";
                           CoreAlt.IP := "us-east.vpn-service.com";
                           CoreAlt.Status := "online"; CoreAlt.Load := 4 |};
          "server-2" := {| CoreAlt.ID := "server-2"; CoreAlt.Name := "US West";
                           CoreAlt.Location := "San Francisco";
                           CoreAlt.IP := "us-west.vpn-service.com";
                           CoreAlt.Status := "online"; CoreAlt.Load := 2 |};
          "server-3" := {| CoreAlt.ID := "server-3"; CoreAlt.Name := "Europe";
                           CoreAlt.Location := "Amsterdam";
                           CoreAlt.IP := "eu.vpn-service.com";
                           CoreAlt.Status := "offline"; CoreAlt.Load := 0 |} ]} |}.

End Fixture.


(* ===================================================================== *)
(** * Properties *)
(* ===================================================================== *)

(** ** The embedding on small inputs *)

Example ReplaceAll_every_occurrence :
  GoStrings.ReplaceAll "a = {{X}}; b = {{X}}{{Y}}" "{{X}}" "12"
  = "a = 12; b = 12{{Y}}".
Proof. reflexivity. Qed.

Example ReplaceAll_no_overlap : GoStrings.ReplaceAll "aaaaa" "aa" "b" = "bba".
Proof. reflexivity. Qed.

Example ReplaceAll_empty_old : GoStrings.ReplaceAll "ab" "" "-" = "-a-b-".
Proof. reflexivity. Qed.

(** Device types of ASCII bytes: the file chosen does not depend on the
    mapping that stands for the case tables. *)
Example templateFile_folds_case (lower : string -> string) :
  Wireguard.templateFile lower "iPhone" = "ios.conf" ∧
  Wireguard.templateFile lower "MacOS" = "mac.conf" ∧
  Wireguard.templateFile lower "linux" = "generic.conf".
Proof. repeat split; reflexivity. Qed.

(** A device type with a byte above 0x7F (here U+0130, encoded in UTF-8,
    before "OS") is folded by the case tables: the file chosen is the one
    for what they return. *)
Example templateFile_unicode (lower : string -> string) :
  let deviceType := String "196" (String "176" "OS") in
  GoStrings.ToLower lower deviceType = lower deviceType ∧
  (lower deviceType = "ios" -> Wireguard.templateFile lower deviceType = "ios.conf").
Proof.
  split; [reflexivity|]. intros H. unfold Wireguard.templateFile.
  change (GoStrings.ToLower lower (String "196" (String "176" "OS")))
    with (lower (String "196" (String "176" "OS"))).
  by rewrite H.
Qed.

Example itoa_port : GoStrings.itoa 51820 = "51820".
Proof. reflexivity. Qed.

Example wrap64_overflow : wrap64 (MaxInt + 1) = - 2 ^ 63.
Proof. reflexivity. Qed.

(** The first connection of the sample scenario: the peer returned, the
    text rendered and the load stored. *)
Example Connect_alice :
  Core.Connect Sample.lower Wireguard.applyConfiguration Sample.vm
      (Sample.env "peer-1" 100)
    Wireguard.placeholderKeys "alice" "us-east-1" "android" "phone" Sample.fs
  = (Sample.afterAlice.1, Sample.afterAlice.2,
     Ok (Sample.alicePeer,
         "[Interface] PrivateKey = YAnV4SnPYEA+jS6nQtxF5lS3jj0gqXBVVeP9tz/bP2A= Address = 10.0.0.2/32 DNS = 1.1.1.1,8.8.8.8 [Peer] PublicKey = c2VydmVyLXB1YmxpYy1rZXk= Endpoint = vpn.example.com:51820 AllowedIPs = 0.0.0.0/0, ::/0 PersistentKeepalive = 25"))
  ∧ Core.load_of Sample.afterAlice.1 "us-east-1" = Some 1
  ∧ Sample.afterAlice.2 = Sample.fsAlice.
Proof. vm_compute. repeat split; reflexivity. Qed.

(** The example of the specification: among A (load 3), B (load 1), both
    online, and C (load 0, offline), selection without a country returns
    B. *)
Example GetOptimalServer_lowest_online :
  Core.GetOptimalServer Sample.abc ["A"; "B"; "C"] ["C"; "A"; "B"] ""
  = Ok (Sample.server "B" 1 "online").
Proof. vm_compute. reflexivity. Qed.

(** ** The peer store *)

Section Store.

Implicit Types root : gmap string Wireguard.UserDir.

Lemma peer_dir_write_eq root p :
  Wireguard.peer_dir (Wireguard.write_metadata root p)
    (Wireguard.UserID p) (Wireguard.ID p) = Some (Wireguard.Metadata p).
Proof.
  unfold Wireguard.peer_dir, Wireguard.write_metadata.
  rewrite lookup_insert_eq. simpl. by rewrite lookup_insert_eq.
Qed.

Lemma peer_dir_write_ne root p u i :
  (u, i) ≠ (Wireguard.UserID p, Wireguard.ID p) ->
  Wireguard.peer_dir (Wireguard.write_metadata root p) u i
      = Wireguard.peer_dir root u i.
Proof.
  intros Hne. unfold Wireguard.peer_dir, Wireguard.write_metadata.
  destruct (decide (u = Wireguard.UserID p)) as [->|Hu].
  - rewrite lookup_insert_eq. simpl.
    rewrite lookup_insert_ne by congruence.
    destruct (root !! Wireguard.UserID p); simpl; [done|apply lookup_empty].
  - by rewrite lookup_insert_ne.
Qed.

(** Saving or removing a record does not change whether a user directory
    can be listed, and saving makes directories that can. *)
Lemma listing_error_write root p u :
  (Wireguard.write_metadata root p !! u) ≫= Wireguard.listing_error
  = (root !! u) ≫= Wireguard.listing_error.
Proof.
  unfold Wireguard.write_metadata.
  destruct (decide (u = Wireguard.UserID p)) as [->|Hu].
  - rewrite lookup_insert_eq. by destruct (root !! Wireguard.UserID p).
  - by rewrite lookup_insert_ne.
Qed.

Lemma listing_error_remove root u i u' :
  (Wireguard.remove_peer_dir root u i !! u') ≫= Wireguard.listing_error
  = (root !! u') ≫= Wireguard.listing_error.
Proof.
  unfold Wireguard.remove_peer_dir.
  destruct (root !! u) as [d|] eqn:Hd; [|done].
  destruct (decide (u' = u)) as [->|Hu].
  - by rewrite lookup_insert_eq, Hd.
  - by rewrite lookup_insert_ne.
Qed.

Lemma peer_dir_remove_eq root u i :
  Wireguard.peer_dir (Wireguard.remove_peer_dir root u i) u i = None.
Proof.
  unfold Wireguard.peer_dir, Wireguard.remove_peer_dir.
  destruct (root !! u) as [d|] eqn:Hd.
  - rewrite lookup_insert_eq. simpl. apply lookup_delete_eq.
  - by rewrite Hd.
Qed.

Lemma peer_dir_remove_ne root u i u' i' :
  (u', i') ≠ (u, i) ->
  Wireguard.peer_dir (Wireguard.remove_peer_dir root u i) u' i'
  = Wireguard.peer_dir root u' i'.
Proof.
  intros Hne. unfold Wireguard.peer_dir, Wireguard.remove_peer_dir.
  destruct (root !! u) as [d|] eqn:Hd; [|done].
  destruct (decide (u' = u)) as [->|Hu].
  - rewrite lookup_insert_eq, Hd. simpl. rewrite lookup_delete_ne; [done|congruence].
  - by rewrite lookup_insert_ne.
Qed.

End Store.

(** A saved record is read back from the static namespace. *)
Lemma getPeerConfig_saved pm peer fs :
  Wireguard.getPeerConfig pm (Wireguard.UserID peer) (Wireguard.ID peer)
    (fst (Wireguard.savePeerConfig pm peer fs)) = Ok peer.
Proof.
  unfold Wireguard.getPeerConfig, Wireguard.read_metadata. simpl.
  by rewrite peer_dir_write_eq.
Qed.

(** Saving one record leaves every other record as it was. *)
Lemma getPeerConfig_saved_other pm peer fs u i :
  (u, i) ≠ (Wireguard.UserID peer, Wireguard.ID peer) ->
  Wireguard.getPeerConfig pm u i (fst (Wireguard.savePeerConfig pm peer fs))
  = Wireguard.getPeerConfig pm u i fs.
Proof.
  intros Hne. unfold Wireguard.getPeerConfig, Wireguard.read_metadata. simpl.
  by rewrite peer_dir_write_ne.
Qed.

(** The record [CreatePeer] builds: the fixed key pair and the fixed address
    whatever the arguments. *)
Lemma CreatePeer_inv apply pm env u s dt dn fs fs1 r :
  Wireguard.CreatePeer apply pm env u s dt dn fs = (fs1, r) ->
  ∃ peer,
    fs1 = fst (Wireguard.savePeerConfig pm peer fs) ∧
    Wireguard.ID peer = uuid env ∧ Wireguard.UserID peer = u ∧
    Wireguard.ServerID peer = s ∧
    Wireguard.PublicKey peer = "zzz3UBcqiV9RsYCzJWOU5VVVNk3VtQECQXXPnQiEfQQ=" ∧
    Wireguard.PrivateKey peer = "YAnV4SnPYEA+jS6nQtxF5lS3jj0gqXBVVeP9tz/bP2A=" ∧
    Wireguard.IP peer = "10.0.0.2/32" ∧
    Wireguard.Dynamic peer = false ∧
    r = match apply pm fs1 with
        | Some e => Err ("failed to apply configuration: " +:+ e)
        | None => Ok peer
        end.
Proof.
  unfold Wireguard.CreatePeer. simpl. intros H.
  destruct (apply pm _) as [e|] eqn:Ha; injection H as <- <-;
    eexists; rewrite Ha; repeat split; reflexivity.
Qed.

(** With the interface call of the source, [CreatePeer] succeeds. *)
Lemma CreatePeer_ok pm env u s dt dn fs :
  ∃ peer fs1,
    Wireguard.CreatePeer Wireguard.applyConfiguration pm env u s dt dn fs
    = (fs1, Ok peer).
Proof. unfold Wireguard.CreatePeer. simpl. eauto. Qed.

(** ** Listing the peers of a user *)

(** C10.  For a user with no stored peers, that is, with a user directory
    neither below the static root nor below the dynamic root, [GetPeers]
    returns the empty list and no error. *)
Theorem GetPeers_without_directories pm userID fs :
  Wireguard.static_root fs !! userID = None ->
  Wireguard.dynamic_root fs !! userID = None ->
  Wireguard.GetPeers pm userID fs = Ok [].
Proof.
  intros Hs Hd.
  unfold Wireguard.GetPeers, Wireguard.getStaticPeers, Wireguard.getDynamicPeers.
  by rewrite Hs, Hd.
Qed.

Lemma GetPeers_without_directories_witness :
  Wireguard.GetPeers Sample.pm "alice" Sample.fs = Ok [].
Proof.
  apply (GetPeers_without_directories Sample.pm "alice" Sample.fs); reflexivity.
Defined.

(** ** Keys and addresses of created peers *)

(** With the interface call of the source, [CreatePeer] saves the record
    it builds and returns it; the key pair and the address are the fixed
    ones. *)
Lemma CreatePeer_source pm env u s dt dn fs :
  ∃ peer,
    Wireguard.CreatePeer Wireguard.applyConfiguration pm env u s dt dn fs
      = (fst (Wireguard.savePeerConfig pm peer fs), Ok peer) ∧
    Wireguard.ID peer = uuid env ∧
    Wireguard.UserID peer = u ∧
    Wireguard.PublicKey peer = "zzz3UBcqiV9RsYCzJWOU5VVVNk3VtQECQXXPnQiEfQQ=" ∧
    Wireguard.PrivateKey peer = "YAnV4SnPYEA+jS6nQtxF5lS3jj0gqXBVVeP9tz/bP2A=" ∧
    Wireguard.IP peer = "10.0.0.2/32".
Proof.
  destruct (CreatePeer_ok pm env u s dt dn fs) as (peer & fs1 & H).
  destruct (CreatePeer_inv _ _ _ _ _ _ _ _ _ _ H)
    as (q & -> & Hid & Hu & _ & Hk & Hs & Hip & _ & Hr).
  simpl in Hr. injection Hr as ->. by exists q.
Qed.

(** C1.  Two successive [CreatePeer] calls with different identifiers both
    succeed, both records are in the store afterwards, and the two peers
    carry the same key pair and the same address. *)
Theorem CreatePeer_twice_same_key_and_address
    pm env1 env2 u1 s1 dt1 dn1 u2 s2 dt2 dn2 fs :
  uuid env1 ≠ uuid env2 ->
  ∃ p1 p2 fs1 fs2,
    Wireguard.CreatePeer Wireguard.applyConfiguration pm env1 u1 s1 dt1 dn1 fs
      = (fs1, Ok p1) ∧
    Wireguard.CreatePeer Wireguard.applyConfiguration pm env2 u2 s2 dt2 dn2 fs1
      = (fs2, Ok p2) ∧
    Wireguard.getPeerConfig pm u1 (uuid env1) fs2 = Ok p1 ∧
    Wireguard.getPeerConfig pm u2 (uuid env2) fs2 = Ok p2 ∧
    Wireguard.PublicKey p1 = Wireguard.PublicKey p2 ∧
    Wireguard.PrivateKey p1 = Wireguard.PrivateKey p2 ∧
    Wireguard.IP p1 = Wireguard.IP p2.
Proof.
  intros Hne.
  destruct (CreatePeer_source pm env1 u1 s1 dt1 dn1 fs)
    as (p1 & H1 & Hid1 & Hu1 & Hk1 & Hs1 & Hip1).
  destruct (CreatePeer_source pm env2 u2 s2 dt2 dn2
              (fst (Wireguard.savePeerConfig pm p1 fs)))
    as (p2 & H2 & Hid2 & Hu2 & Hk2 & Hs2 & Hip2).
  exists p1, p2. do 2 eexists. split; [exact H1|]. split; [exact H2|].
  split; [|split; [|split; [|split]]].
  - rewrite getPeerConfig_saved_other by (rewrite Hid2; congruence).
    rewrite <- Hu1, <- Hid1. apply getPeerConfig_saved.
  - rewrite <- Hu2, <- Hid2. apply getPeerConfig_saved.
  - congruence.
  - congruence.
  - congruence.
Qed.

Lemma CreatePeer_twice_same_key_and_address_witness :
  ∃ p1 p2 fs1 fs2,
    Wireguard.CreatePeer Wireguard.applyConfiguration Sample.pm
      (Sample.env "peer-1" 100) "alice" "us-east-1" "android" "phone" Sample.fs
      = (fs1, Ok p1) ∧
    Wireguard.CreatePeer Wireguard.applyConfiguration Sample.pm
      (Sample.env "peer-2" 200) "bob" "us-east-1" "windows" "laptop" fs1
      = (fs2, Ok p2) ∧
    Wireguard.getPeerConfig Sample.pm "alice" "peer-1" fs2 = Ok p1 ∧
    Wireguard.getPeerConfig Sample.pm "bob" "peer-2" fs2 = Ok p2 ∧
    Wireguard.PublicKey p1 = Wireguard.PublicKey p2 ∧
    Wireguard.PrivateKey p1 = Wireguard.PrivateKey p2 ∧
    Wireguard.IP p1 = Wireguard.IP p2.
Proof.
  apply (CreatePeer_twice_same_key_and_address Sample.pm
           (Sample.env "peer-1" 100) (Sample.env "peer-2" 200)).
  simpl. discriminate.
Defined.

(** C8.  A store holds two peers created before a restart.  The manager
    constructed over that store by [NewPeerManager] reads no stored peer,
    and the peer it creates next is given the address both stored peers
    already have. *)
Theorem address_after_restart_is_reused
    cfg env1 env2 env3 u1 s1 dt1 dn1 u2 s2 dt2 dn2 u3 s3 dt3 dn3 fs :
  uuid env1 ≠ uuid env2 ->
  ∃ p1 p2 p3 fs1 fs2 fs3 pm',
    let pm := fst (Wireguard.NewPeerManager cfg fs) in
    Wireguard.CreatePeer Wireguard.applyConfiguration pm env1 u1 s1 dt1 dn1 fs
      = (fs1, Ok p1) ∧
    Wireguard.CreatePeer Wireguard.applyConfiguration pm env2 u2 s2 dt2 dn2 fs1
      = (fs2, Ok p2) ∧
    Wireguard.NewPeerManager cfg fs2 = (pm', fs2) ∧
    Wireguard.getPeerConfig pm' u1 (uuid env1) fs2 = Ok p1 ∧
    Wireguard.getPeerConfig pm' u2 (uuid env2) fs2 = Ok p2 ∧
    Wireguard.CreatePeer Wireguard.applyConfiguration pm' env3 u3 s3 dt3 dn3 fs2
      = (fs3, Ok p3) ∧
    Wireguard.IP p3 = Wireguard.IP p1 ∧
    Wireguard.IP p3 = Wireguard.IP p2.
Proof.
  intros Hne.
  set (pm := fst (Wireguard.NewPeerManager cfg fs)).
  destruct (CreatePeer_source pm env1 u1 s1 dt1 dn1 fs)
    as (p1 & H1 & Hid1 & Hu1 & _ & _ & Hip1).
  set (fs1 := fst (Wireguard.savePeerConfig pm p1 fs)) in *.
  destruct (CreatePeer_source pm env2 u2 s2 dt2 dn2 fs1)
    as (p2 & H2 & Hid2 & Hu2 & _ & _ & Hip2).
  set (fs2 := fst (Wireguard.savePeerConfig pm p2 fs1)) in *.
  destruct (CreatePeer_source pm env3 u3 s3 dt3 dn3 fs2)
    as (p3 & H3 & _ & _ & _ & _ & Hip3).
  exists p1, p2, p3, fs1, fs2. eexists. exists pm. simpl.
  split; [exact H1|]. split; [exact H2|]. split; [reflexivity|].
  split; [|split; [|split; [exact H3|split; congruence]]].
  - unfold fs2. rewrite getPeerConfig_saved_other by (rewrite Hid2; congruence).
    rewrite <- Hu1, <- Hid1. apply getPeerConfig_saved.
  - rewrite <- Hu2, <- Hid2. apply getPeerConfig_saved.
Qed.

Lemma address_after_restart_is_reused_witness :
  ∃ p1 p2 p3 fs1 fs2 fs3 pm',
    let pm := fst (Wireguard.NewPeerManager Sample.cfg Sample.fs) in
    Wireguard.CreatePeer Wireguard.applyConfiguration pm
      (Sample.env "peer-1" 100) "alice" "us-east-1" "android" "phone" Sample.fs
      = (fs1, Ok p1) ∧
    Wireguard.CreatePeer Wireguard.applyConfiguration pm
      (Sample.env "peer-2" 200) "bob" "us-east-1" "windows" "laptop" fs1
      = (fs2, Ok p2) ∧
    Wireguard.NewPeerManager Sample.cfg fs2 = (pm', fs2) ∧
    Wireguard.getPeerConfig pm' "alice" "peer-1" fs2 = Ok p1 ∧
    Wireguard.getPeerConfig pm' "bob" "peer-2" fs2 = Ok p2 ∧
    Wireguard.CreatePeer Wireguard.applyConfiguration pm'
      (Sample.env "peer-3" 300) "carol" "us-east-1" "mac" "desk" fs2
      = (fs3, Ok p3) ∧
    Wireguard.IP p3 = Wireguard.IP p1 ∧
    Wireguard.IP p3 = Wireguard.IP p2.
Proof.
  apply (address_after_restart_is_reused Sample.cfg
           (Sample.env "peer-1" 100) (Sample.env "peer-2" 200)
           (Sample.env "peer-3" 300)).
  simpl. discriminate.
Defined.

(** ** The interface call *)

(** With the interface call as the source has it, [CreatePeer] returns no
    error at all: the branch that handles a failed reconciliation is never
    taken. *)
Lemma CreatePeer_source_never_fails pm env u s dt dn fs :
  is_ok (snd (Wireguard.CreatePeer Wireguard.applyConfiguration pm env u s dt dn fs))
  = true.
Proof. reflexivity. Qed.

(** The store after one stored peer. *)
Lemma RemovePeer_inv apply pm u i fs peer :
  Wireguard.getPeerConfig pm u i fs = Ok peer ->
  Wireguard.UserID peer = u -> Wireguard.ID peer = i ->
  let fs1 := fst (Wireguard.deletePeerConfig pm peer fs) in
  Wireguard.RemovePeer apply pm u i fs
  = (fs1, match apply pm fs1 with
          | Some e => Some ("failed to apply configuration: " +:+ e)
          | None => None
          end)
  ∧ Wireguard.peer_dir (Wireguard.static_root fs1) u i = None.
Proof.
  intros Hget Hu Hi. unfold Wireguard.RemovePeer. rewrite Hget.
  unfold Wireguard.getPeerConfig, Wireguard.read_metadata in Hget.
  unfold Wireguard.deletePeerConfig. rewrite Hu, Hi.
  destruct (Wireguard.peer_dir (Wireguard.static_root fs) u i) as [d|] eqn:Hd;
    [|discriminate].
  simpl. split.
  - by destruct (apply pm _).
  - apply peer_dir_remove_eq.
Qed.

(** When the peer cannot be read, [RemovePeer] leaves the store as it
    was. *)
Lemma RemovePeer_unreadable apply pm u i fs e :
  Wireguard.getPeerConfig pm u i fs = Err e ->
  Wireguard.RemovePeer apply pm u i fs
  = (fs, Some ("failed to get peer config: " +:+ e)).
Proof. intros Hget. unfold Wireguard.RemovePeer. by rewrite Hget. Qed.

(** The journal is an addition: without it, [Journal.RemovePeer] is
    [RemovePeer] with the interface call of the source. *)
Lemma Journal_RemovePeer_erase pm u i fs :
  let '(fs1, _, r) := Journal.RemovePeer pm u i fs in
  Wireguard.RemovePeer Wireguard.applyConfiguration pm u i fs = (fs1, r).
Proof.
  unfold Journal.RemovePeer, Wireguard.RemovePeer,
    Journal.deletePeerConfig, Wireguard.deletePeerConfig.
  destruct (Wireguard.getPeerConfig pm u i fs) as [peer|e]; [|done].
  by destruct (Wireguard.peer_dir _ _ _).
Qed.

(** C3, as the specification states it, fails: removing the peer alice
    has stored succeeds, and the directory of the peer is removed before
    the interface reconciliation is called, not after it has succeeded. *)
Lemma RemovePeer_order_counterexample :
  Wireguard.getPeerConfig Sample.pm "alice" "peer-1" Sample.fsAlice
    = Ok Sample.alicePeer ∧
  ∃ fs1 journal,
    Journal.RemovePeer Sample.pm "alice" "peer-1" Sample.fsAlice
      = (fs1, journal, None) ∧
    journal = [ Journal.RemoveAll "/etc/wireguard/alice/peer-1";
                Journal.ApplyConfiguration ] ∧
    Journal.removes_after_apply false journal = false.
Proof. split; [reflexivity|]. do 2 eexists. repeat split. Qed.

(** C3, amended.  [RemovePeer] deletes the stored record first and calls
    the interface reconciliation afterwards, once, with no peer named in
    the call.  The reconciliation of the source returns no error, so for a
    peer stored under its own user and identifier [RemovePeer] returns no
    error and the record is gone after the call. *)
Theorem RemovePeer_deletes_before_apply pm u i fs peer :
  Wireguard.getPeerConfig pm u i fs = Ok peer ->
  Wireguard.UserID peer = u ->
  Wireguard.ID peer = i ->
  ∃ fs1,
    Journal.RemovePeer pm u i fs
    = (fs1,
       [ Journal.RemoveAll
           (Wireguard.Join3
              (Config.ConfigDir (Config.WireGuard (Wireguard.config pm))) u i);
         Journal.ApplyConfiguration ],
       None) ∧
    Wireguard.RemovePeer Wireguard.applyConfiguration pm u i fs = (fs1, None) ∧
    Wireguard.getPeerConfig pm u i fs1 = Err ("peer not found: " +:+ i).
Proof.
  intros Hget Hu Hi.
  destruct (RemovePeer_inv Wireguard.applyConfiguration pm u i fs peer Hget Hu Hi)
    as [Hr Hgone].
  exists (Wireguard.deletePeerConfig pm peer fs).1. split_and!.
  - unfold Journal.RemovePeer. rewrite Hget.
    unfold Wireguard.getPeerConfig, Wireguard.read_metadata in Hget.
    unfold Journal.deletePeerConfig, Wireguard.deletePeerConfig. rewrite Hu, Hi.
    by destruct (Wireguard.peer_dir (Wireguard.static_root fs) u i).
  - exact Hr.
  - unfold Wireguard.getPeerConfig, Wireguard.read_metadata. by rewrite Hgone.
Qed.

Lemma RemovePeer_deletes_before_apply_witness :
  ∃ fs1,
    Journal.RemovePeer Sample.pm "alice" "peer-1" Sample.fsAlice
    = (fs1,
       [ Journal.RemoveAll
           (Wireguard.Join3
              (Config.ConfigDir (Config.WireGuard (Wireguard.config Sample.pm)))
              "alice" "peer-1");
         Journal.ApplyConfiguration ],
       None) ∧
    Wireguard.RemovePeer Wireguard.applyConfiguration Sample.pm "alice" "peer-1"
      Sample.fsAlice = (fs1, None) ∧
    Wireguard.getPeerConfig Sample.pm "alice" "peer-1" fs1
    = Err ("peer not found: " +:+ "peer-1").
Proof.
  apply (RemovePeer_deletes_before_apply Sample.pm "alice" "peer-1"
           Sample.fsAlice Sample.alicePeer); reflexivity.
Defined.

(** ** The private key in JSON forms *)

(** The JSON form of a [PeerConfig], which is also the form the record is
    stored in, has a [privateKey] member holding the private key. *)
Lemma MarshalPeerConfig_privateKey peer :
  Json.member "privateKey" (Wireguard.MarshalPeerConfig peer)
  = Some (Json.JString (Wireguard.PrivateKey peer)).
Proof. reflexivity. Qed.

(** So has the JSON form of the peer value [Connect] returns. *)
Example Connect_peer_json :
  ∃ vm1 fs1 peer config,
    Core.Connect Sample.lower Wireguard.applyConfiguration Sample.vm
      (Sample.env "peer-1" 100) Wireguard.placeholderKeys
      "alice" "us-east-1" "android" "phone" Sample.fs
    = (vm1, fs1, Ok (peer, config)) ∧
    Json.member "privateKey" (Wireguard.MarshalPeerConfig peer)
    = Some (Json.JString "YAnV4SnPYEA+jS6nQtxF5lS3jj0gqXBVVeP9tz/bP2A=").
Proof. do 4 eexists. split; vm_compute; reflexivity. Qed.

(** The response the connect handlers build from the peer has the members
    [config], [qrCode], [peerId] and [serverIp] only, hence no [privateKey]
    member; [peerId] and [serverIp] are the peer's identifier and server
    address, and [config] is the rendered configuration. *)
Lemma ConnectResponse_members (peer : Wireguard.PeerConfig) (config qrCode : string) :
  let response := Api.MarshalConnectResponse (Api.connectResponse peer config qrCode) in
  Json.member "privateKey" response = None ∧
  Json.keys response ⊆ ["config"; "qrCode"; "peerId"; "serverIp"] ∧
  Json.member "config" response = Some (Json.JString config) ∧
  Json.member "peerId" response = Some (Json.JString (Wireguard.ID peer)) ∧
  Json.member "serverIp" response = Some (Json.JString (Wireguard.ServerIP peer)).
Proof.
  unfold Api.MarshalConnectResponse, Api.connectResponse. simpl.
  destruct (String.eqb qrCode ""); simpl; repeat split; try reflexivity;
    intros k; rewrite !elem_of_cons, !elem_of_nil; tauto.
Qed.

(** C7.  The code does not keep the private key out of every external
    representation: for every user identifier, [GetUserPeersHandler] answers
    200 with the JSON forms of the peers of [GetUserPeers], two of them, and
    each of these objects has a [privateKey] member, which holds the
    [PrivateKey] field of the peer. *)
Theorem GetUserPeersHandler_writes_private_key env id :
  ∃ peers,
    UserManager.GetUserPeers env id = Ok peers ∧
    length peers = 2%nat ∧
    Admin.GetUserPeersHandler env id
      = Admin.JSONResponse 200 (map Wireguard.MarshalPeerConfig peers) ∧
    Forall (λ peer,
              Wireguard.UserID peer = id ∧
              Json.member "privateKey" (Wireguard.MarshalPeerConfig peer)
              = Some (Json.JString (Wireguard.PrivateKey peer)))
           peers.
Proof.
  unfold Admin.GetUserPeersHandler, UserManager.GetUserPeers.
  eexists. split_and!; [reflexivity..|].
  repeat (apply Forall_cons; split; [by split|]). apply Forall_nil_2.
Qed.

(** The answer to a request for the peers of alice. *)
Example GetUserPeersHandler_alice :
  ∃ first second,
    Admin.GetUserPeersHandler (Sample.env "" 0) "alice"
      = Admin.JSONResponse 200 [first; second] ∧
    Json.member "id" first = Some (Json.JString "peer-123") ∧
    Json.member "userId" first = Some (Json.JString "alice") ∧
    Json.member "privateKey" first = Some (Json.JString "") ∧
    Json.member "id" second = Some (Json.JString "peer-456") ∧
    Json.member "privateKey" second = Some (Json.JString "").
Proof. do 2 eexists. split; [reflexivity|]. repeat split. Qed.

(** ** Load accounting on disconnect *)

Lemma load_of_UpdateServerLoad vm t id load l :
  Core.load_of vm id = Some l ->
  Core.load_of
    (Core.set_serverManager vm
       (fst (Core.UpdateServerLoad (Core.serverManager vm) t id load))) id
  = Some load.
Proof.
  unfold Core.load_of, Core.UpdateServerLoad. intros H.
  destruct (Core.servers (Core.serverManager vm) !! id) as [server|] eqn:Hs;
    [|discriminate].
  simpl. by rewrite lookup_insert_eq.
Qed.

Lemma load_of_UpdateServerLoad_ne vm t id load id' :
  id' ≠ id ->
  Core.load_of
    (Core.set_serverManager vm
       (fst (Core.UpdateServerLoad (Core.serverManager vm) t id load))) id'
  = Core.load_of vm id'.
Proof.
  unfold Core.load_of, Core.UpdateServerLoad. intros Hne.
  destruct (Core.servers (Core.serverManager vm) !! id) as [server|] eqn:Hs;
    [|done].
  simpl. by rewrite lookup_insert_ne.
Qed.

(** C5.  After a successful [Disconnect], the load of the server the
    removed peer referenced is 0, whatever it was before the call: the
    update stores the constant 0 instead of the previous load minus one. *)
Theorem Disconnect_stores_zero_load apply vm env u i fs vm1 fs1 peer l :
  Wireguard.GetPeer (Core.peerManager vm) u i fs = Ok peer ->
  Core.load_of vm (Wireguard.ServerID peer) = Some l ->
  Core.Disconnect apply vm env u i fs = (vm1, fs1, None) ->
  Core.load_of vm1 (Wireguard.ServerID peer) = Some 0.
Proof.
  intros Hget Hl. unfold Core.Disconnect. rewrite Hget.
  destruct (Wireguard.RemovePeer apply (Core.peerManager vm) u i fs)
    as [fs2 [e|]]; intros H; inversion H; subst.
  by apply load_of_UpdateServerLoad with (l := l).
Qed.

Lemma Disconnect_stores_zero_load_witness :
  Core.load_of Sample.afterBob.1 "us-east-1" = Some 2 ∧
  Core.load_of
    (Core.Disconnect Wireguard.applyConfiguration Sample.afterBob.1
       (Sample.env "" 300) "alice" "peer-1" Sample.afterBob.2).1.1 "us-east-1"
  = Some 0.
Proof.
  split; [vm_compute; reflexivity|].
  apply (Disconnect_stores_zero_load Wireguard.applyConfiguration
           Sample.afterBob.1 (Sample.env "" 300) "alice" "peer-1"
           Sample.afterBob.2 _
           (Core.Disconnect Wireguard.applyConfiguration Sample.afterBob.1
              (Sample.env "" 300) "alice" "peer-1" Sample.afterBob.2).1.2
           Sample.alicePeer 2);
    reflexivity.
Defined.

(** ** Selection of a server *)

(** The keys of the registry [NewServerManager] builds. *)
Lemma NewServerManager_keys cfg env :
  (map_to_list (Core.servers (Core.NewServerManager cfg env))).*1
  ≡ₚ ["us-east-1"; "us-west-1"; "eu-west-1"; "ap-northeast-1"].
Proof.
  vm_compute. apply (bool_decide_unpack _). vm_compute. exact I.
Qed.

(** C6.  On the registry [NewServerManager] builds, whatever the order in
    which the servers are visited, selection for the country "Japan" returns
    the server "ap-northeast-1", whose status is "maintenance": the servers
    of a requested country are taken as candidates without looking at their
    status, and the fall-back to the online servers is taken only when the
    country has no server at all. *)
Theorem GetOptimalServer_returns_server_in_maintenance cfg env byCountry all :
  Core.visits (Core.NewServerManager cfg env) byCountry ->
  ∃ server,
    Core.GetOptimalServer (Core.NewServerManager cfg env) byCountry all "Japan"
      = Ok server ∧
    Core.ID server = "ap-northeast-1" ∧
    Core.Country server = "Japan" ∧
    Core.Status server = "maintenance" ∧
    Core.online server = false.
Proof.
  intros Hv. unfold Core.visits in Hv. rewrite NewServerManager_keys in Hv.
  set (sm := Core.NewServerManager cfg env).
  assert (Core.GetServersByCountry sm byCountry "Japan"
          = Core.GetServersByCountry sm
              ["us-east-1"; "us-west-1"; "eu-west-1"; "ap-northeast-1"] "Japan")
    as Hc.
  { apply Permutation_singleton_r. unfold Core.GetServersByCountry, Core.range_servers.
    rewrite Hv. vm_compute. reflexivity. }
  unfold Core.GetOptimalServer. simpl. rewrite Hc.
  vm_compute. eexists. repeat split; reflexivity.
Qed.

Lemma GetOptimalServer_returns_server_in_maintenance_witness :
  ∃ server,
    Core.GetOptimalServer (Core.NewServerManager Sample.cfg (Sample.env "" 0))
      ["ap-northeast-1"; "eu-west-1"; "us-east-1"; "us-west-1"]
      ["ap-northeast-1"; "eu-west-1"; "us-east-1"; "us-west-1"] "Japan"
      = Ok server ∧
    Core.ID server = "ap-northeast-1" ∧
    Core.Country server = "Japan" ∧
    Core.Status server = "maintenance" ∧
    Core.online server = false.
Proof.
  apply (GetOptimalServer_returns_server_in_maintenance Sample.cfg (Sample.env "" 0)
           ["ap-northeast-1"; "eu-west-1"; "us-east-1"; "us-west-1"]
           ["ap-northeast-1"; "eu-west-1"; "us-east-1"; "us-west-1"]).
  unfold Core.visits. vm_compute.
  apply (bool_decide_unpack _). vm_compute. exact I.
Defined.

(** What the loop of lowest load returns is one of the candidates, and is
    below its capacity. *)
Lemma lowest_step_fold (P : Core.Server -> Prop) candidates acc :
  (∀ s, acc.1 = Some s -> P s) ->
  (∀ s, s ∈ candidates -> Core.Load s < Core.Capacity s -> P s) ->
  ∀ s, (fold_left Core.lowest_step candidates acc).1 = Some s -> P s.
Proof.
  revert acc. induction candidates as [|c candidates IH]; intros acc Hacc Hin s; simpl.
  - apply Hacc.
  - apply IH.
    + intros s'. unfold Core.lowest_step. destruct acc as [o lowest].
      destruct (Z.geb_spec (Core.Load c) (Core.Capacity c)); [apply Hacc|].
      destruct (_ || _)%bool; [|apply Hacc].
      simpl. intros [= <-]. apply Hin; [left|lia].
    + intros s' Hs'. apply Hin. by right.
Qed.

(** Without a preferred country, the server selected is online and has
    room: this path filters on the status. *)
Lemma GetOptimalServer_any_country sm byCountry all server :
  Core.GetOptimalServer sm byCountry all "" = Ok server ->
  Core.Status server = "online" ∧ Core.Load server < Core.Capacity server.
Proof.
  unfold Core.GetOptimalServer. simpl.
  set (candidates := filter _ _).
  destruct candidates as [|c cs] eqn:Hc; [discriminate|].
  rewrite <- Hc. clear Hc c cs.
  destruct (Core.lowest_load candidates) as [s|] eqn:Hs; [|discriminate].
  intros [= <-]. revert Hs. unfold Core.lowest_load.
  apply (lowest_step_fold
           (λ s, Core.Status s = "online" ∧ Core.Load s < Core.Capacity s)).
  - discriminate.
  - intros s' Hin Hlt. split; [|done].
    apply list_elem_of_filter in Hin as [Hon _].
    unfold Core.online in Hon. by apply String.eqb_eq.
Qed.

(** ** The load of a server over a sequence of requests *)

Lemma wrap64_small z : 0 <= z <= MaxInt -> wrap64 z = z.
Proof.
  unfold wrap64, MaxInt. intros Hz.
  rewrite Z.mod_small; lia.
Qed.

Section Load.

Variable lower : string -> string.
Variable apply : Wireguard.PeerManager -> Wireguard.FS -> error.

(** A connection leaves the load of a server as it was or stores the load
    plus one. *)
Lemma Connect_load vm env order u s dt dn fs id l :
  Core.load_of vm id = Some l ->
  0 <= l -> l + 1 <= MaxInt ->
  ∃ l', Core.load_of (Core.Connect lower apply vm env order u s dt dn fs).1.1 id
      = Some l'
        ∧ 0 <= l' <= l + 1.
Proof.
  intros Hl H0 Hmax. unfold Core.Connect, Core.GetServer.
  destruct (Core.servers (Core.serverManager vm) !! s) as [server|] eqn:Hs;
    [|exists l; simpl; split; [done|lia]].
  destruct (negb _); [exists l; simpl; split; [done|lia]|].
  destruct (Wireguard.CreatePeer _ _ _ _ _ _ _ _) as [fs1 [peer|e]];
    [|exists l; simpl; split; [done|lia]].
  destruct (Wireguard.GenerateConfig lower _ _ _ _);
    [|exists l; simpl; split; [done|lia]].
  simpl. destruct (decide (id = s)) as [->|Hne].
  - assert (Core.Load server = l) as ->.
    { unfold Core.load_of in Hl. rewrite Hs in Hl. by injection Hl. }
    exists (l + 1). rewrite (load_of_UpdateServerLoad _ _ _ _ l Hl).
    rewrite wrap64_small by lia. split; [done|lia].
  - exists l. rewrite load_of_UpdateServerLoad_ne by done. split; [done|lia].
Qed.

Lemma DynamicConnect_load vm env order u s dt dn fs id l :
  Core.load_of vm id = Some l ->
  0 <= l -> l + 1 <= MaxInt ->
  ∃ l', Core.load_of (Core.DynamicConnect lower apply vm env order u s dt dn fs).1.1 id
        = Some l' ∧ 0 <= l' <= l + 1.
Proof.
  intros Hl H0 Hmax. unfold Core.DynamicConnect, Core.GetServer.
  destruct (Core.servers (Core.serverManager vm) !! s) as [server|] eqn:Hs;
    [|exists l; simpl; split; [done|lia]].
  destruct (negb _); [exists l; simpl; split; [done|lia]|].
  destruct (Wireguard.CreateDynamicPeer _ _ _ _ _ _ _ _) as [fs1 [peer|e]];
    [|exists l; simpl; split; [done|lia]].
  destruct (Wireguard.GenerateConfig lower _ _ _ _);
    [|exists l; simpl; split; [done|lia]].
  simpl. destruct (decide (id = s)) as [->|Hne].
  - assert (Core.Load server = l) as ->.
    { unfold Core.load_of in Hl. rewrite Hs in Hl. by injection Hl. }
    exists (l + 1). rewrite (load_of_UpdateServerLoad _ _ _ _ l Hl).
    rewrite wrap64_small by lia. split; [done|lia].
  - exists l. rewrite load_of_UpdateServerLoad_ne by done. split; [done|lia].
Qed.

(** A disconnection leaves the load of a server as it was or stores 0. *)
Lemma Disconnect_load vm env u i fs id l :
  Core.load_of vm id = Some l ->
  0 <= l ->
  ∃ l', Core.load_of (Core.Disconnect apply vm env u i fs).1.1 id = Some l'
        ∧ 0 <= l' <= l.
Proof.
  intros Hl H0. unfold Core.Disconnect.
  destruct (Wireguard.GetPeer _ _ _ _) as [peer|e];
    [|exists l; simpl; split; [done|lia]].
  destruct (Wireguard.RemovePeer _ _ _ _ _) as [fs1 [e|]];
    [exists l; simpl; split; [done|lia]|].
  simpl. destruct (decide (id = Wireguard.ServerID peer)) as [->|Hne].
  - exists 0. rewrite (load_of_UpdateServerLoad _ _ _ _ l Hl). split; [done|lia].
  - exists l. rewrite load_of_UpdateServerLoad_ne by done. split; [done|lia].
Qed.

Lemma DynamicDisconnect_load vm env u i fs id l :
  Core.load_of vm id = Some l ->
  0 <= l ->
  ∃ l', Core.load_of (Core.DynamicDisconnect apply vm env u i fs).1.1 id = Some l'
        ∧ 0 <= l' <= l.
Proof.
  intros Hl H0. unfold Core.DynamicDisconnect.
  destruct (Wireguard.GetPeer _ _ _ _) as [peer|e];
    [|exists l; simpl; split; [done|lia]].
  destruct (Wireguard.RemoveDynamicPeer _ _ _ _ _) as [fs1 [e|]];
    [exists l; simpl; split; [done|lia]|].
  simpl. destruct (decide (id = Wireguard.ServerID peer)) as [->|Hne].
  - exists 0. rewrite (load_of_UpdateServerLoad _ _ _ _ l Hl). split; [done|lia].
  - exists l. rewrite load_of_UpdateServerLoad_ne by done. split; [done|lia].
Qed.

Lemma step_load st op id l :
  Core.load_of st.1 id = Some l ->
  0 <= l -> l + 1 <= MaxInt ->
  ∃ l', Core.load_of (Core.step lower apply st op).1 id = Some l' ∧ 0 <= l' <= l + 1.
Proof.
  destruct st as [vm fs]. intros Hl H0 Hmax. simpl in Hl.
  destruct op; simpl.
  - by apply Connect_load.
  - destruct (Disconnect_load vm env userID peerID fs id l Hl H0) as (l' & ? & ?).
    exists l'. split; [done|lia].
  - by apply DynamicConnect_load.
  - destruct (DynamicDisconnect_load vm env userID peerID fs id l Hl H0)
      as (l' & ? & ?).
    exists l'. split; [done|lia].
Qed.

End Load.

(** C4, as the specification states it, fails: two connections to a server
    of capacity 1 leave it with load 2. *)
Lemma load_exceeds_capacity_counterexample :
  let st := Core.run Sample.lower Wireguard.applyConfiguration
      (Sample.smallVm, Sample.fs)
              [ Core.OpConnect (Sample.env "peer-1" 100) Wireguard.placeholderKeys
                  "alice" "edge-1" "android" "phone";
                Core.OpConnect (Sample.env "peer-2" 200) Wireguard.placeholderKeys
                  "bob" "edge-1" "android" "tablet" ] in
  Core.servers (Core.serverManager Sample.smallVm) !! "edge-1"
    = Some Sample.smallServer ∧
  Core.Load Sample.smallServer = 0 ∧
  ∃ server,
    Core.servers (Core.serverManager st.1) !! "edge-1" = Some server ∧
    Core.Capacity server = 1 ∧
    Core.Load server = 2 ∧
    Core.Load server > Core.Capacity server.
Proof.
  vm_compute. split; [done|]. split; [done|].
  eexists. repeat split; reflexivity.
Qed.

(** C4, amended.  Over every sequence of connect and disconnect requests,
    the load of a registered server whose load is not negative at the start
    stays a registered, non-negative load, and it grows by at most one per
    request, as long as that count fits the machine integer.  The capacity
    of the server plays no part. *)
Theorem load_never_negative lower apply ops vm fs id l :
  Core.load_of vm id = Some l ->
  0 <= l ->
  l + Z.of_nat (length ops) <= MaxInt ->
  ∃ l', Core.load_of (Core.run lower apply (vm, fs) ops).1 id = Some l'
        ∧ 0 <= l' <= l + Z.of_nat (length ops).
Proof.
  change vm with (vm, fs).1 at 1. generalize (vm, fs). clear vm fs.
  revert l. induction ops as [|op ops IH]; intros l st Hl H0 Hmax.
  - exists l. simpl. split; [done|lia].
  - simpl length in *. rewrite Nat2Z.inj_succ in *.
    destruct (step_load lower apply st op id l Hl H0) as (l1 & Hl1 & Hb1); [lia|].
    destruct (IH l1 (Core.step lower apply st op) Hl1) as (l' & Hl' & Hb'); [lia..|].
    exists l'. split; [exact Hl'|lia].
Qed.

Lemma load_never_negative_witness :
  ∃ l', Core.load_of
          (Core.run Sample.lower Wireguard.applyConfiguration
              (Sample.smallVm, Sample.fs)
             [ Core.OpConnect (Sample.env "peer-1" 100) Wireguard.placeholderKeys
                 "alice" "edge-1" "android" "phone";
               Core.OpDisconnect (Sample.env "" 200) "alice" "peer-1" ]).1
          "edge-1" = Some l'
        ∧ 0 <= l' <= 0 + Z.of_nat 2.
Proof.
  apply (load_never_negative Sample.lower Wireguard.applyConfiguration
           [ Core.OpConnect (Sample.env "peer-1" 100) Wireguard.placeholderKeys
               "alice" "edge-1" "android" "phone";
             Core.OpDisconnect (Sample.env "" 200) "alice" "peer-1" ]
           Sample.smallVm Sample.fs "edge-1" 0).
  - reflexivity.
  - lia.
  - vm_compute. discriminate.
Defined.


(** ** Rendering a configuration *)

Section Replace.

Import GoStrings Template Wireguard.

Lemma app_nil_string (b : string) : "" +:+ b = b.
Proof. reflexivity. Qed.

Lemma app_cons_string x (a b : string) : String x a +:+ b = String x (a +:+ b).
Proof. reflexivity. Qed.

Lemma app_assoc_string (a b c : string) : (a +:+ b) +:+ c = a +:+ (b +:+ c).
Proof.
  induction a as [|x a IH]; [done|].
  rewrite !app_cons_string. by rewrite IH.
Qed.

Lemma brace_free_app a b :
  brace_free (a +:+ b) = (brace_free a && brace_free b)%bool.
Proof.
  induction a as [|x a IH]; [done|].
  rewrite app_cons_string. cbn [brace_free]. rewrite IH.
  by destruct (negb (is_brace x)).
Qed.

Lemma HasPrefix_cons a p b s :
  HasPrefix (String b s) (String a p) = if Ascii.eqb a b then HasPrefix s p else false.
Proof. reflexivity. Qed.

Lemma placeholder_unfold key :
  placeholder key = String "{" (String "{" (key +:+ "}}")).
Proof. reflexivity. Qed.

Lemma replace_from_cons old new c s :
  replace_from old new 0 (String c s)
  = if HasPrefix (String c s) old
    then new +:+ replace_from old new (Nat.pred (String.length old)) s
    else String c (replace_from old new 0 s).
Proof. reflexivity. Qed.

Lemma HasPrefix_app p r : HasPrefix (p +:+ r) p = true.
Proof.
  induction p as [|x p IH]; [done|].
  rewrite app_cons_string, HasPrefix_cons. by rewrite Ascii.eqb_refl.
Qed.

(** The bytes of a replaced occurrence are passed over. *)
Lemma replace_from_skip old new x r :
  replace_from old new (String.length x) (x +:+ r) = replace_from old new 0 r.
Proof.
  induction x as [|c x IH]; [by destruct r|].
  rewrite app_cons_string. exact IH.
Qed.

Lemma replace_from_match old new r :
  old ≠ "" ->
  replace_from old new 0 (old +:+ r) = new +:+ replace_from old new 0 r.
Proof.
  destruct old as [|a old]; [done|intros _].
  rewrite app_cons_string, replace_from_cons, <- app_cons_string.
  rewrite HasPrefix_app. cbn [String.length Nat.pred].
  by rewrite replace_from_skip.
Qed.

(** A character that does not open a placeholder is copied. *)
Lemma replace_from_copy key new c r :
  Ascii.eqb "{" c = false ->
  replace_from (placeholder key) new 0 (String c r)
  = String c (replace_from (placeholder key) new 0 r).
Proof.
  intros Hc. rewrite replace_from_cons.
  rewrite placeholder_unfold at 1. by rewrite HasPrefix_cons, Hc.
Qed.

Lemma not_brace_open c : is_brace c = false -> Ascii.eqb "{" c = false.
Proof.
  unfold is_brace. rewrite (Ascii.eqb_sym "{" c).
  by destruct (Ascii.eqb c "{").
Qed.

Lemma not_brace_close c : is_brace c = false -> Ascii.eqb "}" c = false.
Proof.
  unfold is_brace. rewrite (Ascii.eqb_sym "}" c).
  destruct (Ascii.eqb c "}"); [|done]. by rewrite orb_true_r.
Qed.

(** Text without braces is copied. *)
Lemma replace_from_text key new x r :
  brace_free x = true ->
  replace_from (placeholder key) new 0 (x +:+ r)
  = x +:+ replace_from (placeholder key) new 0 r.
Proof.
  induction x as [|c x IH]; [done|].
  cbn [brace_free]. intros [Hc Hx]%andb_prop. apply negb_true_iff in Hc.
  rewrite !app_cons_string.
  rewrite replace_from_copy by by apply not_brace_open.
  by rewrite IH.
Qed.

(** The name of another placeholder does not match. *)
Lemma HasPrefix_other_key key : ∀ key' r,
  brace_free key = true -> brace_free key' = true -> key ≠ key' ->
  HasPrefix (key' +:+ "}}" +:+ r) (key +:+ "}}") = false.
Proof.
  induction key as [|a key IH]; intros key' r Hk Hk' Hne.
  - destruct key' as [|b key']; [done|].
    cbn [brace_free] in Hk'. apply andb_prop in Hk' as [Hb _].
    apply negb_true_iff in Hb.
    rewrite ?app_cons_string, ?app_nil_string, HasPrefix_cons.
    by rewrite not_brace_close.
  - cbn [brace_free] in Hk. apply andb_prop in Hk as [Ha Hk].
    apply negb_true_iff in Ha.
    destruct key' as [|b key'].
    + rewrite ?app_cons_string, ?app_nil_string, HasPrefix_cons.
      rewrite Ascii.eqb_sym. by rewrite not_brace_close.
    + cbn [brace_free] in Hk'. apply andb_prop in Hk' as [Hb Hk'].
      rewrite !app_cons_string, HasPrefix_cons.
      destruct (Ascii.eqb_spec a b) as [->|]; [|done].
      apply IH; [done..|congruence].
Qed.

(** The placeholder of another name is copied. *)
Lemma replace_from_other key key' new r :
  brace_free key = true -> brace_free key' = true -> key ≠ key' ->
  replace_from (placeholder key) new 0 (placeholder key' +:+ r)
  = placeholder key' +:+ replace_from (placeholder key) new 0 r.
Proof.
  intros Hk Hk' Hne.
  rewrite (placeholder_unfold key').
  rewrite !app_cons_string, !app_assoc_string.
  (* the first brace *)
  rewrite replace_from_cons.
  rewrite (placeholder_unfold key) at 1.
  rewrite !HasPrefix_cons, !Ascii.eqb_refl.
  rewrite HasPrefix_other_key by done.
  f_equal.
  (* the second brace *)
  rewrite replace_from_cons.
  rewrite (placeholder_unfold key) at 1.
  rewrite HasPrefix_cons, Ascii.eqb_refl.
  assert (HasPrefix (key' +:+ "}}" +:+ r) (String "{" (key +:+ "}}")) = false)
    as ->.
  { destruct key' as [|b key'].
    - by rewrite app_nil_string.
    - cbn [brace_free] in Hk'. apply andb_prop in Hk' as [Hb _].
      apply negb_true_iff in Hb.
      rewrite app_cons_string, HasPrefix_cons. by rewrite not_brace_open. }
  f_equal.
  (* the name and the closing braces *)
  rewrite replace_from_text by done.
  change ("}}" +:+ r) with (String "}" (String "}" r)).
  by rewrite !replace_from_copy.
Qed.

Lemma flatten_app a b : flatten (a ++ b) = flatten a +:+ flatten b.
Proof.
  induction a as [|[c|k] a IH]; [done|..].
  - cbn [flatten app]. rewrite app_cons_string. by rewrite IH.
  - cbn [flatten app]. rewrite IH. by rewrite app_assoc_string.
Qed.

Lemma flatten_lits s : flatten (lits s) = s.
Proof. induction s as [|c s IH]; [done|]. cbn [lits flatten]. by rewrite IH. Qed.

Lemma lits_ok s : brace_free s = true -> forallb token_ok (lits s) = true.
Proof.
  induction s as [|c s IH]; [done|].
  cbn [brace_free lits forallb token_ok].
  intros [Hc Hs]%andb_prop. rewrite Hc. by apply IH.
Qed.

Lemma subst_cons key value t toks :
  subst key value (t :: toks)
  = (subst_token key value t ++ subst key value toks)%list.
Proof. reflexivity. Qed.

(** One replacement, seen on the tokens of a well-formed template. *)
Lemma replace_from_flatten key value toks :
  brace_free key = true ->
  forallb token_ok toks = true ->
  replace_from (placeholder key) value 0 (flatten toks)
  = flatten (subst key value toks).
Proof.
  intros Hk. induction toks as [|[c|key'] toks IH]; [done|..].
  - cbn [forallb token_ok]. intros [Hc Htoks]%andb_prop.
    apply negb_true_iff in Hc.
    rewrite subst_cons. cbn [flatten subst_token app].
    rewrite replace_from_copy by by apply not_brace_open.
    by rewrite IH.
  - cbn [forallb token_ok]. intros [Hk' Htoks]%andb_prop.
    rewrite subst_cons, flatten_app, <- IH by done.
    cbn [flatten subst_token].
    destruct (String.eqb_spec key' key) as [->|Hne].
    + rewrite flatten_lits. by apply replace_from_match.
    + cbn [flatten]. rewrite replace_from_other by done.
      by rewrite app_assoc_string.
Qed.

Lemma ReplaceAll_placeholder s key value :
  ReplaceAll s (placeholder key) value = replace_from (placeholder key) value 0 s.
Proof. reflexivity. Qed.

Lemma subst_ok key value toks :
  brace_free value = true ->
  forallb token_ok toks = true ->
  forallb token_ok (subst key value toks) = true.
Proof.
  intros Hv. induction toks as [|[c|key'] toks IH]; [done|..];
    cbn [forallb]; intros [Ht Htoks]%andb_prop;
    rewrite subst_cons, forallb_app, IH by done; cbn [subst_token].
  - cbn [forallb]. by rewrite Ht.
  - destruct (String.eqb key' key); [by rewrite lits_ok|].
    cbn [forallb]. by rewrite Ht.
Qed.

End Replace.

Section Order.

Import GoStrings Template Wireguard.

Lemma replaceConfigPlaceholders_cons template m key order :
  replaceConfigPlaceholders template m (key :: order)
  = replaceConfigPlaceholders
      match m !! key with
      | Some value => ReplaceAll template (placeholder key) value
      | None => template
      end m order.
Proof. reflexivity. Qed.

(** The replacements of [replaceConfigPlaceholders], seen on the tokens of
    a well-formed template. *)
Lemma replaceConfigPlaceholders_flatten m order : ∀ toks,
  forallb token_ok toks = true ->
  (∀ k, k ∈ order -> brace_free k = true) ->
  (∀ k v, m !! k = Some v -> brace_free v = true) ->
  replaceConfigPlaceholders (flatten toks) m order
  = flatten (fold_left (subst_step m) order toks).
Proof.
  induction order as [|k order IH]; intros toks Htoks Hkeys Hvals; [done|].
  rewrite replaceConfigPlaceholders_cons. cbn [fold_left].
  assert (brace_free k = true) as Hk by (apply Hkeys; left).
  assert (∀ k', k' ∈ order -> brace_free k' = true) as Hkeys'
    by (intros k' Hin; apply Hkeys; by right).
  unfold subst_step at 2.
  destruct (m !! k) as [v|] eqn:Hv; [|by apply IH].
  rewrite ReplaceAll_placeholder, replace_from_flatten by done.
  apply IH; [|done..]. apply subst_ok; [by apply (Hvals k)|done].
Qed.

Lemma subst_all_cons m order t toks :
  subst_all m order (t :: toks)
  = (subst_all_token m order t ++ subst_all m order toks)%list.
Proof. reflexivity. Qed.

Lemma subst_all_app m order a b :
  subst_all m order (a ++ b) = (subst_all m order a ++ subst_all m order b)%list.
Proof.
  induction a as [|t a IH]; [done|].
  cbn [app]. rewrite !subst_all_cons, IH. by rewrite app_assoc.
Qed.

(** Plain text is left alone. *)
Lemma subst_all_lits m order s : subst_all m order (lits s) = lits s.
Proof.
  induction s as [|c s IH]; [done|].
  cbn [lits]. rewrite subst_all_cons, IH. reflexivity.
Qed.

Lemma subst_all_token_other m k order key :
  key ≠ k ->
  subst_all_token m (k :: order) (Ph key) = subst_all_token m order (Ph key).
Proof.
  intros Hne. cbn [subst_all_token].
  rewrite (bool_decide_ext (key ∈ k :: order) (key ∈ order)); [done|].
  rewrite elem_of_cons. split; [by intros [?|?]|by right].
Qed.

(** Replacing [k] and then the keys of [order] is replacing the keys of
    [k :: order]. *)
Lemma subst_all_step m k order toks :
  subst_all m order (subst_step m toks k) = subst_all m (k :: order) toks.
Proof.
  unfold subst_step. destruct (m !! k) as [v|] eqn:Hv.
  - induction toks as [|[c|key] toks IH]; [done|..].
    + rewrite subst_cons. cbn [subst_token app].
      rewrite !subst_all_cons, IH. reflexivity.
    + rewrite subst_cons, subst_all_app, IH, subst_all_cons. f_equal.
      cbn [subst_token]. destruct (String.eqb_spec key k) as [->|Hne].
      * rewrite subst_all_lits. cbn [subst_all_token].
        rewrite bool_decide_eq_true_2 by left. by rewrite Hv.
      * rewrite subst_all_token_other by done.
        rewrite subst_all_cons. by rewrite app_nil_r.
  - induction toks as [|[c|key] toks IH]; [done|..].
    + rewrite !subst_all_cons, IH. reflexivity.
    + rewrite !subst_all_cons, IH. f_equal.
      destruct (decide (key = k)) as [->|Hne].
      * cbn [subst_all_token]. rewrite Hv. by repeat case_bool_decide.
      * by rewrite subst_all_token_other.
Qed.

Lemma subst_all_nil m toks : subst_all m [] toks = toks.
Proof.
  induction toks as [|[c|key] toks IH]; [done|..];
    rewrite subst_all_cons, IH; reflexivity.
Qed.

Lemma fold_subst_step m order : ∀ toks,
  fold_left (subst_step m) order toks = subst_all m order toks.
Proof.
  induction order as [|k order IH]; intros toks.
  - by rewrite subst_all_nil.
  - cbn [fold_left]. by rewrite IH, subst_all_step.
Qed.

(** Only the set of keys visited matters. *)
Lemma subst_all_Permutation m order1 order2 toks :
  order1 ≡ₚ order2 -> subst_all m order1 toks = subst_all m order2 toks.
Proof.
  intros Hp. induction toks as [|[c|key] toks IH]; [done|..];
    rewrite !subst_all_cons, IH; [done|]. f_equal.
  cbn [subst_all_token].
  rewrite (bool_decide_ext (key ∈ order1) (key ∈ order2)); [done|].
  by rewrite Hp.
Qed.

Lemma string_of_uint_brace_free d :
  brace_free (NilEmpty.string_of_uint d) = true.
Proof. induction d; simpl; by rewrite ?IHd. Qed.

(** A decimal number has no brace in it. *)
Lemma itoa_brace_free n : brace_free (itoa n) = true.
Proof.
  unfold itoa, NilZero.string_of_int, NilZero.string_of_uint.
  destruct (Z.to_int n) as [d|d]; destruct d; try reflexivity;
    cbn [brace_free]; try (apply (string_of_uint_brace_free (_ d)));
    rewrite ?andb_true_l; apply (string_of_uint_brace_free (_ d)).
Qed.

Lemma replacements_brace_free pm peer k v :
  values_brace_free pm peer = true ->
  replacements pm peer !! k = Some v ->
  brace_free v = true.
Proof.
  unfold values_brace_free. cbn [forallb].
  intros (Hpriv & (Hip & (Hpub & (Hend & (Hdns & (Hallowed & _)%andb_prop)
            %andb_prop)%andb_prop)%andb_prop)%andb_prop)%andb_prop.
  unfold replacements. intros Hin%elem_of_list_to_map_2.
  rewrite !elem_of_cons, elem_of_nil in Hin.
  destruct Hin as [[= -> ->]|[[= -> ->]|[[= -> ->]|[[= -> ->]|[[= -> ->]|
                  [[= -> ->]|[[= -> ->]|[]]]]]]]]; try done.
  by rewrite !brace_free_app, itoa_brace_free, Hend.
Qed.

Lemma placeholderKeys_brace_free order k :
  visits_placeholders order -> k ∈ order -> brace_free k = true.
Proof.
  unfold visits_placeholders. intros -> Hin. unfold placeholderKeys in Hin.
  rewrite !elem_of_cons, elem_of_nil in Hin.
  by destruct Hin as [->|[->|[->|[->|[->|[->|[->|[]]]]]]]].
Qed.

(** On a well-formed template and values without braces, the text
    [GenerateConfig] returns is the template with every placeholder of the
    replacement map replaced by its value, whatever the visiting order. *)
Lemma GenerateConfig_tokens lower pm peer fs order toks :
  visits_placeholders order ->
  templates fs !! templateFile lower (DeviceType peer) = Some (flatten toks) ->
  forallb token_ok toks = true ->
  values_brace_free pm peer = true ->
  GenerateConfig lower pm order peer fs
  = Ok (flatten (subst_all (replacements pm peer) placeholderKeys toks)).
Proof.
  intros Hv Ht Htoks Hvals. unfold GenerateConfig, getConfigTemplate.
  rewrite Ht. f_equal.
  rewrite replaceConfigPlaceholders_flatten; [|done|..].
  - rewrite fold_subst_step. f_equal. by apply subst_all_Permutation.
  - intros k. by apply placeholderKeys_brace_free.
  - intros k v. by apply replacements_brace_free.
Qed.

End Order.

(** C9, as the specification states it, fails: the same peer and the same
    server attributes give two different texts when the replacement map is
    visited in two different orders and one value reads as a placeholder. *)
Lemma GenerateConfig_order_counterexample :
  Wireguard.visits_placeholders Sample.dnsFirst ∧
  Wireguard.visits_placeholders Sample.dnsLast ∧
  Wireguard.GenerateConfig Sample.lower Sample.pmNested Sample.dnsFirst Sample.alicePeer
    Sample.fsDns = Ok "DNS = 0.0.0.0/0" ∧
  Wireguard.GenerateConfig Sample.lower Sample.pmNested Sample.dnsLast Sample.alicePeer
    Sample.fsDns = Ok "DNS = {{ALLOWED_IPS}}".
Proof.
  split; [|split].
  - apply (bool_decide_unpack _). vm_compute. exact I.
  - apply (bool_decide_unpack _). vm_compute. exact I.
  - split; vm_compute; reflexivity.
Qed.

(** C9, amended.  When the template of the peer's device type is well
    formed (plain text without braces and placeholders) and none of the
    values put into it (private key, address, server public key, endpoint,
    DNS, allowed addresses) has a brace in it, two calls of [GenerateConfig]
    for the same peer, configuration and template directory return the same
    result, whatever the orders in which the two calls visit the replacement
    map. *)
Theorem GenerateConfig_order_independent lower pm peer fs order1 order2 :
  Wireguard.visits_placeholders order1 ->
  Wireguard.visits_placeholders order2 ->
  (∀ template,
      Wireguard.templates fs !! Wireguard.templateFile lower (Wireguard.DeviceType peer)
        = Some template ->
      Template.well_formed template) ->
  Template.values_brace_free pm peer = true ->
  Wireguard.GenerateConfig lower pm order1 peer fs
  = Wireguard.GenerateConfig lower pm order2 peer fs.
Proof.
  intros Hv1 Hv2 Hwf Hvals.
  destruct (Wireguard.templates fs
              !! Wireguard.templateFile lower (Wireguard.DeviceType peer))
    as [template|] eqn:Ht.
  - destruct (Hwf template eq_refl) as (toks & Htoks & ->).
    by rewrite !(GenerateConfig_tokens lower pm peer fs _ toks).
  - unfold Wireguard.GenerateConfig, Wireguard.getConfigTemplate. by rewrite Ht.
Qed.

Lemma GenerateConfig_order_independent_witness :
  Wireguard.GenerateConfig Sample.lower Sample.pm Sample.dnsFirst
      Sample.alicePeer Sample.fs
  = Wireguard.GenerateConfig Sample.lower Sample.pm Sample.dnsLast
      Sample.alicePeer Sample.fs.
Proof.
  apply (GenerateConfig_order_independent Sample.lower Sample.pm
      Sample.alicePeer Sample.fs
           Sample.dnsFirst Sample.dnsLast).
  - apply (bool_decide_unpack _). vm_compute. exact I.
  - apply (bool_decide_unpack _). vm_compute. exact I.
  - intros template Ht. vm_compute in Ht. injection Ht as <-.
    exists Sample.genericTokens. split; vm_compute; reflexivity.
  - vm_compute. reflexivity.
Defined.


(* ===================================================================== *)
(** * Further properties of the code *)
(* ===================================================================== *)

(** ** Identifiers *)

Section UuidFacts.

Import Uuid.

(** A property of every byte follows from its check on the 256 values. *)
Lemma byte_cases (P : Z -> bool) :
  forallb P (map Z.of_nat (seq 0 256)) = true ->
  ∀ b, 0 <= b < 256 -> P b = true.
Proof.
  intros Hall b Hb. rewrite forallb_forall in Hall. apply Hall.
  apply in_map_iff. exists (Z.to_nat b). split; [lia|].
  apply in_seq. lia.
Qed.

Lemma hex_length bs : String.length (hex bs) = (2 * length bs)%nat.
Proof. induction bs as [|b bs IH]; simpl; lia. Qed.

Lemma hexdigit_is_hex n : is_hex (hexdigit n) = true.
Proof.
  destruct n as [|p|p]; try reflexivity.
  do 4 (destruct p as [p|p|]; try reflexivity).
Qed.

Lemma hex_all_hex bs : all_hex (hex bs) = true.
Proof.
  induction bs as [|b bs IH]; [done|].
  cbn [hex all_hex]. by rewrite !hexdigit_is_hex, IH.
Qed.

Lemma set_version_digit b :
  0 <= b < 256 -> hexdigit (set_version b / 16) = "4"%char.
Proof.
  intros Hb.
  apply (byte_cases (λ b, Ascii.eqb (hexdigit (set_version b / 16)) "4")) in Hb;
    [by apply Ascii.eqb_eq|by vm_compute].
Qed.

Lemma set_variant_digit b :
  0 <= b < 256 ->
  hexdigit (set_variant b / 16) ∈ ["8"; "9"; "a"; "b"]%char.
Proof.
  intros Hb.
  apply (byte_cases
           (λ b, bool_decide (hexdigit (set_variant b / 16)
                              ∈ ["8"; "9"; "a"; "b"]%char))) in Hb;
    [by apply bool_decide_eq_true in Hb|by vm_compute].
Qed.

End UuidFacts.

(** X1.  For every 16-byte buffer, the identifier [GenerateUUID] returns is
    made of five groups of 8, 4, 4, 4 and 12 lower-case hexadecimal digits
    joined by dashes, 36 characters in all; the third group starts with the
    version digit 4 and the fourth with one of 8, 9, a, b. *)
Theorem GenerateUUID_format bs nanos :
  Uuid.is_buffer bs ->
  ∃ g1 g2 g3 g4 g5 : string,
    Uuid.GenerateUUID (Some bs) nanos
      = g1 +:+ "-" +:+ g2 +:+ "-" +:+ g3 +:+ "-" +:+ g4 +:+ "-" +:+ g5 ∧
    String.length (Uuid.GenerateUUID (Some bs) nanos) = 36%nat ∧
    map String.length [g1; g2; g3; g4; g5] = [8; 4; 4; 4; 12]%nat ∧
    forallb Uuid.all_hex [g1; g2; g3; g4; g5] = true ∧
    String.get 0 g3 = Some "4"%char ∧
    (∃ c, String.get 0 g4 = Some c ∧ c ∈ ["8"; "9"; "a"; "b"]%char).
Proof.
  intros [Hlen Hbytes].
  do 16 (destruct bs as [|? bs]; [discriminate Hlen|]).
  destruct bs; [|discriminate Hlen]. clear Hlen.
  repeat match goal with
         | H : Forall _ (_ :: _) |- _ => apply Forall_cons in H as [? H]
         end.
  unfold Uuid.GenerateUUID. cbn [alter list_alter take drop].
  do 5 eexists. split; [reflexivity|].
  split; [reflexivity|]. split; [reflexivity|].
  split; [cbn [forallb]; by rewrite !hex_all_hex|].
  split.
  - cbn [Uuid.hex String.get]. f_equal. by apply set_version_digit.
  - eexists. split; [reflexivity|]. by apply set_variant_digit.
Qed.

Lemma GenerateUUID_format_witness :
  ∃ g1 g2 g3 g4 g5 : string,
    Uuid.GenerateUUID (Some Fixture.buffer) 0
      = g1 +:+ "-" +:+ g2 +:+ "-" +:+ g3 +:+ "-" +:+ g4 +:+ "-" +:+ g5 ∧
    String.length (Uuid.GenerateUUID (Some Fixture.buffer) 0) = 36%nat ∧
    map String.length [g1; g2; g3; g4; g5] = [8; 4; 4; 4; 12]%nat ∧
    forallb Uuid.all_hex [g1; g2; g3; g4; g5] = true ∧
    String.get 0 g3 = Some "4"%char ∧
    (∃ c, String.get 0 g4 = Some c ∧ c ∈ ["8"; "9"; "a"; "b"]%char).
Proof.
  apply (GenerateUUID_format Fixture.buffer 0).
  split; [reflexivity|]. unfold Fixture.buffer.
  repeat (apply Forall_cons; split; [lia|]). apply Forall_nil_2.
Defined.

Example GenerateUUID_sample :
  Uuid.GenerateUUID (Some Fixture.buffer) 0 = "12345678-9abc-4ef0-8123-456789abcdef"
  ∧ Uuid.GenerateUUID None 1700000000 = "fallback-1700000000".
Proof. split; reflexivity. Qed.

Section UuidInjective.

Import Uuid.

Lemma hexdigit_inj n m :
  0 <= n < 16 -> 0 <= m < 16 -> hexdigit n = hexdigit m -> n = m.
Proof.
  intros Hn Hm Heq.
  assert (forallb (λ m, implb (Ascii.eqb (hexdigit n) (hexdigit m)) (n =? m))
            (map Z.of_nat (seq 0 16)) = true) as Hall.
  { assert (((16 <=? n)
             || forallb (λ m, implb (Ascii.eqb (hexdigit n) (hexdigit m)) (n =? m))
                  (map Z.of_nat (seq 0 16)))%bool = true) as H.
    { apply (byte_cases
               (λ n, (16 <=? n)
                     || forallb (λ m, implb (Ascii.eqb (hexdigit n) (hexdigit m))
                                            (n =? m))
                          (map Z.of_nat (seq 0 16)))%bool); [by vm_compute|lia]. }
    destruct (Z.leb_spec 16 n); [lia|exact H]. }
  rewrite forallb_forall in Hall. specialize (Hall m).
  rewrite Heq, Ascii.eqb_refl in Hall. apply Z.eqb_eq, Hall.
  apply in_map_iff. exists (Z.to_nat m). split; [lia|]. apply in_seq. lia.
Qed.

(** The two digits written for a byte determine the byte. *)
Lemma hex_byte_inj b b' :
  0 <= b < 256 -> 0 <= b' < 256 ->
  hexdigit (b / 16) = hexdigit (b' / 16) ->
  hexdigit (b mod 16) = hexdigit (b' mod 16) ->
  b = b'.
Proof.
  intros Hb Hb' Hhi Hlo.
  assert (∀ x, 0 <= x < 256 -> 0 <= x / 16 < 16) as Hdiv.
  { intros x Hx. split; [apply Z.div_pos; lia|apply Z.div_lt_upper_bound; lia]. }
  assert (∀ x, 0 <= x mod 16 < 16) as Hmod
    by (intros x; apply Z.mod_pos_bound; lia).
  apply hexdigit_inj in Hhi; [|by apply Hdiv..].
  apply hexdigit_inj in Hlo; [|by apply Hmod..].
  rewrite (Z.div_mod b 16), (Z.div_mod b' 16) by lia. lia.
Qed.

Lemma set_version_byte b : 0 <= b < 256 -> 0 <= set_version b < 256.
Proof.
  intros Hb.
  apply (byte_cases (λ b, (0 <=? set_version b) && (set_version b <? 256))%bool)
    in Hb; [|by vm_compute].
  apply andb_prop in Hb as [?%Z.leb_le ?%Z.ltb_lt]. lia.
Qed.

Lemma set_variant_byte b : 0 <= b < 256 -> 0 <= set_variant b < 256.
Proof.
  intros Hb.
  apply (byte_cases (λ b, (0 <=? set_variant b) && (set_variant b <? 256))%bool)
    in Hb; [|by vm_compute].
  apply andb_prop in Hb as [?%Z.leb_le ?%Z.ltb_lt]. lia.
Qed.

End UuidInjective.

(** X2.  [GenerateUUID] keeps every bit of the buffer it does not
    overwrite: two 16-byte buffers that give the same identifier are equal
    once byte 6 and byte 8 carry the version and the variant, hence equal at
    every other position. *)
Theorem GenerateUUID_keeps_random_bits bs bs' nanos nanos' :
  Uuid.is_buffer bs ->
  Uuid.is_buffer bs' ->
  Uuid.GenerateUUID (Some bs) nanos = Uuid.GenerateUUID (Some bs') nanos' ->
  alter Uuid.set_variant 8%nat (alter Uuid.set_version 6%nat bs)
  = alter Uuid.set_variant 8%nat (alter Uuid.set_version 6%nat bs')
  ∧ ∀ i, i ≠ 6%nat -> i ≠ 8%nat -> bs !! i = bs' !! i.
Proof.
  intros [Hlen Hbytes] [Hlen' Hbytes'] Heq.
  assert (alter Uuid.set_variant 8%nat (alter Uuid.set_version 6%nat bs)
          = alter Uuid.set_variant 8%nat (alter Uuid.set_version 6%nat bs')) as Hm.
  { do 16 (destruct bs as [|? bs]; [discriminate Hlen|]).
    destruct bs; [|discriminate Hlen]. clear Hlen.
    do 16 (destruct bs' as [|? bs']; [discriminate Hlen'|]).
    destruct bs'; [|discriminate Hlen']. clear Hlen'.
    repeat match goal with
           | H : Forall _ (_ :: _) |- _ => apply Forall_cons in H as [? H]
           end.
    unfold Uuid.GenerateUUID in Heq. cbn [alter list_alter take drop] in *.
    cbn [Uuid.hex] in Heq. injection Heq. intros.
    repeat match goal with
           | Hhi : Uuid.hexdigit (?x / 16) = Uuid.hexdigit (?y / 16),
             Hlo : Uuid.hexdigit (?x mod 16) = Uuid.hexdigit (?y mod 16) |- _ =>
               assert (x = y) as ->
                 by (apply hex_byte_inj;
                     auto using set_version_byte, set_variant_byte);
               clear Hhi Hlo
           end.
    reflexivity. }
  split; [exact Hm|].
  intros i H6 H8.
  apply (f_equal (λ l, l !! i)) in Hm.
  by rewrite !list_lookup_alter_ne in Hm.
Qed.

Lemma GenerateUUID_keeps_random_bits_witness :
  alter Uuid.set_variant 8%nat (alter Uuid.set_version 6%nat Fixture.buffer)
  = alter Uuid.set_variant 8%nat (alter Uuid.set_version 6%nat Fixture.buffer)
  ∧ ∀ i, i ≠ 6%nat -> i ≠ 8%nat -> Fixture.buffer !! i = Fixture.buffer !! i.
Proof.
  assert (Uuid.is_buffer Fixture.buffer) as Hb.
  { split; [reflexivity|]. unfold Fixture.buffer.
    repeat (apply Forall_cons; split; [lia|]). apply Forall_nil_2. }
  apply (GenerateUUID_keeps_random_bits Fixture.buffer Fixture.buffer 0 1 Hb Hb).
  reflexivity.
Defined.

(** ** Listing, creating and removing peers *)

(** The records the scan of a user directory returns are the readable
    records of its peer directories. *)
Lemma scan_peers_elem root notFound readFailed u d p :
  root !! u = Some d ->
  p ∈ Wireguard.scan_peers (Wireguard.read_metadata root notFound readFailed u)
        (merge_sort Wireguard.name_le (map_to_list (Wireguard.entries d)))
  ↔ ∃ i, Wireguard.peer_dir root u i = Some (Wireguard.Metadata p).
Proof.
  intros Hd. unfold Wireguard.scan_peers. rewrite list_elem_of_omap.
  unfold Wireguard.read_metadata, Wireguard.peer_dir.
  rewrite Hd. simpl. split.
  - intros ([i e] & Hin & Hget). exists i.
    rewrite merge_sort_Permutation in Hin. apply elem_of_map_to_list in Hin.
    simpl in Hget. rewrite Hin in *. by destruct e; simplify_eq.
  - intros [i Hi]. exists (i, Wireguard.Metadata p). split.
    + rewrite merge_sort_Permutation. by apply elem_of_map_to_list.
    + simpl. by rewrite Hi.
Qed.

Lemma peer_dir_no_user root u i :
  root !! u = None -> Wireguard.peer_dir root u i = None.
Proof. intros H. unfold Wireguard.peer_dir. by rewrite H. Qed.

(** X3.  [GetPeers] fails exactly when the directory of the user exists in
    one of the two namespaces but cannot be listed: with "failed to get
    static peers" for the static one, and with "failed to get dynamic peers"
    for the dynamic one when the static one gave no error.  Otherwise the
    peers it lists are exactly the records that can be read from the peer
    directories of that user, below the static root or below the dynamic
    root; directories without readable metadata are passed over. *)
Theorem GetPeers_lists_readable_records pm u fs :
  match Wireguard.GetPeers pm u fs with
  | Ok peers =>
      Wireguard.unlistable (Wireguard.static_root fs) u = None ∧
      Wireguard.unlistable (Wireguard.dynamic_root fs) u = None ∧
      ∀ p, p ∈ peers ↔
           (∃ i, Wireguard.peer_dir (Wireguard.static_root fs) u i
                 = Some (Wireguard.Metadata p))
           ∨ (∃ i, Wireguard.peer_dir (Wireguard.dynamic_root fs) u i
                   = Some (Wireguard.Metadata p))
  | Err msg =>
      (∃ e, Wireguard.unlistable (Wireguard.static_root fs) u = Some e ∧
            msg = "failed to get static peers: failed to read user directory: "
                    +:+ e)
      ∨ (∃ e, Wireguard.unlistable (Wireguard.static_root fs) u = None ∧
              Wireguard.unlistable (Wireguard.dynamic_root fs) u = Some e ∧
              msg = "failed to get dynamic peers: failed to read user directory: "
                      +:+ e)
  end.
Proof.
  assert (∀ p : Wireguard.PeerConfig, p ∈ @nil Wireguard.PeerConfig ↔ False)
    as Hnil by (intros p; apply elem_of_nil).
  unfold Wireguard.GetPeers, Wireguard.getStaticPeers, Wireguard.getDynamicPeers,
    Wireguard.ReadDir, Wireguard.unlistable.
  destruct (Wireguard.static_root fs !! u) as [ds|] eqn:Hs; simpl.
  - destruct (Wireguard.listing_error ds) as [es|] eqn:Hes.
    { left. by exists es. }
    destruct (Wireguard.dynamic_root fs !! u) as [dd|] eqn:Hd; simpl.
    + destruct (Wireguard.listing_error dd) as [ed|] eqn:Hed.
      { right. by exists ed. }
      split_and!; try done. intros p. rewrite elem_of_app.
      unfold Wireguard.getPeerConfig, Wireguard.getDynamicPeerConfig.
      by rewrite (scan_peers_elem _ _ _ _ _ _ Hs), (scan_peers_elem _ _ _ _ _ _ Hd).
    + split_and!; try done. intros p. rewrite elem_of_app, Hnil.
      unfold Wireguard.getPeerConfig.
      rewrite (scan_peers_elem _ _ _ _ _ _ Hs).
      split; [intros [H|[]]; by left|intros [H|[i Hi]]; [by left|]].
      by rewrite peer_dir_no_user in Hi.
  - destruct (Wireguard.dynamic_root fs !! u) as [dd|] eqn:Hd; simpl.
    + destruct (Wireguard.listing_error dd) as [ed|] eqn:Hed.
      { right. by exists ed. }
      split_and!; try done. intros p.
      unfold Wireguard.getDynamicPeerConfig.
      rewrite (scan_peers_elem _ _ _ _ _ _ Hd).
      split; [intros H; by right|intros [[i Hi]|H]; [|done]].
      by rewrite peer_dir_no_user in Hi.
    + split_and!; try done. intros p. rewrite Hnil.
      split; [done|intros [[i Hi]|[i Hi]]]; by rewrite peer_dir_no_user in Hi.
Qed.

(** A directory that cannot be listed: the peers of the user cannot be
    listed, while a peer asked for by its identifier is still found. *)
Example GetPeers_unlistable_directory :
  Wireguard.GetPeers Sample.pm "alice" Sample.afterAlice.2 = Ok [Sample.alicePeer] ∧
  Wireguard.GetPeers Sample.pm "alice" Fixture.fsAliceUnlistable
    = Err ("failed to get static peers: failed to read user directory: "
             +:+ "open /etc/wireguard/alice: permission denied") ∧
  Wireguard.GetPeer Sample.pm "alice" "peer-1" Fixture.fsAliceUnlistable
    = Ok Sample.alicePeer.
Proof. vm_compute. repeat split; reflexivity. Qed.

(** The listing of a user depends on the directory of that user only. *)
Lemma GetPeers_same_directories pm u fs fs' :
  Wireguard.static_root fs' !! u = Wireguard.static_root fs !! u ->
  Wireguard.dynamic_root fs' !! u = Wireguard.dynamic_root fs !! u ->
  Wireguard.GetPeers pm u fs' = Wireguard.GetPeers pm u fs.
Proof.
  intros Hs Hd.
  unfold Wireguard.GetPeers, Wireguard.getStaticPeers, Wireguard.getDynamicPeers.
  rewrite Hs, Hd.
  unfold Wireguard.getPeerConfig, Wireguard.getDynamicPeerConfig,
    Wireguard.read_metadata, Wireguard.peer_dir.
  by rewrite Hs, Hd.
Qed.

(** X4.  Creating a peer and removing it again: both calls succeed, the
    peer is not found afterwards, every other record of the static
    namespace reads as before the creation, the listing of every other user
    is as before, and the dynamic namespace and the templates are not
    touched. *)
Theorem CreatePeer_RemovePeer_round_trip pm env u s dt dn fs :
  ∃ peer fs1 fs2,
    Wireguard.CreatePeer Wireguard.applyConfiguration pm env u s dt dn fs
      = (fs1, Ok peer) ∧
    Wireguard.RemovePeer Wireguard.applyConfiguration pm u (uuid env) fs1
      = (fs2, None) ∧
    Wireguard.getPeerConfig pm u (uuid env) fs2
      = Err ("peer not found: " +:+ uuid env) ∧
    (∀ u' i', (u', i') ≠ (u, uuid env) ->
       Wireguard.getPeerConfig pm u' i' fs2 = Wireguard.getPeerConfig pm u' i' fs) ∧
    (∀ u', u' ≠ u -> Wireguard.GetPeers pm u' fs2 = Wireguard.GetPeers pm u' fs) ∧
    Wireguard.dynamic_root fs2 = Wireguard.dynamic_root fs ∧
    Wireguard.templates fs2 = Wireguard.templates fs.
Proof.
  destruct (CreatePeer_source pm env u s dt dn fs)
    as (peer & Hc & Hid & Hu & _).
  set (fs1 := (Wireguard.savePeerConfig pm peer fs).1) in *.
  assert (Wireguard.getPeerConfig pm u (uuid env) fs1 = Ok peer) as Hget.
  { rewrite <- Hu, <- Hid. apply getPeerConfig_saved. }
  destruct (RemovePeer_inv Wireguard.applyConfiguration pm u (uuid env) fs1 peer
              Hget Hu Hid) as [Hr Hgone].
  set (fs2 := (Wireguard.deletePeerConfig pm peer fs1).1) in *.
  assert (Wireguard.static_root fs2
          = Wireguard.remove_peer_dir
              (Wireguard.write_metadata (Wireguard.static_root fs) peer)
              u (uuid env)) as Hroot.
  { unfold fs2, Wireguard.deletePeerConfig, fs1. simpl.
    rewrite peer_dir_write_eq. simpl. by rewrite Hu, Hid. }
  assert (Wireguard.dynamic_root fs2 = Wireguard.dynamic_root fs
          ∧ Wireguard.templates fs2 = Wireguard.templates fs) as [Hdyn Htpl].
  { unfold fs2, Wireguard.deletePeerConfig, fs1. simpl.
    by rewrite peer_dir_write_eq. }
  exists peer, fs1, fs2. repeat split; try done.
  - unfold Wireguard.getPeerConfig, Wireguard.read_metadata. by rewrite Hgone.
  - intros u' i' Hne. unfold Wireguard.getPeerConfig, Wireguard.read_metadata.
    rewrite Hroot, peer_dir_remove_ne by done.
    rewrite peer_dir_write_ne; [done|by rewrite Hu, Hid].
  - intros u' Hne. apply GetPeers_same_directories; [|by rewrite Hdyn].
    rewrite Hroot. unfold Wireguard.remove_peer_dir, Wireguard.write_metadata.
    rewrite Hu, lookup_insert_eq. by rewrite !lookup_insert_ne.
Qed.

(** ** Connecting and disconnecting *)

Lemma wrap64_id z : - 2 ^ 63 <= z <= MaxInt -> wrap64 z = z.
Proof. unfold wrap64, MaxInt. intros Hz. rewrite Z.mod_small; lia. Qed.

(** What a successful [Connect] has done. *)
Lemma Connect_ok_inv lower apply vm env order u s dt dn fs vm1 fs1 peer config :
  Core.Connect lower apply vm env order u s dt dn fs = (vm1, fs1, Ok (peer, config)) ->
  ∃ server,
    Core.servers (Core.serverManager vm) !! s = Some server ∧
    Core.Status server = "online" ∧
    Wireguard.CreatePeer apply (Core.peerManager vm) env u s dt dn fs
      = (fs1, Ok peer) ∧
    Wireguard.GenerateConfig lower (Core.peerManager vm) order peer fs1 = Ok config ∧
    vm1 = Core.set_serverManager vm
            (Core.UpdateServerLoad (Core.serverManager vm) (now env 2) s
               (wrap64 (Core.Load server + 1))).1.
Proof.
  unfold Core.Connect, Core.GetServer.
  destruct (Core.servers (Core.serverManager vm) !! s) as [server|]; [|done].
  destruct (String.eqb_spec (Core.Status server) "online") as [Hon|]; [|done].
  simpl negb. cbv iota.
  destruct (Wireguard.CreatePeer _ _ _ _ _ _ _ _) as [fs' [p|e]]; [|done].
  destruct (Wireguard.GenerateConfig lower _ _ _ _) as [c|e] eqn:Hg; [|done].
  intros [= <- <- <- <-]. by exists server.
Qed.

(** X5.  A request for a server that is not registered, or whose status is
    not "online", is refused before anything is touched: [Connect] returns
    an error and the manager and the files are as they were. *)
Theorem Connect_refuses_unavailable_server lower apply vm env order u s dt dn fs :
  (∀ server, Core.servers (Core.serverManager vm) !! s = Some server ->
             Core.Status server ≠ "online") ->
  ∃ msg, Core.Connect lower apply vm env order u s dt dn fs = (vm, fs, Err msg).
Proof.
  intros Hoff. unfold Core.Connect, Core.GetServer.
  destruct (Core.servers (Core.serverManager vm) !! s) as [server|] eqn:Hs;
    [|by eexists].
  destruct (String.eqb_spec (Core.Status server) "online") as [Hon|];
    [by destruct (Hoff server eq_refl)|by eexists].
Qed.

Lemma Connect_refuses_unavailable_server_witness :
  ∃ msg,
    Core.Connect Sample.lower Wireguard.applyConfiguration Sample.vm
        (Sample.env "peer-1" 100)
      Wireguard.placeholderKeys "alice" "ap-northeast-1" "android" "phone" Sample.fs
    = (Sample.vm, Sample.fs, Err msg).
Proof.
  apply (Connect_refuses_unavailable_server Sample.lower Wireguard.applyConfiguration
      Sample.vm
           (Sample.env "peer-1" 100) Wireguard.placeholderKeys
           "alice" "ap-northeast-1" "android" "phone" Sample.fs).
  intros server Hs. vm_compute in Hs. injection Hs as <-. discriminate.
Defined.

(** [CreatePeer] and [CreateDynamicPeer] with the interface call of the
    source. *)
Lemma CreatePeer_source_eq pm env u s dt dn fs :
  Wireguard.CreatePeer Wireguard.applyConfiguration pm env u s dt dn fs
  = ((Wireguard.savePeerConfig pm (Vpn.newPeer pm env u s dt dn false) fs).1,
     Ok (Vpn.newPeer pm env u s dt dn false)).
Proof. reflexivity. Qed.

Lemma CreateDynamicPeer_source_eq pm env u s dt dn fs :
  Wireguard.CreateDynamicPeer Wireguard.applyConfiguration pm env u s dt dn fs
  = ((Wireguard.saveDynamicPeerConfig pm (Vpn.newPeer pm env u s dt dn true) fs).1,
     Ok (Vpn.newPeer pm env u s dt dn true)).
Proof. reflexivity. Qed.

(** Rendering for a peer that was just saved reads the templates that were
    there before. *)
Lemma GenerateConfig_new_peer lower pm order env u s dt dn dyn fs fs1 :
  Wireguard.templates fs1 = Wireguard.templates fs ->
  Wireguard.GenerateConfig lower pm order (Vpn.newPeer pm env u s dt dn dyn) fs1
  = match Wireguard.templates fs !! Wireguard.templateFile lower dt with
    | None =>
        Err ("failed to get config template: "
               +:+ "failed to read template file: open vpn/wireguard/config_templates/"
               +:+ Wireguard.templateFile lower dt +:+ ": no such file or directory")
    | Some template =>
        Ok (Wireguard.replaceConfigPlaceholders template
              (Wireguard.replacements pm (Vpn.newPeer pm env u s dt dn dyn)) order)
    end.
Proof.
  intros Ht. unfold Wireguard.GenerateConfig, Wireguard.getConfigTemplate.
  rewrite Ht. change (Wireguard.DeviceType (Vpn.newPeer pm env u s dt dn dyn)) with dt.
  by destruct (Wireguard.templates fs !! Wireguard.templateFile lower dt).
Qed.

(** The first steps of [Connect] on an online server, with the interface
    call of the source. *)
Lemma Connect_online lower vm env order u s dt dn fs server :
  Core.servers (Core.serverManager vm) !! s = Some server ->
  Core.Status server = "online" ->
  let pm := Core.peerManager vm in
  let peer := Vpn.newPeer pm env u s dt dn false in
  let fs1 := (Wireguard.savePeerConfig pm peer fs).1 in
  Core.Connect lower Wireguard.applyConfiguration vm env order u s dt dn fs
  = match Wireguard.GenerateConfig lower pm order peer fs1 with
    | Err e => (vm, fs1, Err ("failed to generate configuration: " +:+ e))
    | Ok config =>
        (Core.set_serverManager vm
           (Core.UpdateServerLoad (Core.serverManager vm) (now env 2) s
              (wrap64 (Core.Load server + 1))).1,
         fs1, Ok (peer, config))
    end.
Proof.
  intros Hs Hon pm peer fs1. unfold Core.Connect, Core.GetServer.
  rewrite Hs, Hon. change (negb (String.eqb "online" "online")) with false.
  cbv iota. rewrite CreatePeer_source_eq. reflexivity.
Qed.

(** X6.  When the template of the device type is missing, [Connect] to an
    online server returns an error only after the peer was created: the
    record of the new peer is in the store, while the manager, and with it
    the load of the server, is as it was. *)
Theorem Connect_without_template_leaves_peer lower vm env order u s dt dn fs server :
  Core.servers (Core.serverManager vm) !! s = Some server ->
  Core.Status server = "online" ->
  Wireguard.templates fs !! Wireguard.templateFile lower dt = None ->
  ∃ fs1 e peer,
    Core.Connect lower Wireguard.applyConfiguration vm env order u s dt dn fs
      = (vm, fs1, Err ("failed to generate configuration: " +:+ e)) ∧
    Wireguard.getPeerConfig (Core.peerManager vm) u (uuid env) fs1 = Ok peer ∧
    Wireguard.ServerID peer = s ∧
    Core.load_of vm s = Some (Core.Load server).
Proof.
  intros Hs Hon Ht. rewrite (Connect_online lower _ _ _ _ _ _ _ _ _ Hs Hon).
  rewrite (GenerateConfig_new_peer lower _ _ _ _ _ _ _ _ fs) by reflexivity.
  rewrite Ht. do 3 eexists. split; [reflexivity|].
  split; [apply (getPeerConfig_saved _ (Vpn.newPeer _ env u s dt dn false))|].
  split; [reflexivity|]. unfold Core.load_of. by rewrite Hs.
Qed.

Lemma Connect_without_template_leaves_peer_witness :
  ∃ fs1 e peer,
    Core.Connect Sample.lower Wireguard.applyConfiguration Sample.vm
        (Sample.env "peer-1" 100)
      Wireguard.placeholderKeys "alice" "us-east-1" "android" "phone"
      Fixture.fsNoTemplates
      = (Sample.vm, fs1, Err ("failed to generate configuration: " +:+ e)) ∧
    Wireguard.getPeerConfig (Core.peerManager Sample.vm) "alice" "peer-1" fs1
      = Ok peer ∧
    Wireguard.ServerID peer = "us-east-1" ∧
    Core.load_of Sample.vm "us-east-1" = Some 0.
Proof.
  apply (Connect_without_template_leaves_peer Sample.lower Sample.vm
      (Sample.env "peer-1" 100)
           Wireguard.placeholderKeys "alice" "us-east-1" "android" "phone"
           Fixture.fsNoTemplates
           (Core.Build_Server "us-east-1" "US East (N. Virginia)" "United States"
              "Virginia" "192.168.1.1" 0 100 "online" 0)); reflexivity.
Defined.

(** X7.  A connection to an online server whose template is installed
    succeeds: the load of that server grows by one and no other load
    changes, the peer returned belongs to the user and the server of the
    request, [GetPeer] finds it under the identifier drawn, and the text
    returned is the template with the replacements applied. *)
Theorem Connect_success lower vm env order u s dt dn fs server template :
  Core.servers (Core.serverManager vm) !! s = Some server ->
  Core.Status server = "online" ->
  Wireguard.templates fs !! Wireguard.templateFile lower dt = Some template ->
  - 2 ^ 63 <= Core.Load server < MaxInt ->
  ∃ vm1 fs1 peer config,
    Core.Connect lower Wireguard.applyConfiguration vm env order u s dt dn fs
      = (vm1, fs1, Ok (peer, config)) ∧
    Core.load_of vm1 s = Some (Core.Load server + 1) ∧
    (∀ s', s' ≠ s -> Core.load_of vm1 s' = Core.load_of vm s') ∧
    Wireguard.GetPeer (Core.peerManager vm1) u (uuid env) fs1 = Ok peer ∧
    Wireguard.UserID peer = u ∧ Wireguard.ServerID peer = s ∧
    Wireguard.Dynamic peer = false ∧
    config = Wireguard.replaceConfigPlaceholders template
               (Wireguard.replacements (Core.peerManager vm) peer) order.
Proof.
  intros Hs Hon Ht Hload. rewrite (Connect_online lower _ _ _ _ _ _ _ _ _ Hs Hon).
  rewrite (GenerateConfig_new_peer lower _ _ _ _ _ _ _ _ fs) by reflexivity.
  rewrite Ht. do 4 eexists. split; [reflexivity|].
  assert (Core.load_of vm s = Some (Core.Load server)) as Hl
    by (unfold Core.load_of; by rewrite Hs).
  split; [|split; [|split; [|done]]].
  - rewrite (load_of_UpdateServerLoad _ _ _ _ _ Hl).
    rewrite wrap64_id; [done|unfold MaxInt in *; lia].
  - intros s' Hne. by apply load_of_UpdateServerLoad_ne.
  - unfold Wireguard.GetPeer. cbn [Core.peerManager Core.set_serverManager].
    by rewrite (getPeerConfig_saved _ (Vpn.newPeer _ env u s dt dn false)).
Qed.

Lemma Connect_success_witness :
  ∃ vm1 fs1 peer config,
    Core.Connect Sample.lower Wireguard.applyConfiguration Sample.vm
        (Sample.env "peer-1" 100)
      Sample.dnsLast "alice" "us-east-1" "android" "phone" Sample.fs
      = (vm1, fs1, Ok (peer, config)) ∧
    Core.load_of vm1 "us-east-1" = Some (0 + 1) ∧
    (∀ s', s' ≠ "us-east-1" -> Core.load_of vm1 s' = Core.load_of Sample.vm s') ∧
    Wireguard.GetPeer (Core.peerManager vm1) "alice" "peer-1" fs1 = Ok peer ∧
    Wireguard.UserID peer = "alice" ∧ Wireguard.ServerID peer = "us-east-1" ∧
    Wireguard.Dynamic peer = false ∧
    config = Wireguard.replaceConfigPlaceholders Sample.genericTemplate
               (Wireguard.replacements (Core.peerManager Sample.vm) peer)
               Sample.dnsLast.
Proof.
  apply (Connect_success Sample.lower Sample.vm (Sample.env "peer-1" 100) Sample.dnsLast
           "alice" "us-east-1" "android" "phone" Sample.fs
           (Core.Build_Server "us-east-1" "US East (N. Virginia)" "United States"
              "Virginia" "192.168.1.1" 0 100 "online" 0) Sample.genericTemplate);
    try reflexivity.
  unfold MaxInt. simpl. lia.
Defined.

(** X8.  The configuration can be fetched again: after a successful
    [Connect], [GetConfig] for the user and the identifier of the new peer,
    visiting the replacement map in the same order, returns the text
    [Connect] returned. *)
Theorem GetConfig_after_Connect lower apply vm env order u s dt dn fs vm1 fs1
    peer config :
  Core.Connect lower apply vm env order u s dt dn fs = (vm1, fs1, Ok (peer, config)) ->
  Wireguard.ID peer = uuid env ∧
  Vpn.GetConfig lower vm1 order u (uuid env) fs1 = Ok config.
Proof.
  intros (server & _ & _ & Hc & Hg & ->)%Connect_ok_inv.
  destruct (CreatePeer_inv _ _ _ _ _ _ _ _ _ _ Hc)
    as (q & -> & Hid & Hu & _ & _ & _ & _ & _ & Hr).
  destruct (apply _ _); [done|]. injection Hr as <-.
  split; [done|].
  unfold Vpn.GetConfig, Wireguard.GetPeer.
  cbn [Core.peerManager Core.set_serverManager].
  rewrite <- Hu, <- Hid, getPeerConfig_saved. by rewrite Hg.
Qed.

Lemma GetConfig_after_Connect_witness :
  Wireguard.ID Sample.alicePeer = "peer-1" ∧
  Vpn.GetConfig Sample.lower Sample.afterAlice.1 Wireguard.placeholderKeys
      "alice" "peer-1"
    Sample.afterAlice.2
  = Ok "[Interface] PrivateKey = YAnV4SnPYEA+jS6nQtxF5lS3jj0gqXBVVeP9tz/bP2A= Address = 10.0.0.2/32 DNS = 1.1.1.1,8.8.8.8 [Peer] PublicKey = c2VydmVyLXB1YmxpYy1rZXk= Endpoint = vpn.example.com:51820 AllowedIPs = 0.0.0.0/0, ::/0 PersistentKeepalive = 25".
Proof.
  apply (GetConfig_after_Connect Sample.lower Wireguard.applyConfiguration Sample.vm
           (Sample.env "peer-1" 100) Wireguard.placeholderKeys
           "alice" "us-east-1" "android" "phone" Sample.fs).
  vm_compute. reflexivity.
Defined.

(** X9.  [Disconnect] cannot remove a dynamic peer: for a peer that is
    stored below the dynamic root only, [GetPeer] finds it but [RemovePeer]
    looks below the static root, so [Disconnect] returns an error and the
    manager and the files are as they were. *)
Theorem Disconnect_refuses_dynamic_peer apply vm env u i fs peer :
  Wireguard.peer_dir (Wireguard.static_root fs) u i = None ->
  Wireguard.getDynamicPeerConfig (Core.peerManager vm) u i fs = Ok peer ->
  Core.Disconnect apply vm env u i fs
  = (vm, fs,
     Some ("failed to remove peer: failed to get peer config: peer not found: "
             +:+ i)).
Proof.
  intros Hs Hd. unfold Core.Disconnect, Wireguard.GetPeer, Wireguard.RemovePeer.
  unfold Wireguard.getPeerConfig, Wireguard.read_metadata. rewrite Hs.
  by rewrite Hd.
Qed.

Lemma Disconnect_refuses_dynamic_peer_witness :
  Core.Disconnect Wireguard.applyConfiguration Fixture.afterCarol.1
    (Sample.env "" 950) "carol" "peer-9" Fixture.afterCarol.2
  = (Fixture.afterCarol.1, Fixture.afterCarol.2,
     Some ("failed to remove peer: failed to get peer config: peer not found: "
             +:+ "peer-9")).
Proof.
  apply (Disconnect_refuses_dynamic_peer Wireguard.applyConfiguration
           Fixture.afterCarol.1 (Sample.env "" 950) "carol" "peer-9"
           Fixture.afterCarol.2
           (Vpn.newPeer Sample.pm (Sample.env "peer-9" 900)
              "carol" "us-west-1" "android" "tablet" true));
    reflexivity.
Defined.

(** X10.  [DynamicDisconnect] cannot remove a static peer: for a peer that
    is stored below the static root only, it returns an error and the
    manager and the files are as they were. *)
Theorem DynamicDisconnect_refuses_static_peer apply vm env u i fs peer :
  Wireguard.getPeerConfig (Core.peerManager vm) u i fs = Ok peer ->
  Wireguard.peer_dir (Wireguard.dynamic_root fs) u i = None ->
  Core.DynamicDisconnect apply vm env u i fs
  = (vm, fs,
     Some ("failed to remove dynamic peer: failed to get dynamic peer config: "
             +:+ "dynamic peer not found: " +:+ i)).
Proof.
  intros Hs Hd.
  unfold Core.DynamicDisconnect, Wireguard.GetPeer, Wireguard.RemoveDynamicPeer.
  rewrite Hs. unfold Wireguard.getDynamicPeerConfig, Wireguard.read_metadata.
  by rewrite Hd.
Qed.

Lemma DynamicDisconnect_refuses_static_peer_witness :
  Core.DynamicDisconnect Wireguard.applyConfiguration Sample.afterAlice.1
    (Sample.env "" 950) "alice" "peer-1" Sample.afterAlice.2
  = (Sample.afterAlice.1, Sample.afterAlice.2,
     Some ("failed to remove dynamic peer: failed to get dynamic peer config: "
             +:+ "dynamic peer not found: " +:+ "peer-1")).
Proof.
  apply (DynamicDisconnect_refuses_static_peer Wireguard.applyConfiguration
           Sample.afterAlice.1 (Sample.env "" 950) "alice" "peer-1"
           Sample.afterAlice.2 Sample.alicePeer);
    reflexivity.
Defined.

(** X11.  A dynamic connection and its disconnection: on an online server
    whose template is installed, and with no static peer stored under the
    identifier drawn, [DynamicConnect] succeeds and stores a peer marked
    dynamic below the dynamic root, leaving the static root alone;
    [DynamicDisconnect] of that peer then succeeds, after which [GetPeer]
    no longer finds it. *)
Theorem DynamicConnect_DynamicDisconnect lower vm env env' order u s dt dn fs
    server template :
  Core.servers (Core.serverManager vm) !! s = Some server ->
  Core.Status server = "online" ->
  Wireguard.templates fs !! Wireguard.templateFile lower dt = Some template ->
  Wireguard.peer_dir (Wireguard.static_root fs) u (uuid env) = None ->
  ∃ vm1 fs1 peer config vm2 fs2,
    Core.DynamicConnect lower Wireguard.applyConfiguration vm env order u s dt dn fs
      = (vm1, fs1, Ok (peer, config)) ∧
    Wireguard.Dynamic peer = true ∧
    Wireguard.static_root fs1 = Wireguard.static_root fs ∧
    Wireguard.GetPeer (Core.peerManager vm1) u (uuid env) fs1 = Ok peer ∧
    Core.DynamicDisconnect Wireguard.applyConfiguration vm1 env' u (uuid env) fs1
      = (vm2, fs2, None) ∧
    Wireguard.GetPeer (Core.peerManager vm2) u (uuid env) fs2
      = Err ("dynamic peer not found: " +:+ uuid env).
Proof.
  intros Hs Hon Ht Hfree.
  set (pm := Core.peerManager vm).
  set (peer := Vpn.newPeer pm env u s dt dn true).
  set (fs1 := (Wireguard.saveDynamicPeerConfig pm peer fs).1).
  assert (Wireguard.getPeerConfig pm u (uuid env) fs1
          = Err ("peer not found: " +:+ uuid env)) as Hstatic.
  { unfold Wireguard.getPeerConfig, Wireguard.read_metadata.
    change (Wireguard.static_root fs1) with (Wireguard.static_root fs).
    by rewrite Hfree. }
  assert (Wireguard.getDynamicPeerConfig pm u (uuid env) fs1 = Ok peer) as Hdyn.
  { unfold Wireguard.getDynamicPeerConfig, Wireguard.read_metadata.
    change (Wireguard.dynamic_root fs1)
      with (Wireguard.write_metadata (Wireguard.dynamic_root fs) peer).
    by rewrite (peer_dir_write_eq _ peer). }
  exists (Core.set_serverManager vm
            (Core.UpdateServerLoad (Core.serverManager vm) (now env 2) s
               (wrap64 (Core.Load server + 1))).1), fs1, peer.
  do 3 eexists.
  assert (Core.DynamicConnect lower Wireguard.applyConfiguration
      vm env order u s dt dn fs
          = (Core.set_serverManager vm
               (Core.UpdateServerLoad (Core.serverManager vm) (now env 2) s
                  (wrap64 (Core.Load server + 1))).1, fs1,
             Ok (peer, Wireguard.replaceConfigPlaceholders template
                         (Wireguard.replacements pm peer) order))) as Hc.
  { unfold Core.DynamicConnect, Core.GetServer. rewrite Hs, Hon.
    change (negb (String.eqb "online" "online")) with false. cbv iota.
    rewrite CreateDynamicPeer_source_eq. cbv iota.
    rewrite (GenerateConfig_new_peer lower _ _ _ _ _ _ _ _ fs) by reflexivity.
    by rewrite Ht. }
  split; [exact Hc|]. split; [reflexivity|]. split; [reflexivity|].
  cbn [Core.peerManager Core.set_serverManager]. fold pm.
  split; [unfold Wireguard.GetPeer; by rewrite Hstatic|].
  unfold Core.DynamicDisconnect, Wireguard.GetPeer.
  cbn [Core.peerManager Core.set_serverManager]. fold pm.
  rewrite Hstatic, Hdyn. unfold Wireguard.RemoveDynamicPeer. rewrite Hdyn.
  unfold Wireguard.deleteDynamicPeerConfig.
  change (Wireguard.UserID peer) with u. change (Wireguard.ID peer) with (uuid env).
  change (Wireguard.dynamic_root fs1)
    with (Wireguard.write_metadata (Wireguard.dynamic_root fs) peer).
  rewrite (peer_dir_write_eq _ peer). cbv iota. cbn [fst snd].
  split; [reflexivity|].
  cbn [Core.peerManager Core.set_serverManager]. fold pm.
  unfold Wireguard.getPeerConfig, Wireguard.getDynamicPeerConfig,
    Wireguard.read_metadata.
  cbn [Wireguard.static_root Wireguard.dynamic_root Wireguard.set_dynamic].
  change (Wireguard.static_root fs1) with (Wireguard.static_root fs).
  by rewrite Hfree, peer_dir_remove_eq.
Qed.

Lemma DynamicConnect_DynamicDisconnect_witness :
  ∃ vm1 fs1 peer config vm2 fs2,
    Core.DynamicConnect Sample.lower Wireguard.applyConfiguration Sample.vm
      (Sample.env "peer-9" 900) Wireguard.placeholderKeys
      "carol" "us-west-1" "android" "tablet" Sample.fs
      = (vm1, fs1, Ok (peer, config)) ∧
    Wireguard.Dynamic peer = true ∧
    Wireguard.static_root fs1 = Wireguard.static_root Sample.fs ∧
    Wireguard.GetPeer (Core.peerManager vm1) "carol" "peer-9" fs1 = Ok peer ∧
    Core.DynamicDisconnect Wireguard.applyConfiguration vm1 (Sample.env "" 950)
      "carol" "peer-9" fs1 = (vm2, fs2, None) ∧
    Wireguard.GetPeer (Core.peerManager vm2) "carol" "peer-9" fs2
      = Err ("dynamic peer not found: " +:+ "peer-9").
Proof.
  apply (DynamicConnect_DynamicDisconnect Sample.lower Sample.vm
      (Sample.env "peer-9" 900)
           (Sample.env "" 950) Wireguard.placeholderKeys
           "carol" "us-west-1" "android" "tablet" Sample.fs
           (Core.Build_Server "us-west-1" "US West (N. California)" "United States"
              "California" "192.168.1.2" 0 100 "online" 1) Sample.genericTemplate);
    reflexivity.
Defined.

(** ** What a rendered configuration is *)

Lemma app_nil_r_string (s : string) : s +:+ "" = s.
Proof.
  induction s as [|c s IH]; [done|]. by rewrite app_cons_string, IH.
Qed.

(** The tokens left after the seven replacements read as [Vpn.render]. *)
Lemma flatten_subst_all_render m toks :
  Template.flatten (Template.subst_all m Wireguard.placeholderKeys toks)
  = Vpn.render m toks.
Proof.
  induction toks as [|[c|key] toks IH]; [done|..];
    rewrite subst_all_cons, flatten_app, IH; cbn [Vpn.render Vpn.render_token].
  - reflexivity.
  - f_equal. cbn [Template.subst_all_token].
    destruct (bool_decide (key ∈ Wireguard.placeholderKeys)).
    + destruct (m !! key) as [v|]; cbn [default].
      * apply flatten_lits.
      * cbn [Template.flatten]. apply app_nil_r_string.
    + cbn [Template.flatten]. apply app_nil_r_string.
Qed.

(** X12.  On a well-formed template and values without braces,
    [GenerateConfig] returns the template with every occurrence of
    [{{PRIVATE_KEY}}], [{{CLIENT_IP}}], [{{SERVER_PUBLIC_KEY}}],
    [{{SERVER_ENDPOINT}}], [{{DNS}}], [{{ALLOWED_IPS}}] and
    [{{PERSISTENT_KEEPALIVE}}] replaced by the peer's private key, the peer's
    address, the server's public key, "endpoint:port", the DNS entry, the
    allowed addresses and "25"; the text around them and placeholders of any
    other name are returned as they are written. *)
Theorem GenerateConfig_renders_template lower pm peer fs order toks :
  Wireguard.visits_placeholders order ->
  Wireguard.templates fs !! Wireguard.templateFile lower (Wireguard.DeviceType peer)
    = Some (Template.flatten toks) ->
  forallb Template.token_ok toks = true ->
  Template.values_brace_free pm peer = true ->
  let wg := Config.WireGuard (Wireguard.config pm) in
  let m := Wireguard.replacements pm peer in
  Wireguard.GenerateConfig lower pm order peer fs = Ok (Vpn.render m toks) ∧
  map (λ key, m !! key) Wireguard.placeholderKeys
  = [ Some (Wireguard.PrivateKey peer); Some (Wireguard.IP peer);
      Some (Config.PublicKey wg);
      Some (Config.ServerEndpoint wg +:+ ":" +:+ GoStrings.itoa (Config.ListenPort wg));
      Some (Config.DNS wg); Some (Config.AllowedIPs wg); Some "25" ].
Proof.
  intros Hv Ht Htoks Hvals wg m. split.
  - rewrite (GenerateConfig_tokens lower pm peer fs order toks) by done.
    by rewrite flatten_subst_all_render.
  - unfold m, Wireguard.replacements, Wireguard.placeholderKeys.
    cbn [map list_to_map foldr].
    repeat (rewrite ?lookup_insert_eq, ?lookup_insert_ne by done). reflexivity.
Qed.

Lemma GenerateConfig_renders_template_witness :
  let wg := Config.WireGuard (Wireguard.config Sample.pm) in
  let m := Wireguard.replacements Sample.pm Sample.alicePeer in
  Wireguard.GenerateConfig Sample.lower Sample.pm Sample.dnsLast
      Sample.alicePeer Sample.fs
    = Ok (Vpn.render m Sample.genericTokens) ∧
  map (λ key, m !! key) Wireguard.placeholderKeys
  = [ Some (Wireguard.PrivateKey Sample.alicePeer);
      Some (Wireguard.IP Sample.alicePeer);
      Some (Config.PublicKey wg);
      Some (Config.ServerEndpoint wg +:+ ":" +:+ GoStrings.itoa (Config.ListenPort wg));
      Some (Config.DNS wg); Some (Config.AllowedIPs wg); Some "25" ].
Proof.
  apply (GenerateConfig_renders_template Sample.lower Sample.pm
      Sample.alicePeer Sample.fs
           Sample.dnsLast Sample.genericTokens).
  - apply (bool_decide_unpack _). vm_compute. exact I.
  - vm_compute. reflexivity.
  - vm_compute. reflexivity.
  - vm_compute. reflexivity.
Defined.

(** An unknown placeholder and the surrounding text stay. *)
Example render_unknown_placeholder :
  Vpn.render (Wireguard.replacements Sample.pm Sample.alicePeer)
    (Template.lits "MTU = " ++ [Template.Ph "MTU"] ++ Template.lits "; Address = "
     ++ [Template.Ph "CLIENT_IP"])%list
  = "MTU = {{MTU}}; Address = 10.0.0.2/32".
Proof. vm_compute. reflexivity. Qed.

(** On a string of ASCII bytes [strings.ToLower] is the byte fold, whatever
    mapping stands for the case tables. *)
Lemma ToLower_ascii lower s :
  GoStrings.isASCII s = true -> GoStrings.ToLower lower s = GoStrings.lower_bytes s.
Proof. intros H. unfold GoStrings.ToLower. by rewrite H. Qed.

(** For a device type of ASCII bytes, neither the template file nor the
    configuration rendered nor a connection depends on the mapping that
    stands for the case tables. *)
Lemma templateFile_ascii lower lower' deviceType :
  GoStrings.isASCII deviceType = true ->
  Wireguard.templateFile lower deviceType = Wireguard.templateFile lower' deviceType.
Proof.
  intros H. unfold Wireguard.templateFile. by rewrite !ToLower_ascii.
Qed.

Lemma GenerateConfig_ascii lower lower' pm order peer fs :
  GoStrings.isASCII (Wireguard.DeviceType peer) = true ->
  Wireguard.GenerateConfig lower pm order peer fs
  = Wireguard.GenerateConfig lower' pm order peer fs.
Proof.
  intros H. unfold Wireguard.GenerateConfig, Wireguard.getConfigTemplate.
  by rewrite (templateFile_ascii lower lower' _ H).
Qed.

Lemma Connect_ascii lower lower' apply vm env order u s dt dn fs :
  GoStrings.isASCII dt = true ->
  Core.Connect lower apply vm env order u s dt dn fs
  = Core.Connect lower' apply vm env order u s dt dn fs.
Proof.
  intros H. unfold Core.Connect.
  destruct (Core.GetServer _ _) as [server|]; [|done].
  destruct (negb _); [done|].
  destruct (Wireguard.CreatePeer _ _ _ _ _ _ _ _) as [fs1 [peer|e]] eqn:Hc; [|done].
  assert (Wireguard.DeviceType peer = dt) as Hdt.
  { unfold Wireguard.CreatePeer in Hc. simpl in Hc.
    destruct (apply _ _); [done|]. by injection Hc as <- <-. }
  rewrite <- Hdt in H. by rewrite (GenerateConfig_ascii lower lower' _ _ _ _ H).
Qed.

(** X13.  For device types made of ASCII bytes the template is chosen
    without regard to the case of the letters and without consulting the
    case tables of the library: two such device types that differ only in
    the case of their letters read the same template file, with the same
    result, whatever mappings stand for the tables. *)
Theorem getConfigTemplate_ignores_case lower lower' a b fs :
  GoStrings.isASCII a = true ->
  GoStrings.isASCII b = true ->
  GoStrings.lower_bytes a = GoStrings.lower_bytes b ->
  Wireguard.templateFile lower a = Wireguard.templateFile lower' b ∧
  Wireguard.getConfigTemplate lower a fs = Wireguard.getConfigTemplate lower' b fs.
Proof.
  intros Ha Hb Hab.
  assert (Wireguard.templateFile lower a = Wireguard.templateFile lower' b) as H.
  { unfold Wireguard.templateFile.
    by rewrite (ToLower_ascii lower a Ha), (ToLower_ascii lower' b Hb), Hab. }
  split; [exact H|]. unfold Wireguard.getConfigTemplate. by rewrite H.
Qed.

Lemma getConfigTemplate_ignores_case_witness :
  Wireguard.templateFile Sample.lower "iPhone"
    = Wireguard.templateFile GoStrings.lower_bytes "IPHONE" ∧
  Wireguard.getConfigTemplate Sample.lower "iPhone" Fixture.fsIos
    = Wireguard.getConfigTemplate GoStrings.lower_bytes "IPHONE" Fixture.fsIos.
Proof.
  apply (getConfigTemplate_ignores_case Sample.lower GoStrings.lower_bytes
           "iPhone" "IPHONE" Fixture.fsIos); reflexivity.
Defined.

(** ** The registry of servers *)

Section RegistryFacts.

Lemma omap_lookup_fst {A} (m : gmap string A) (l : list (string * A)) :
  (∀ k v, (k, v) ∈ l -> m !! k = Some v) ->
  omap (λ k, m !! k) l.*1 = l.*2.
Proof.
  induction l as [|[k v] l IH]; intros Hl; [done|].
  cbn [fmap list_fmap omap list_omap fst snd].
  rewrite (Hl k v) by left. f_equal. apply IH. intros k' v' Hin. apply Hl. by right.
Qed.

(** Visiting the registry sees every server once. *)
Lemma range_servers_visits sm order :
  Core.visits sm order ->
  Core.range_servers sm order ≡ₚ (map_to_list (Core.servers sm)).*2.
Proof.
  unfold Core.visits, Core.range_servers. intros ->.
  rewrite omap_lookup_fst; [done|].
  intros k v Hin. by apply elem_of_map_to_list.
Qed.

(** Whatever the order, only registered servers are seen. *)
Lemma range_servers_registered sm order server :
  server ∈ Core.range_servers sm order ->
  ∃ id, Core.servers sm !! id = Some server.
Proof.
  unfold Core.range_servers. rewrite list_elem_of_omap.
  intros (id & _ & Hid). by exists id.
Qed.

Lemma range_servers_elem sm order id server :
  Core.visits sm order ->
  Core.servers sm !! id = Some server ->
  server ∈ Core.range_servers sm order.
Proof.
  intros Hv Hs. rewrite (range_servers_visits sm order Hv).
  apply list_elem_of_fmap. exists (id, server). split; [done|].
  by apply elem_of_map_to_list.
Qed.

Lemma lowest_load_elem candidates server :
  Core.lowest_load candidates = Some server ->
  server ∈ candidates ∧ Core.Load server < Core.Capacity server.
Proof.
  unfold Core.lowest_load.
  apply (lowest_step_fold
           (λ s, s ∈ candidates ∧ Core.Load s < Core.Capacity s)); [done|].
  by intros s Hin Hlt.
Qed.

Lemma lowest_step_inv seen acc c :
  0 <= Core.Load c ->
  Registry.lowest_inv seen acc ->
  Registry.lowest_inv (λ x, seen x ∨ x = c) (Core.lowest_step acc c).
Proof.
  intros Hc. destruct acc as [[s|] lowest]; unfold Core.lowest_step;
    destruct (Z.geb_spec (Core.Load c) (Core.Capacity c)) as [Hfull|Hroom].
  - intros (-> & H0 & Hs & Hsroom & Hmin).
    split_and!; [done|done|by left|done|].
    intros x [Hx| ->] Hx'; [auto|lia].
  - intros (-> & H0 & Hs & Hsroom & Hmin).
    destruct (Z.eqb_spec (Core.Load s) (-1)); [lia|]. cbn [orb].
    destruct (Z.ltb_spec (Core.Load c) (Core.Load s)).
    + split_and!; [done|done|by right|done|].
      intros x [Hx| ->] Hx'; [|lia]. specialize (Hmin x Hx Hx'). lia.
    + split_and!; [done|done|by left|done|].
      intros x [Hx| ->] Hx'; [auto|lia].
  - intros (-> & Hnone). split; [done|]. intros x [Hx| ->]; [auto|lia].
  - intros (-> & Hnone). cbn [Z.eqb orb].
    split_and!; [done|done|by right|done|].
    intros x [Hx| ->] Hx'; [|lia]. specialize (Hnone x Hx). lia.
Qed.

Lemma lowest_fold_inv candidates : ∀ seen acc,
  (∀ c, c ∈ candidates -> 0 <= Core.Load c) ->
  Registry.lowest_inv seen acc ->
  Registry.lowest_inv (λ x, seen x ∨ x ∈ candidates)
             (fold_left Core.lowest_step candidates acc).
Proof.
  induction candidates as [|c candidates IH]; intros seen acc Hpos Hinv.
  - cbn [fold_left]. destruct acc as [[s|] lowest]; cbn [Registry.lowest_inv] in *.
    + destruct Hinv as (? & ? & ? & ? & Hmin). split_and!; [done|done|by left|done|].
      intros x [Hx|Hx%elem_of_nil] Hx'; [auto|done].
    + destruct Hinv as (? & Hnone). split; [done|].
      intros x [Hx|Hx%elem_of_nil]; [auto|done].
  - cbn [fold_left].
    assert (Registry.lowest_inv (λ x, (seen x ∨ x = c) ∨ x ∈ candidates)
              (fold_left Core.lowest_step candidates (Core.lowest_step acc c)))
      as H.
    { apply IH; [intros x Hx; apply Hpos; by right|].
      apply lowest_step_inv; [apply Hpos; left|done]. }
    destruct (fold_left _ _ _) as [[s|] lowest]; cbn [Registry.lowest_inv] in *.
    + destruct H as (? & ? & Hs & ? & Hmin). split_and!; [done|done| |done|].
      * destruct Hs as [[?| ->]|?]; [by left|right; left|right; by right].
      * intros x [Hx|Hx%elem_of_cons] Hx'; apply Hmin; auto.
        destruct Hx as [->|Hx]; auto.
    + destruct H as (? & Hnone). split; [done|].
      intros x [Hx|Hx%elem_of_cons]; apply Hnone; auto.
      destruct Hx as [->|Hx]; auto.
Qed.

(** The outcome of the loop of lowest load on non-negative loads. *)
Lemma lowest_load_spec candidates :
  (∀ c, c ∈ candidates -> 0 <= Core.Load c) ->
  match Core.lowest_load candidates with
  | None => ∀ c, c ∈ candidates -> Core.Capacity c <= Core.Load c
  | Some s =>
      s ∈ candidates ∧ Core.Load s < Core.Capacity s ∧
      ∀ c, c ∈ candidates -> Core.Load c < Core.Capacity c ->
           Core.Load s <= Core.Load c
  end.
Proof.
  intros Hpos. unfold Core.lowest_load.
  assert (Registry.lowest_inv (λ x, False ∨ x ∈ candidates)
            (fold_left Core.lowest_step candidates (None, -1))) as H.
  { apply lowest_fold_inv; [done|]. split; [done|]. by intros c []. }
  destruct (fold_left _ _ _) as [[s|] lowest]; cbn [fst Registry.lowest_inv] in *.
  - destruct H as (_ & _ & [[]|Hs] & Hroom & Hmin).
    split_and!; [done|done|]. intros c Hc. apply Hmin. by right.
  - destruct H as (_ & Hnone). intros c Hc. apply Hnone. by right.
Qed.

End RegistryFacts.

(** X14.  Whatever the order of the visit, [GetServers] returns every
    registered server exactly once and [GetServersByCountry] returns exactly
    the registered servers of the country, each once, whatever their
    status. *)
Theorem GetServers_lists_registry sm order country :
  Core.visits sm order ->
  Registry.GetServers sm order ≡ₚ (map_to_list (Core.servers sm)).*2 ∧
  Core.GetServersByCountry sm order country
  ≡ₚ filter (λ server, Core.Country server = country)
            (map_to_list (Core.servers sm)).*2.
Proof.
  intros Hv. unfold Registry.GetServers, Core.GetServersByCountry.
  by rewrite (range_servers_visits sm order Hv).
Qed.

Lemma GetServers_lists_registry_witness :
  Registry.GetServers Sample.abc ["C"; "A"; "B"]
    ≡ₚ (map_to_list (Core.servers Sample.abc)).*2 ∧
  Core.GetServersByCountry Sample.abc ["C"; "A"; "B"] "Iceland"
  ≡ₚ filter (λ server, Core.Country server = "Iceland")
            (map_to_list (Core.servers Sample.abc)).*2.
Proof.
  apply (GetServers_lists_registry Sample.abc ["C"; "A"; "B"] "Iceland").
  unfold Core.visits. vm_compute. apply (bool_decide_unpack _). vm_compute. exact I.
Defined.

(** The candidates of [GetOptimalServer]. *)
Lemma GetOptimalServer_candidates sm byCountry all country server :
  Core.GetOptimalServer sm byCountry all country = Ok server ->
  Core.Load server < Core.Capacity server ∧
  ((country ≠ "" ∧ server ∈ Core.GetServersByCountry sm byCountry country)
   ∨ ((country = "" ∨ Core.GetServersByCountry sm byCountry country = [])
      ∧ server ∈ filter (λ s, Core.online s = true) (Core.range_servers sm all))).
Proof.
  unfold Core.GetOptimalServer.
  set (onlineServers := filter _ (Core.range_servers sm all)).
  destruct (String.eqb_spec country "") as [->|Hne]; cbn [negb].
  - destruct onlineServers as [|c cs] eqn:Hc; [done|]. rewrite <- Hc.
    destruct (Core.lowest_load onlineServers) as [s|] eqn:Hl; [|done].
    intros [= <-]. apply lowest_load_elem in Hl as [Hin Hroom].
    split; [done|]. right. split; [by left|done].
  - destruct (Core.GetServersByCountry sm byCountry country) as [|c cs] eqn:Hc.
    + destruct onlineServers as [|c cs] eqn:Hc'; [done|]. rewrite <- Hc'.
      destruct (Core.lowest_load onlineServers) as [s|] eqn:Hl; [|done].
      intros [= <-]. apply lowest_load_elem in Hl as [Hin Hroom].
      split; [done|]. right. split; [by right|done].
    + destruct (Core.lowest_load (c :: cs)) as [s|] eqn:Hl; [|done].
      intros [= <-]. apply lowest_load_elem in Hl as [Hin Hroom].
      split; [done|]. by left.
Qed.

(** X15.  Whatever the country asked for and the orders of the visits, a
    server [GetOptimalServer] returns is registered and its load is below
    its capacity; it is in the country asked for, or else it is online. *)
Theorem GetOptimalServer_sound sm byCountry all country server :
  Core.GetOptimalServer sm byCountry all country = Ok server ->
  (∃ id, Core.servers sm !! id = Some server) ∧
  Core.Load server < Core.Capacity server ∧
  (Core.Country server = country ∨ Core.Status server = "online").
Proof.
  intros [Hroom [[_ Hin]|[_ Hin]]]%GetOptimalServer_candidates.
  - unfold Core.GetServersByCountry in Hin.
    apply list_elem_of_filter in Hin as [Hc Hin].
    split; [by eapply range_servers_registered|]. split; [done|by left].
  - apply list_elem_of_filter in Hin as [Hon Hin].
    split; [by eapply range_servers_registered|]. split; [done|].
    right. by apply String.eqb_eq.
Qed.

Lemma GetOptimalServer_sound_witness :
  (∃ id, Core.servers Sample.abc !! id = Some (Sample.server "B" 1 "online")) ∧
  Core.Load (Sample.server "B" 1 "online")
    < Core.Capacity (Sample.server "B" 1 "online") ∧
  (Core.Country (Sample.server "B" 1 "online") = ""
   ∨ Core.Status (Sample.server "B" 1 "online") = "online").
Proof.
  apply (GetOptimalServer_sound Sample.abc ["A"; "B"; "C"] ["C"; "A"; "B"] "").
  vm_compute. reflexivity.
Defined.

(** X16.  Without a preferred country, on a registry whose loads are not
    negative: [GetOptimalServer] returns a server exactly when some online
    server has room, and the server returned has the least load among the
    online servers with room. *)
Theorem GetOptimalServer_least_loaded sm byCountry all :
  Core.visits sm all ->
  (∀ id s, Core.servers sm !! id = Some s -> 0 <= Core.Load s) ->
  match Core.GetOptimalServer sm byCountry all "" with
  | Ok server =>
      Core.Status server = "online" ∧
      ∀ id s, Core.servers sm !! id = Some s -> Core.Status s = "online" ->
              Core.Load s < Core.Capacity s -> Core.Load server <= Core.Load s
  | Err _ =>
      ∀ id s, Core.servers sm !! id = Some s -> Core.Status s = "online" ->
              Core.Capacity s <= Core.Load s
  end.
Proof.
  intros Hv Hpos. unfold Core.GetOptimalServer. cbn [String.eqb negb].
  set (onlineServers := filter _ (Core.range_servers sm all)).
  assert (∀ id s, Core.servers sm !! id = Some s -> Core.Status s = "online" ->
                  s ∈ onlineServers) as Hin.
  { intros id s Hs Hon. apply list_elem_of_filter. split.
    - unfold Core.online. by rewrite Hon.
    - by eapply range_servers_elem. }
  assert (∀ c, c ∈ onlineServers -> 0 <= Core.Load c) as Hpos'.
  { intros c [_ Hc]%list_elem_of_filter.
    apply range_servers_registered in Hc as [id Hid]. by eapply Hpos. }
  pose proof (lowest_load_spec onlineServers Hpos') as Hspec.
  destruct onlineServers as [|c cs] eqn:Hc.
  - intros id s Hs Hon. by apply Hin, elem_of_nil in Hs.
  - rewrite <- Hc in *. clear Hc c cs.
    destruct (Core.lowest_load onlineServers) as [server|].
    + destruct Hspec as ([Hon _]%list_elem_of_filter & _ & Hmin).
      split; [by apply String.eqb_eq|]. eauto.
    + eauto.
Qed.

Lemma GetOptimalServer_least_loaded_witness :
  match Core.GetOptimalServer Sample.abc ["A"; "B"; "C"] ["C"; "A"; "B"] "" with
  | Ok server =>
      Core.Status server = "online" ∧
      ∀ id s, Core.servers Sample.abc !! id = Some s -> Core.Status s = "online" ->
              Core.Load s < Core.Capacity s -> Core.Load server <= Core.Load s
  | Err _ =>
      ∀ id s, Core.servers Sample.abc !! id = Some s -> Core.Status s = "online" ->
              Core.Capacity s <= Core.Load s
  end.
Proof.
  apply (GetOptimalServer_least_loaded Sample.abc ["A"; "B"; "C"] ["C"; "A"; "B"]).
  - unfold Core.visits. vm_compute. apply (bool_decide_unpack _). vm_compute. exact I.
  - assert (map_Forall (λ _ s, 0 <= Core.Load s) (Core.servers Sample.abc)) as H
      by (apply (bool_decide_unpack _); vm_compute; exact I).
    intros id s Hs. exact (H id s Hs).
Defined.

(** X17.  With a preferred country that has registered servers, on a
    registry whose loads are not negative: the online servers of other
    countries are not considered.  [GetOptimalServer] returns a server of
    that country with the least load among its servers with room, and it
    fails with "all servers are at capacity" when none of them has room. *)
Theorem GetOptimalServer_in_country sm byCountry all country id0 s0 :
  Core.visits sm byCountry ->
  (∀ id s, Core.servers sm !! id = Some s -> 0 <= Core.Load s) ->
  country ≠ "" ->
  Core.servers sm !! id0 = Some s0 ->
  Core.Country s0 = country ->
  match Core.GetOptimalServer sm byCountry all country with
  | Ok server =>
      Core.Country server = country ∧
      ∀ id s, Core.servers sm !! id = Some s -> Core.Country s = country ->
              Core.Load s < Core.Capacity s -> Core.Load server <= Core.Load s
  | Err msg =>
      msg = "all servers are at capacity" ∧
      ∀ id s, Core.servers sm !! id = Some s -> Core.Country s = country ->
              Core.Capacity s <= Core.Load s
  end.
Proof.
  intros Hv Hpos Hne Hs0 Hc0. unfold Core.GetOptimalServer.
  destruct (String.eqb_spec country "") as [|_]; [done|]. cbn [negb].
  set (inCountry := Core.GetServersByCountry sm byCountry country).
  assert (∀ id s, Core.servers sm !! id = Some s -> Core.Country s = country ->
                  s ∈ inCountry) as Hin.
  { intros id s Hs Hc. apply list_elem_of_filter. split; [done|].
    by eapply range_servers_elem. }
  assert (∀ c, c ∈ inCountry -> 0 <= Core.Load c) as Hpos'.
  { intros c [_ Hc]%list_elem_of_filter.
    apply range_servers_registered in Hc as [id Hid]. by eapply Hpos. }
  pose proof (lowest_load_spec inCountry Hpos') as Hspec.
  destruct inCountry as [|c cs] eqn:Hc.
  - by apply Hin, elem_of_nil in Hs0.
  - rewrite <- Hc in *. clear Hc c cs.
    destruct (Core.lowest_load inCountry) as [server|].
    + destruct Hspec as ([Hcountry _]%list_elem_of_filter & _ & Hmin).
      split; [done|]. eauto.
    + split; [done|]. eauto.
Qed.

Lemma GetOptimalServer_in_country_witness :
  match Core.GetOptimalServer Sample.sm
          ["ap-northeast-1"; "eu-west-1"; "us-east-1"; "us-west-1"]
          ["ap-northeast-1"; "eu-west-1"; "us-east-1"; "us-west-1"] "Ireland" with
  | Ok server =>
      Core.Country server = "Ireland" ∧
      ∀ id s, Core.servers Sample.sm !! id = Some s -> Core.Country s = "Ireland" ->
              Core.Load s < Core.Capacity s -> Core.Load server <= Core.Load s
  | Err msg =>
      msg = "all servers are at capacity" ∧
      ∀ id s, Core.servers Sample.sm !! id = Some s -> Core.Country s = "Ireland" ->
              Core.Capacity s <= Core.Load s
  end.
Proof.
  apply (GetOptimalServer_in_country Sample.sm
           ["ap-northeast-1"; "eu-west-1"; "us-east-1"; "us-west-1"]
           ["ap-northeast-1"; "eu-west-1"; "us-east-1"; "us-west-1"] "Ireland"
           "eu-west-1"
           (Core.Build_Server "eu-west-1" "EU (Ireland)" "Ireland" "Dublin"
              "192.168.1.3" 0 100 "online" 2)).
  - unfold Core.visits. vm_compute. apply (bool_decide_unpack _). vm_compute. exact I.
  - assert (map_Forall (λ _ s, 0 <= Core.Load s) (Core.servers Sample.sm)) as H
      by (apply (bool_decide_unpack _); vm_compute; exact I).
    intros id s Hs. exact (H id s Hs).
  - discriminate.
  - reflexivity.
  - reflexivity.
Defined.

(** X18.  Registering a server under a fresh identifier and removing it
    again: [AddServer] succeeds and [GetServer] returns the server stamped
    with the time of registration; the other servers are as they were; and
    [RemoveServer] gives the registry back as it was before. *)
Theorem AddServer_RemoveServer_round_trip sm t server :
  Core.servers sm !! Core.ID server = None ->
  ∃ sm1,
    Registry.AddServer sm t server = (sm1, None) ∧
    Core.GetServer sm1 (Core.ID server) = Ok (Registry.set_LastUpdated server t) ∧
    (∀ id, id ≠ Core.ID server -> Core.GetServer sm1 id = Core.GetServer sm id) ∧
    Registry.RemoveServer sm1 (Core.ID server) = (sm, None).
Proof.
  intros Hfresh. unfold Registry.AddServer. rewrite Hfresh.
  eexists. split; [reflexivity|]. unfold Core.GetServer, Registry.RemoveServer.
  cbn [Core.servers]. rewrite lookup_insert_eq.
  split; [done|]. split.
  - intros id Hne. by rewrite lookup_insert_ne.
  - rewrite delete_insert_id by done. by destruct sm.
Qed.

Lemma AddServer_RemoveServer_round_trip_witness :
  ∃ sm1,
    Registry.AddServer Sample.sm 7 Sample.smallServer = (sm1, None) ∧
    Core.GetServer sm1 (Core.ID Sample.smallServer)
      = Ok (Registry.set_LastUpdated Sample.smallServer 7) ∧
    (∀ id, id ≠ Core.ID Sample.smallServer ->
           Core.GetServer sm1 id = Core.GetServer Sample.sm id) ∧
    Registry.RemoveServer sm1 (Core.ID Sample.smallServer) = (Sample.sm, None).
Proof.
  apply (AddServer_RemoveServer_round_trip Sample.sm 7 Sample.smallServer).
  reflexivity.
Defined.

(** X19.  [AddServer] never replaces a server: whatever is added, every
    server registered before is still registered, unchanged, afterwards;
    adding under an identifier that is taken returns an error. *)
Theorem AddServer_keeps_registered_servers sm t server id registered :
  Core.servers sm !! id = Some registered ->
  Core.servers (Registry.AddServer sm t server).1 !! id = Some registered ∧
  (id = Core.ID server -> is_Some (Registry.AddServer sm t server).2).
Proof.
  intros Hid. unfold Registry.AddServer.
  destruct (Core.servers sm !! Core.ID server) as [s0|] eqn:Hs; cbn [fst snd].
  - split; [done|by eauto].
  - cbn [Core.servers]. split.
    + rewrite lookup_insert_ne; [done|]. intros <-. by rewrite Hid in Hs.
    + intros ->. by rewrite Hid in Hs.
Qed.

Lemma AddServer_keeps_registered_servers_witness :
  Core.servers
    (Registry.AddServer Sample.abc 7 (Sample.server "B" 9 "offline")).1 !! "B"
    = Some (Sample.server "B" 1 "online") ∧
  ("B" = Core.ID (Sample.server "B" 9 "offline") ->
   is_Some (Registry.AddServer Sample.abc 7 (Sample.server "B" 9 "offline")).2).
Proof.
  apply (AddServer_keeps_registered_servers Sample.abc 7
           (Sample.server "B" 9 "offline") "B" (Sample.server "B" 1 "online")).
  reflexivity.
Defined.

(** X20.  After [checkServerStatus] the registered servers are the same,
    with every status either "online" or "offline" according to the probe,
    so that a server in maintenance does not stay in maintenance; load,
    capacity and the other attributes are kept, and a server whose status
    does not change is not touched at all. *)
Theorem checkServerStatus_effect sm probe clock id :
  match Core.servers sm !! id with
  | None => Core.servers (Registry.checkServerStatus sm probe clock) !! id = None
  | Some server =>
      ∃ checked,
        Core.servers (Registry.checkServerStatus sm probe clock) !! id
          = Some checked ∧
        Core.Status checked = (if probe id then "online" else "offline") ∧
        Core.ID checked = Core.ID server ∧
        Core.Country checked = Core.Country server ∧
        Core.Load checked = Core.Load server ∧
        Core.Capacity checked = Core.Capacity server ∧
        (Core.Status checked = Core.Status server -> checked = server)
  end.
Proof.
  unfold Registry.checkServerStatus. cbn [Core.servers].
  rewrite map_lookup_imap.
  destruct (Core.servers sm !! id) as [server|]; [|done].
  cbn [mbind option_bind]. eexists. split; [reflexivity|].
  unfold Registry.check_one.
  destruct (probe id);
    [destruct (String.eqb_spec (Core.Status server) "online") as [Heq|Hne]
    |destruct (String.eqb_spec (Core.Status server) "offline") as [Heq|Hne]];
    cbn [negb Core.set_Status Core.Status Core.ID Core.Country Core.Load
         Core.Capacity];
    split_and!; try done; intros Hst; by destruct Hne.
Qed.

Example checkServerStatus_ends_maintenance :
  Core.Status
    <$> Core.servers
          (Registry.checkServerStatus Sample.sm (λ _, true) (λ _, 60))
        !! "ap-northeast-1"
  = Some "online".
Proof. vm_compute. reflexivity. Qed.


(** ** The server manager of the VPN manager's file *)

Section AltFacts.

Lemma alt_range_servers_registered sm order server :
  server ∈ CoreAlt.range_servers sm order ->
  ∃ id, CoreAlt.servers sm !! id = Some server.
Proof.
  unfold CoreAlt.range_servers. rewrite list_elem_of_omap.
  intros (id & _ & Hid). by exists id.
Qed.

Lemma alt_range_servers_elem sm order id server :
  CoreAlt.visits sm order ->
  CoreAlt.servers sm !! id = Some server ->
  server ∈ CoreAlt.range_servers sm order.
Proof.
  unfold CoreAlt.visits, CoreAlt.range_servers. intros -> Hs.
  rewrite omap_lookup_fst by (intros k v Hin; by apply elem_of_map_to_list).
  apply list_elem_of_fmap. exists (id, server). split; [done|].
  by apply elem_of_map_to_list.
Qed.

Lemma best_step_inv seen acc c :
  0 <= CoreAlt.Load c ->
  CoreAlt.best_inv seen acc ->
  CoreAlt.best_inv (λ x, seen x ∨ x = c) (CoreAlt.best_step acc c).
Proof.
  intros Hc. destruct acc as [[s|] best]; unfold CoreAlt.best_step;
    destruct (String.eqb_spec (CoreAlt.Status c) "online") as [Hon|Hoff];
    cbn [negb].
  - intros (-> & H0 & Hs & Hson & Hmin).
    destruct (Z.eqb_spec (CoreAlt.Load s) (-1)); [lia|]. cbn [orb].
    destruct (Z.ltb_spec (CoreAlt.Load c) (CoreAlt.Load s)).
    + split_and!; [done|done|by right|done|].
      intros x [Hx| ->] Hx'; [|lia]. specialize (Hmin x Hx Hx'). lia.
    + split_and!; [done|done|by left|done|].
      intros x [Hx| ->] Hx'; [auto|lia].
  - intros (-> & H0 & Hs & Hson & Hmin).
    split_and!; [done|done|by left|done|].
    intros x [Hx| ->] Hx'; [auto|done].
  - intros (-> & Hnone). cbn [Z.eqb orb].
    split_and!; [done|done|by right|done|].
    intros x [Hx| ->] Hx'; [|lia]. by destruct (Hnone x Hx).
  - intros (-> & Hnone). split; [done|]. intros x [Hx| ->]; [auto|done].
Qed.

Lemma best_fold_inv candidates : ∀ seen acc,
  (∀ c, c ∈ candidates -> 0 <= CoreAlt.Load c) ->
  CoreAlt.best_inv seen acc ->
  CoreAlt.best_inv (λ x, seen x ∨ x ∈ candidates)
                   (fold_left CoreAlt.best_step candidates acc).
Proof.
  induction candidates as [|c candidates IH]; intros seen acc Hpos Hinv.
  - cbn [fold_left]. destruct acc as [[s|] best]; cbn [CoreAlt.best_inv] in *.
    + destruct Hinv as (? & ? & ? & ? & Hmin).
      split_and!; [done|done|by left|done|].
      intros x [Hx|Hx%elem_of_nil] Hx'; [auto|done].
    + destruct Hinv as (? & Hnone). split; [done|].
      intros x [Hx|Hx%elem_of_nil]; [auto|done].
  - cbn [fold_left].
    assert (CoreAlt.best_inv (λ x, (seen x ∨ x = c) ∨ x ∈ candidates)
              (fold_left CoreAlt.best_step candidates (CoreAlt.best_step acc c)))
      as H.
    { apply IH; [intros x Hx; apply Hpos; by right|].
      apply best_step_inv; [apply Hpos; left|done]. }
    destruct (fold_left _ _ _) as [[s|] best]; cbn [CoreAlt.best_inv] in *.
    + destruct H as (? & ? & Hs & ? & Hmin). split_and!; [done|done| |done|].
      * destruct Hs as [[?| ->]|?]; [by left|right; left|right; by right].
      * intros x [Hx|Hx%elem_of_cons] Hx'; apply Hmin; auto.
        destruct Hx as [->|Hx]; auto.
    + destruct H as (? & Hnone). split; [done|].
      intros x [Hx|Hx%elem_of_cons]; apply Hnone; auto.
      destruct Hx as [->|Hx]; auto.
Qed.

End AltFacts.

(** X22.  [GetBestServer] of the second server manager, on a registry
    whose loads are not negative: it returns a registered online server of
    least load among the online servers, whatever the order of the visit;
    it fails exactly when no registered server is online, with "no servers
    available" when the registry is empty and "no online servers available"
    otherwise. *)
Theorem GetBestServer_least_loaded_online sm order :
  CoreAlt.visits sm order ->
  (∀ id s, CoreAlt.servers sm !! id = Some s -> 0 <= CoreAlt.Load s) ->
  match CoreAlt.GetBestServer sm order with
  | Ok best =>
      (∃ id, CoreAlt.servers sm !! id = Some best) ∧
      CoreAlt.Status best = "online" ∧
      ∀ id s, CoreAlt.servers sm !! id = Some s -> CoreAlt.Status s = "online" ->
              CoreAlt.Load best <= CoreAlt.Load s
  | Err msg =>
      (∀ id s, CoreAlt.servers sm !! id = Some s -> CoreAlt.Status s ≠ "online") ∧
      msg = (if bool_decide (CoreAlt.servers sm = ∅)
             then "no servers available" else "no online servers available")
  end.
Proof.
  intros Hv Hpos. unfold CoreAlt.GetBestServer.
  case_bool_decide as Hempty.
  { split; [|done]. intros id s Hs. by rewrite Hempty, lookup_empty in Hs. }
  assert (CoreAlt.best_inv (λ x, False ∨ x ∈ CoreAlt.range_servers sm order)
            (fold_left CoreAlt.best_step (CoreAlt.range_servers sm order)
               (None, -1))) as H.
  { apply best_fold_inv.
    - intros c [id Hid]%alt_range_servers_registered. by eapply Hpos.
    - split; [done|]. by intros c []. }
  destruct (fold_left _ _ _) as [[best|] l]; cbn [fst CoreAlt.best_inv] in *.
  - destruct H as (_ & _ & [[]|Hin] & Hon & Hmin).
    split; [by eapply alt_range_servers_registered|]. split; [done|].
    intros id s Hs Hson. apply Hmin; [|done]. right.
    by eapply alt_range_servers_elem.
  - destruct H as (_ & Hnone). split; [|done].
    intros id s Hs. apply Hnone. right. by eapply alt_range_servers_elem.
Qed.

Lemma GetBestServer_least_loaded_online_witness :
  match CoreAlt.GetBestServer Fixture.altServers ["server-3"; "server-1"; "server-2"]
  with
  | Ok best =>
      (∃ id, CoreAlt.servers Fixture.altServers !! id = Some best) ∧
      CoreAlt.Status best = "online" ∧
      ∀ id s, CoreAlt.servers Fixture.altServers !! id = Some s ->
              CoreAlt.Status s = "online" -> CoreAlt.Load best <= CoreAlt.Load s
  | Err msg =>
      (∀ id s, CoreAlt.servers Fixture.altServers !! id = Some s ->
               CoreAlt.Status s ≠ "online") ∧
      msg = (if bool_decide (CoreAlt.servers Fixture.altServers = ∅)
             then "no servers available" else "no online servers available")
  end.
Proof.
  apply (GetBestServer_least_loaded_online Fixture.altServers
           ["server-3"; "server-1"; "server-2"]).
  - unfold CoreAlt.visits. vm_compute. apply (bool_decide_unpack _). vm_compute.
    exact I.
  - assert (map_Forall (λ _ s, 0 <= CoreAlt.Load s)
              (CoreAlt.servers Fixture.altServers)) as H
      by (apply (bool_decide_unpack _); vm_compute; exact I).
    intros id s Hs. exact (H id s Hs).
Defined.

Example GetBestServer_sample :
  CoreAlt.ID <$> match CoreAlt.GetBestServer Fixture.altServers
                         ["server-3"; "server-1"; "server-2"] with
                 | Ok best => Some best
                 | Err _ => None
                 end
  = Some "server-2".
Proof. vm_compute. reflexivity. Qed.

(** ** The connect handler *)

(** X23.  What [ConnectHandler] answers to a decoded request.  A response
    with a body has status 200; its [peerId] is the identifier drawn for the
    new peer, its [config] is what [GetConfig] then returns for that peer,
    and it carries a [qrCode] member exactly when the device type of the
    request is "android" or "ios", written so.  A request without a server
    identifier is answered 400 and nothing is touched; any other failure is
    answered 500. *)
Theorem ConnectHandler_response lower apply vm env order u req fs vm1 fs1 response :
  Handlers.ConnectHandler lower apply vm env order u (Some req)
      fs = (vm1, fs1, response) ->
  match response with
  | Handlers.JSONResponse code body =>
      code = 200 ∧
      Api.PeerID body = uuid env ∧
      Vpn.GetConfig lower vm1 order u (Api.PeerID body) fs1 = Ok (Api.Config body) ∧
      (is_Some (Json.member "qrCode" (Api.MarshalConnectResponse body))
       ↔ Handlers.DeviceType req = "android" ∨ Handlers.DeviceType req = "ios")
  | Handlers.ErrorResponse code message =>
      (code = 400 ∧ Handlers.ServerID req = "" ∧ vm1 = vm ∧ fs1 = fs)
      ∨ (code = 500 ∧ Handlers.ServerID req ≠ "")
  end.
Proof.
  unfold Handlers.ConnectHandler.
  destruct (String.eqb_spec (Handlers.ServerID req) "") as [Hempty|Hserver].
  { intros [= <- <- <-]. by left. }
  set (deviceType := if String.eqb (Handlers.DeviceType req) "" then "generic"
                     else Handlers.DeviceType req).
  set (deviceName := if String.eqb (Handlers.DeviceName req) "" then deviceType
                     else Handlers.DeviceName req).
  destruct (Core.Connect lower apply vm env order u (Handlers.ServerID req)
              deviceType deviceName fs) as [[vm' fs'] [[peer config]|e]] eqn:Hc;
    intros [= <- <- <-]; [|by right].
  apply Connect_ok_inv in Hc as (server & _ & _ & Hc & Hg & ->).
  destruct (CreatePeer_inv _ _ _ _ _ _ _ _ _ _ Hc)
    as (q & -> & Hid & Hu & _ & _ & _ & _ & _ & Hr).
  destruct (apply _ _); [done|]. injection Hr as <-.
  split; [done|]. split; [done|]. split.
  - unfold Vpn.GetConfig, Wireguard.GetPeer.
    cbn [Core.peerManager Core.set_serverManager Api.connectResponse Api.PeerID
         Api.Config].
    rewrite <- Hu, getPeerConfig_saved. by rewrite Hg.
  - unfold Api.MarshalConnectResponse, Api.connectResponse, Handlers.GenerateQRCode.
    cbn [Api.QRCode Api.Config Api.PeerID Api.ServerIP].
    assert (String.eqb deviceType "android"
        = String.eqb (Handlers.DeviceType req) "android"
            ∧ String.eqb deviceType "ios" = String.eqb (Handlers.DeviceType req) "ios")
      as [-> ->].
    { unfold deviceType.
      by destruct (String.eqb_spec (Handlers.DeviceType req) "") as [->|]. }
    destruct (String.eqb_spec (Handlers.DeviceType req) "android") as [Ha|Ha];
      [|destruct (String.eqb_spec (Handlers.DeviceType req) "ios") as [Hi|Hi]];
      cbn [orb String.eqb app Json.member]; split.
    + by left.
    + intros _. by eexists.
    + by right.
    + intros _. by eexists.
    + by intros [x Hx].
    + by intros [?|?].
Qed.

Lemma ConnectHandler_response_witness :
  match
    (Handlers.ConnectHandler Sample.lower Wireguard.applyConfiguration Sample.vm
       (Sample.env "peer-1" 100) Wireguard.placeholderKeys "alice"
       (Some (Handlers.Build_ConnectRequest "us-east-1" "android" "phone")) Sample.fs).2
  with
  | Handlers.JSONResponse code body =>
      code = 200 ∧
      Api.PeerID body = "peer-1" ∧
      Vpn.GetConfig Sample.lower Sample.afterAlice.1 Wireguard.placeholderKeys "alice"
        (Api.PeerID body) Sample.afterAlice.2 = Ok (Api.Config body) ∧
      (is_Some (Json.member "qrCode" (Api.MarshalConnectResponse body))
       ↔ "android" = "android" ∨ "android" = "ios")
  | Handlers.ErrorResponse code message =>
      (code = 400 ∧ "us-east-1" = "" ∧ Sample.afterAlice.1 = Sample.vm
       ∧ Sample.afterAlice.2 = Sample.fs)
      ∨ (code = 500 ∧ "us-east-1" ≠ "")
  end.
Proof.
  apply (ConnectHandler_response Sample.lower Wireguard.applyConfiguration Sample.vm
           (Sample.env "peer-1" 100) Wireguard.placeholderKeys "alice"
           (Handlers.Build_ConnectRequest "us-east-1" "android" "phone") Sample.fs
           Sample.afterAlice.1 Sample.afterAlice.2).
  vm_compute. reflexivity.
Defined.

(** A request for an "iPhone" is served the iOS template and no QR code. *)
Example ConnectHandler_iphone :
  Wireguard.templateFile Sample.lower "iPhone" = "ios.conf" ∧
  ∃ st body,
    Handlers.ConnectHandler Sample.lower Wireguard.applyConfiguration Sample.vm
      (Sample.env "peer-1" 100) Wireguard.placeholderKeys "alice"
      (Some (Handlers.Build_ConnectRequest "us-east-1" "iPhone" "")) Fixture.fsIos
    = (st, Handlers.JSONResponse 200 body) ∧
    Json.member "qrCode" (Api.MarshalConnectResponse body) = None.
Proof. split; [reflexivity|]. do 2 eexists. split; vm_compute; reflexivity. Qed.

(** ** Status of a user and removed servers *)

Lemma status_from_spec format sm env peers : ∀ i,
  match Vpn.status_from format sm env i peers with
  | Ok infos =>
      Forall2 (λ info peer,
                 ∃ server, Core.servers sm !! Wireguard.ServerID peer = Some server ∧
                           Vpn.ServerName info = Core.Name server ∧
                           Vpn.ID info = Wireguard.ID peer ∧
                           Vpn.ServerID info = Wireguard.ServerID peer ∧
                           Vpn.IP info = Wireguard.IP peer)
              infos peers
  | Err msg =>
      ∃ peer, peer ∈ peers ∧
              Core.servers sm !! Wireguard.ServerID peer = None ∧
              msg = "server not found: " +:+ Wireguard.ServerID peer
  end.
Proof.
  induction peers as [|peer peers IH]; intros i; cbn [Vpn.status_from].
  - constructor.
  - unfold Core.GetServer.
    destruct (Core.servers sm !! Wireguard.ServerID peer) as [server|] eqn:Hs.
    + specialize (IH (S i)).
      destruct (Vpn.status_from format sm env (S i) peers) as [infos|msg].
      * constructor; [|done]. by exists server.
      * destruct IH as (p & Hin & Hp & ->). exists p. split; [by right|done].
    + exists peer. split; [by left|done].
Qed.

(** X24.  [GetStatus] answers with one entry per peer [GetPeers] lists for
    the user, in the same order, each carrying the identifier, the server
    and the address of its peer and the name of that server; it fails as a
    whole, with "server not found", as soon as one of the user's peers
    refers to a server that is not registered, and with "failed to get
    peers" when [GetPeers] itself fails. *)
Theorem GetStatus_entries format vm env u fs :
  match Wireguard.GetPeers (Core.peerManager vm) u fs with
  | Ok peers =>
      match Vpn.GetStatus format vm env u fs with
      | Ok infos =>
          Forall2 (λ info peer,
                     ∃ server,
                       Core.servers (Core.serverManager vm)
                         !! Wireguard.ServerID peer = Some server ∧
                       Vpn.ServerName info = Core.Name server ∧
                       Vpn.ID info = Wireguard.ID peer ∧
                       Vpn.ServerID info = Wireguard.ServerID peer ∧
                       Vpn.IP info = Wireguard.IP peer)
                  infos peers
      | Err msg =>
          ∃ peer, peer ∈ peers ∧
                  Core.servers (Core.serverManager vm)
                    !! Wireguard.ServerID peer = None ∧
                  msg = "server not found: " +:+ Wireguard.ServerID peer
      end
  | Err e => Vpn.GetStatus format vm env u fs = Err ("failed to get peers: " +:+ e)
  end.
Proof.
  unfold Vpn.GetStatus.
  destruct (Wireguard.GetPeers (Core.peerManager vm) u fs) as [peers|e]; [|done].
  apply status_from_spec.
Qed.

(** X25.  [Disconnect] does not need the server of the peer: for a static
    peer stored under its own user and identifier whose server is not
    registered, as after [RemoveServer], [Disconnect] succeeds and the
    manager is as it was, the error of [UpdateServerLoad] being dropped; the
    static record is removed, so that [GetPeer] then finds only what the
    dynamic namespace holds under that identifier. *)
Theorem Disconnect_without_server vm env u i fs peer :
  Wireguard.getPeerConfig (Core.peerManager vm) u i fs = Ok peer ->
  Wireguard.UserID peer = u ->
  Wireguard.ID peer = i ->
  Core.servers (Core.serverManager vm) !! Wireguard.ServerID peer = None ->
  ∃ fs1,
    Core.Disconnect Wireguard.applyConfiguration vm env u i fs = (vm, fs1, None) ∧
    Wireguard.GetPeer (Core.peerManager vm) u i fs1
      = Wireguard.getDynamicPeerConfig (Core.peerManager vm) u i fs.
Proof.
  intros Hget Hu Hi Hs.
  destruct (RemovePeer_inv Wireguard.applyConfiguration (Core.peerManager vm)
              u i fs peer Hget Hu Hi) as [Hr Hgone].
  unfold Core.Disconnect, Wireguard.GetPeer. rewrite Hget, Hr.
  cbn [Wireguard.applyConfiguration].
  eexists. split.
  - unfold Core.UpdateServerLoad. rewrite Hs. by destruct vm.
  - unfold Wireguard.getPeerConfig, Wireguard.read_metadata. rewrite Hgone.
    unfold Wireguard.getDynamicPeerConfig, Wireguard.deletePeerConfig.
    by destruct (Wireguard.peer_dir (Wireguard.static_root fs) _ _).
Qed.

Lemma Disconnect_without_server_witness :
  ∃ fs1,
    Core.Disconnect Wireguard.applyConfiguration Fixture.aliceOrphaned
      (Sample.env "" 950) "alice" "peer-1" Sample.afterAlice.2
      = (Fixture.aliceOrphaned, fs1, None) ∧
    Wireguard.GetPeer (Core.peerManager Fixture.aliceOrphaned) "alice" "peer-1" fs1
      = Wireguard.getDynamicPeerConfig (Core.peerManager Fixture.aliceOrphaned)
          "alice" "peer-1" Sample.afterAlice.2.
Proof.
  apply (Disconnect_without_server Fixture.aliceOrphaned (Sample.env "" 950)
           "alice" "peer-1" Sample.afterAlice.2 Sample.alicePeer);
    reflexivity.
Defined.

(** After the server of alice's peer is removed, her status cannot be
    read. *)
Example GetStatus_after_RemoveServer :
  Vpn.GetStatus GoStrings.itoa Fixture.aliceOrphaned (Sample.env "" 950) "alice"
    Sample.afterAlice.2
  = Err "server not found: us-east-1".
Proof. vm_compute. reflexivity. Qed.
